(** * Discord channel crawler: a shallow embedding of the extension's
    content script (ScraperService), background worker (IndexedDBManager,
    crawl state and message handlers) and SQLite exporter, with the
    properties of its specification stated and proved over it. *)

From Stdlib Require Import ZArith QArith Qminmax String Ascii List Bool Lia.
From stdpp Require Import gmap strings list fin_maps pretty.
Import ListNotations.

Set Warnings "-register-all".
#[local] Open Scope string_scope.
#[local] Open Scope Z_scope.

(** ** JavaScript strings

    Strings are byte strings; the patterns the program searches for are
    ASCII, so searching in UTF-8 text agrees with searching in the UTF-16
    original. *)

Module JsString.

(** [s.startsWith(p)] *)
Definition startsWith (s p : string) : bool := String.prefix p s.

(** [s.includes(p)] *)
Fixpoint includes (s p : string) : bool :=
  String.prefix p s ||
  match s with
  | EmptyString => false
  | String _ s' => includes s' p
  end.

(** What follows the prefix [p] in [s], when [s] starts with [p]. *)
Fixpoint strip_prefix (p s : string) : option string :=
  match p with
  | EmptyString => Some s
  | String c p' =>
      match s with
      | String d s' => if Ascii.eqb c d then strip_prefix p' s' else None
      | EmptyString => None
      end
  end.

Definition is_digit (c : ascii) : bool :=
  let n := nat_of_ascii c in (48 <=? n)%nat && (n <=? 57)%nat.

Definition digit_value (c : ascii) : Z := Z.of_nat (nat_of_ascii c) - 48.

(** White space removed by [trim] and skipped by [parseInt] (the ASCII
    part of the ECMAScript WhiteSpace and LineTerminator classes). *)
Definition is_space (c : ascii) : bool :=
  let n := nat_of_ascii c in (n =? 32)%nat || ((9 <=? n)%nat && (n <=? 13)%nat).

Fixpoint trimStart (s : string) : string :=
  match s with
  | String c s' => if is_space c then trimStart s' else s
  | EmptyString => EmptyString
  end.

Fixpoint trimEnd (s : string) : string :=
  match s with
  | EmptyString => EmptyString
  | String c s' =>
      match trimEnd s' with
      | EmptyString => if is_space c then EmptyString else String c EmptyString
      | t => String c t
      end
  end.

Definition trim (s : string) : string := trimEnd (trimStart s).

(** Longest prefix of decimal digits, and what follows it. *)
Fixpoint span_digits (s : string) : string * string :=
  match s with
  | String c s' =>
      if is_digit c then let '(d, r) := span_digits s' in (String c d, r)
      else (EmptyString, s)
  | EmptyString => (EmptyString, EmptyString)
  end.

Fixpoint all_digits (s : string) : bool :=
  match s with
  | EmptyString => true
  | String c s' => is_digit c && all_digits s'
  end.

Definition hex_value (c : ascii) : option Z :=
  let n := nat_of_ascii c in
  if (48 <=? n)%nat && (n <=? 57)%nat then Some (Z.of_nat n - 48)
  else if (97 <=? n)%nat && (n <=? 102)%nat then Some (Z.of_nat n - 87)
  else if (65 <=? n)%nat && (n <=? 70)%nat then Some (Z.of_nat n - 55)
  else None.

(** Value of the longest prefix of digits in the given radix; [None]
    when there is no digit at all. *)
Fixpoint digits_prefix (radix : Z) (acc : option Z) (s : string) : option Z :=
  match s with
  | EmptyString => acc
  | String c s' =>
      match hex_value c with
      | Some d =>
          if d <? radix
          then digits_prefix radix (Some (radix * default 0 acc + d)) s'
          else acc
      | None => acc
      end
  end.

(** [parseInt(s)] with no radix argument; [None] is NaN.  Numbers are
    mathematical integers here (no loss of precision beyond 2^53). *)
Definition parseInt (s : string) : option Z :=
  let s1 := trimStart s in
  let '(sign, s2) :=
    match s1 with
    | String "-" r => (-1, r)
    | String "+" r => (1, r)
    | _ => (1, s1)
    end in
  let '(radix, s3) :=
    match s2 with
    | String "0" (String "x" r) => (16, r)
    | String "0" (String "X" r) => (16, r)
    | _ => (10, s2)
    end in
  (fun n => sign * n) <$> digits_prefix radix None s3.

(** [s.split(/\s+/)] without the empty pieces: the tokens of a
    [class] attribute, as [classList] exposes them. *)
Fixpoint tokens_go (cur : string) (s : string) : list string :=
  match s with
  | EmptyString => if String.eqb cur "" then [] else [cur]
  | String c s' =>
      if is_space c
      then (if String.eqb cur "" then tokens_go "" s' else cur :: tokens_go "" s')
      else tokens_go (cur ++ String c EmptyString) s'
  end.

Definition tokens (s : string) : list string := tokens_go "" s.

End JsString.

(** ** Regular expressions used by the program

    Every pattern of the program is a sequence of literals and [\d+]
    groups in which a [\d+] is followed by a literal that starts with a
    non-digit, or ends the pattern.  For such patterns the greedy match
    below is exactly the backtracking match of the JavaScript engine. *)

Module Regex.
Import JsString.

Inductive Atom :=
  | Lit (s : string)          (* literal text *)
  | Digits                    (* \d+ , not captured *)
  | DigitsCapture             (* (\d+) *)
  | EndAnchor.                (* $ *)

(** Match the atoms at the beginning of [s]; the captures in order. *)
Fixpoint match_here (re : list Atom) (s : string) : option (list string) :=
  match re with
  | [] => Some []
  | Lit l :: re' =>
      match strip_prefix l s with
      | Some r => match_here re' r
      | None => None
      end
  | Digits :: re' =>
      let '(d, r) := span_digits s in
      if String.eqb d "" then None else match_here re' r
  | DigitsCapture :: re' =>
      let '(d, r) := span_digits s in
      if String.eqb d "" then None
      else cons d <$> match_here re' r
  | EndAnchor :: re' =>
      if String.eqb s "" then match_here re' s else None
  end.

(** [s.match(/re/)] for an unanchored pattern: the leftmost match. *)
Fixpoint search (re : list Atom) (s : string) : option (list string) :=
  match match_here re s with
  | Some caps => Some caps
  | None =>
      match s with
      | EmptyString => None
      | String _ s' => search re s'
      end
  end.

(** [/^chat-messages-\d+-(\d+)$/] *)
Definition chat_message_id : list Atom :=
  [Lit "chat-messages-"; Digits; Lit "-"; DigitsCapture; EndAnchor].

(** [/guilds\/\d+\/users\/(\d+)\/avatars\//] *)
Definition guild_avatar : list Atom :=
  [Lit "guilds/"; Digits; Lit "/users/"; DigitsCapture; Lit "/avatars/"].

(** [/avatars\/(\d+)\//] *)
Definition user_avatar : list Atom :=
  [Lit "avatars/"; DigitsCapture; Lit "/"].

(** [/discord\.com\/channels\/(\d+)\/(\d+)/] *)
Definition channel_url : list Atom :=
  [Lit "discord.com/channels/"; DigitsCapture; Lit "/"; DigitsCapture].

End Regex.

(** ** JavaScript values

    The values that records are made of.  Records reach the store and the
    exporter through the extension's message channel, which carries JSON:
    [null], booleans, numbers (integers here), strings, arrays and plain
    objects; [undefined] is what reading a missing property gives. *)

Inductive Val :=
  | VUndefined
  | VNull
  | VBool (b : bool)
  | VNum (n : Z)
  | VStr (s : string)
  | VArr (items : list Val)
  | VObj (fields : gmap string Val).

Module Js.

(** ToBoolean *)
Definition truthy (v : Val) : bool :=
  match v with
  | VUndefined | VNull => false
  | VBool b => b
  | VNum n => negb (n =? 0)
  | VStr s => negb (String.eqb s "")
  | VArr _ | VObj _ => true
  end.

(** [a || b] *)
Definition or (a b : Val) : Val := if truthy a then a else b.

(** [v !== undefined] *)
Definition defined (v : Val) : bool :=
  match v with VUndefined => false | _ => true end.

(** [typeof v === 'string'] *)
Definition is_string (v : Val) : bool :=
  match v with VStr _ => true | _ => false end.

(** Property read [v.f] (optional chaining on [null]/[undefined]). *)
Definition get (v : Val) (f : string) : Val :=
  match v with
  | VObj o => default VUndefined (o !! f)
  | VArr l => if String.eqb f "length" then VNum (Z.of_nat (length l)) else VUndefined
  | VStr s => if String.eqb f "length" then VNum (Z.of_nat (String.length s)) else VUndefined
  | _ => VUndefined
  end.

(** Object spread [{...v}]: the own enumerable properties of an object
    value, nothing for [undefined] and [null].  (The program spreads
    records and [undefined] only.) *)
Definition spread (v : Val) : gmap string Val :=
  match v with
  | VObj o => o
  | _ => ∅
  end.

Definition of_option_string (o : option string) : Val :=
  match o with Some s => VStr s | None => VNull end.

(** [a === b] as [Map] compares keys.  The arrays and objects of a
    snapshot are distinct objects, never identical to one another. *)
Definition same_value (a b : Val) : bool :=
  match a, b with
  | VUndefined, VUndefined => true
  | VNull, VNull => true
  | VBool x, VBool y => Bool.eqb x y
  | VNum x, VNum y => x =? y
  | VStr x, VStr y => String.eqb x y
  | _, _ => false
  end.

(** Elements of [Array.prototype.join]: [null] and [undefined] are empty. *)
Fixpoint to_string (v : Val) : string :=
  match v with
  | VUndefined => "undefined"
  | VNull => "null"
  | VBool b => if b then "true" else "false"
  | VNum n => pretty n
  | VStr s => s
  | VArr l =>
      (fix join (l : list Val) : string :=
         match l with
         | [] => ""
         | x :: l' =>
             match x with
             | VUndefined | VNull => ""
             | _ => to_string x
             end ++
             match l' with
             | [] => ""
             | _ :: _ => "," ++ join l'
             end
         end) l
  | VObj _ => "[object Object]"
  end.

End Js.

(** ** The document

    A DOM tree of text and element nodes.  [tagName] is stored as the DOM
    reports it for HTML elements (upper case), attribute names in lower
    case.  An element reference carries the chain of its ancestors, nearest
    first, each with the index of the child the chain goes through: the
    index path is the identity of the node ([===] on elements). *)

Module Dom.
Import JsString.

Inductive Node :=
  | Text (data : string)
  | Elem (tagName : string) (attributes : list (string * string))
         (childNodes : list Node).

Record Element := mkElement {
  node : Node;
  ancestors : list (Node * nat)
}.

Definition tagName (e : Element) : string :=
  match node e with Elem t _ _ => t | Text _ => "" end.

Fixpoint assoc (k : string) (l : list (string * string)) : option string :=
  match l with
  | [] => None
  | (k', v) :: l' => if String.eqb k k' then Some v else assoc k l'
  end.

Definition node_attribute (n : Node) (name : string) : option string :=
  match n with Elem _ a _ => assoc name a | Text _ => None end.

(** [e.getAttribute(name)]; [None] is [null]. *)
Definition getAttribute (e : Element) (name : string) : option string :=
  node_attribute (node e) name.

(** [e.classList] *)
Definition classList (e : Element) : list string :=
  tokens (default "" (getAttribute e "class")).

(** [n.textContent] *)
Fixpoint node_text (n : Node) : string :=
  match n with
  | Text d => d
  | Elem _ _ cs =>
      (fix go (l : list Node) : string :=
         match l with
         | [] => ""
         | c :: l' => node_text c ++ go l'
         end) cs
  end.

Definition textContent (e : Element) : string := node_text (node e).

(** [e.parentElement] *)
Definition parentElement (e : Element) : option Element :=
  match ancestors e with
  | [] => None
  | (p, _) :: up => Some (mkElement p up)
  end.

(** [a === b] for two elements of one document. *)
Definition same_node (a b : Element) : bool :=
  bool_decide (map snd (ancestors a) = map snd (ancestors b)).

(** The elements below a node, in document order. *)
Fixpoint descendants_from (n : Node) (up : list (Node * nat)) : list Element :=
  match n with
  | Text _ => []
  | Elem _ _ cs =>
      (fix go (l : list Node) (i : nat) : list Element :=
         match l with
         | [] => []
         | c :: l' =>
             match c with
             | Text _ => go l' (S i)
             | Elem _ _ _ =>
                 mkElement c ((n, i) :: up)
                 :: descendants_from c ((n, i) :: up) ++ go l' (S i)
             end
         end) cs 0%nat
  end.

Definition descendants (e : Element) : list Element :=
  descendants_from (node e) (ancestors e).

(** *** Selectors *)

Inductive AttrOp :=
  | AttrEq          (* [a="v"]  *)
  | AttrPrefix      (* [a^="v"] *)
  | AttrContains.   (* [a*="v"] *)

Definition AttrTest : Type := string * AttrOp * string.

(** A compound selector: [tag.class[attr op "v"]:not([attr op "v"])]. *)
Record Compound := mkCompound {
  sel_tag : option string;
  sel_classes : list string;
  sel_attrs : list AttrTest;
  sel_not : list AttrTest
}.

(** Compounds joined by the descendant combinator; the last one selects. *)
Definition Selector : Type := list Compound.

Definition attr_test (n : Node) (t : AttrTest) : bool :=
  let '(name, op, v) := t in
  match node_attribute n name with
  | None => false
  | Some a =>
      match op with
      | AttrEq => String.eqb a v
      | AttrPrefix => startsWith a v
      | AttrContains => includes a v
      end
  end.

Definition matches_compound (n : Node) (c : Compound) : bool :=
  match n with
  | Text _ => false
  | Elem t _ _ =>
      match sel_tag c with Some t' => String.eqb t t' | None => true end
      && forallb (fun cl => existsb (String.eqb cl)
                              (tokens (default "" (node_attribute n "class"))))
                 (sel_classes c)
      && forallb (attr_test n) (sel_attrs c)
      && forallb (fun t => negb (attr_test n t)) (sel_not c)
  end.

(** Does the chain of ancestors satisfy the remaining compounds, read
    from the innermost outwards? *)
Fixpoint matches_up (cs_rev : list Compound) (up : list (Node * nat)) : bool :=
  match cs_rev with
  | [] => true
  | c :: cs' =>
      (fix find (l : list (Node * nat)) : bool :=
         match l with
         | [] => false
         | (a, _) :: l' =>
             if matches_compound a c then matches_up cs' l' else find l'
         end) up
  end.

(** [e.matches(sel)] *)
Definition matches (sel : Selector) (e : Element) : bool :=
  match rev sel with
  | [] => false
  | c :: cs_rev => matches_compound (node e) c && matches_up cs_rev (ancestors e)
  end.

(** [e.querySelectorAll(sel)] *)
Definition querySelectorAll (e : Element) (sel : Selector) : list Element :=
  filter (fun d => matches sel d = true) (descendants e).

(** [e.querySelector(sel)]; [None] is [null]. *)
Definition querySelector (e : Element) (sel : Selector) : option Element :=
  head (querySelectorAll e sel).

(** [e.closest(sel)]: the element itself or its nearest matching ancestor. *)
Fixpoint closest_up (sel : Selector) (up : list (Node * nat)) : option Element :=
  match up with
  | [] => None
  | (p, _) :: up' =>
      if matches sel (mkElement p up') then Some (mkElement p up')
      else closest_up sel up'
  end.

Definition closest (e : Element) (sel : Selector) : option Element :=
  if matches sel e then Some e else closest_up sel (ancestors e).

(** *** Selector shorthands *)

Definition tag (t : string) : Compound := mkCompound (Some t) [] [] [].
Definition attr (name : string) (op : AttrOp) (v : string) : Compound :=
  mkCompound None [] [(name, op, v)] [].
Definition tag_attr (t name : string) (op : AttrOp) (v : string) : Compound :=
  mkCompound (Some t) [] [(name, op, v)] [].

(** The document: [document.documentElement] as an element reference. *)
Definition document_root (html : Node) : Element := mkElement html [].

(** [document.querySelector(sel)] *)
Definition document_querySelector (html : Node) (sel : Selector) : option Element :=
  let root := document_root html in
  if matches sel root then Some root else querySelector root sel.

End Dom.

(** HTML serialisation of the children of an element ([innerHTML]),
    for trees of elements and text. *)

Module Html.
Import Dom.

Definition lower (c : ascii) : ascii :=
  let n := nat_of_ascii c in
  if (65 <=? n)%nat && (n <=? 90)%nat then ascii_of_nat (n + 32) else c.

Fixpoint lowercase (s : string) : string :=
  match s with
  | EmptyString => EmptyString
  | String c s' => String (lower c) (lowercase s')
  end.

Definition quote_char : ascii := ascii_of_nat 34.
Definition quote : string := String quote_char EmptyString.

Fixpoint escape (in_attribute : bool) (s : string) : string :=
  match s with
  | EmptyString => EmptyString
  | String c s' =>
      (if Ascii.eqb c "&" then "&amp;"
       else if in_attribute && Ascii.eqb c quote_char then "&quot;"
       else if negb in_attribute && Ascii.eqb c "<" then "&lt;"
       else if negb in_attribute && Ascii.eqb c ">" then "&gt;"
       else String c EmptyString) ++ escape in_attribute s'
  end.

Definition void_elements : list string :=
  ["area"; "base"; "br"; "col"; "embed"; "hr"; "img"; "input"; "link";
   "meta"; "source"; "track"; "wbr"].

Definition serialize_attributes (a : list (string * string)) : string :=
  fold_right
    (fun '(k, v) acc => " " ++ k ++ "=" ++ quote ++ escape true v ++ quote ++ acc)
    "" a.

Fixpoint outerHTML (n : Node) : string :=
  match n with
  | Text d => escape false d
  | Elem t a cs =>
      let name := lowercase t in
      "<" ++ name ++ serialize_attributes a ++ ">" ++
      (if existsb (String.eqb name) void_elements then ""
       else (fix go (l : list Node) : string :=
               match l with
               | [] => ""
               | c :: l' => outerHTML c ++ go l'
               end) cs ++ "</" ++ name ++ ">")
  end.

Definition innerHTML (e : Element) : string :=
  match node e with
  | Text _ => ""
  | Elem _ _ cs => fold_right (fun c acc => outerHTML c ++ acc) "" cs
  end.

End Html.

(** ** Records of the keyed store, as the content script builds them *)

Record Reaction := mkReaction {
  emoji : string;
  count : Z
}.

Record Message := mkMessage {
  message_id : string;
  channel_id : option string;
  user_id : option string;
  timestamp : string;
  content : string;
  has_attachments : bool;
  reactions : list Reaction
}.

Record User := mkUser {
  u_user_id : string;
  username : string;
  avatar_url : option string
}.

(** What [parseMessage] returns when it does not return [null]. *)
Record Parsed := mkParsed {
  message : Message;
  user : option User
}.

(** The records as structured values, as they cross the extension's
    message channel and are written to the store. *)
Module Encode.

Definition reaction (r : Reaction) : Val :=
  VObj {[ "emoji" := VStr (emoji r); "count" := VNum (count r) ]}.

Definition message (m : Message) : Val :=
  VObj {[ "message_id" := VStr (message_id m);
          "channel_id" := Js.of_option_string (channel_id m);
          "user_id" := Js.of_option_string (user_id m);
          "timestamp" := VStr (timestamp m);
          "content" := VStr (content m);
          "has_attachments" := VBool (has_attachments m);
          "reactions" := VArr (map reaction (reactions m)) ]}.

Definition user (u : User) : Val :=
  VObj {[ "user_id" := VStr (u_user_id u);
          "username" := VStr (username u);
          "avatar_url" := Js.of_option_string (avatar_url u) ]}.

End Encode.

(** ** Messages between the extension's scripts

    The requests handed to [chrome.runtime.sendMessage], by action.  A
    field that a sender may leave out is an option ([None]: the property is
    absent, or [null] where the receiver only tests it for truth).  Records
    bound for the store travel as structured values. *)

Inductive Request :=
  | StartCrawl
  | StopCrawl
  | GetCrawlStatus
  | UpdateCrawlStatus (isCrawling : option bool)
      (channelId channelName serverName : option string)
      (messageCount : option Z)
  | SaveToIndexedDB (updateLastCrawled : bool) (server channel : Val)
      (users messages : list Val).

(** ** The content script: ScraperService *)

Module ScraperService.
Import JsString Dom.

Record Context := mkContext {
  ctx_server_id : option string;
  ctx_server_name : option string;
  ctx_channel_id : option string;
  ctx_channel_name : option string
}.

(** The scroll container's layout, in CSS pixels.  Pixel values are
    rationals: the only arithmetic on them is the 80% step of [scrollUp]
    and comparisons. *)
Record ScrollBox := mkScrollBox {
  scrollTop : Q;
  clientHeight : Q;
  scrollHeight : Q
}.

(** The page the content script runs in. *)
Record Page := mkPage {
  href : string;                 (* window.location.href *)
  html : Node;                   (* the document *)
  scrollBox : ScrollBox          (* layout of the scroll container, if the
                                    document has one *)
}.

(** The callbacks the service hands to [setTimeout]. *)
Inductive Callback :=
  | BeginScrolling                      (* the 1000 ms callback of startAutoScrolling *)
  | PerformScrollCycle                  (* performScrollCycle *)
  | SettleCheck (beforeCount : nat).    (* the inner callback of performScrollCycle *)

Record Timer := mkTimer {
  timer_id : nat;
  delay_ms : nat;
  callback : Callback
}.

(** The fields of the service, and around them what its methods act on:
    the page, the pending timers and the messages handed to
    [chrome.runtime.sendMessage] (oldest first). *)
Record State := mkState {
  isCrawling : bool;
  processedMessageIds : gset string;
  scrollInterval : option nat;
  scrollCheckInterval : option nat;
  lastMessageCount : nat;
  noNewMessagesCount : nat;
  context : Context;
  page : Page;
  timers : list Timer;
  next_timer_id : nat;
  sent : list Request
}.

Definition SCROLL_DELAY : nat := 200.
Definition NO_NEW_MESSAGES_THRESHOLD : nat := 3.

(** The constructor, before its call of [updateContext]. *)
Definition new (p : Page) : State :=
  mkState false ∅ None None 0 0 (mkContext None None None None) p [] 1 [].

(** Field updates *)
Definition set_isCrawling (b : bool) (s : State) : State :=
  mkState b (processedMessageIds s) (scrollInterval s) (scrollCheckInterval s)
          (lastMessageCount s) (noNewMessagesCount s) (context s) (page s)
          (timers s) (next_timer_id s) (sent s).
Definition set_processedMessageIds (ids : gset string) (s : State) : State :=
  mkState (isCrawling s) ids (scrollInterval s) (scrollCheckInterval s)
          (lastMessageCount s) (noNewMessagesCount s) (context s) (page s)
          (timers s) (next_timer_id s) (sent s).
Definition set_scrollInterval (t : option nat) (s : State) : State :=
  mkState (isCrawling s) (processedMessageIds s) t (scrollCheckInterval s)
          (lastMessageCount s) (noNewMessagesCount s) (context s) (page s)
          (timers s) (next_timer_id s) (sent s).
Definition set_scrollCheckInterval (t : option nat) (s : State) : State :=
  mkState (isCrawling s) (processedMessageIds s) (scrollInterval s) t
          (lastMessageCount s) (noNewMessagesCount s) (context s) (page s)
          (timers s) (next_timer_id s) (sent s).
Definition set_lastMessageCount (n : nat) (s : State) : State :=
  mkState (isCrawling s) (processedMessageIds s) (scrollInterval s)
          (scrollCheckInterval s) n (noNewMessagesCount s) (context s) (page s)
          (timers s) (next_timer_id s) (sent s).
Definition set_noNewMessagesCount (n : nat) (s : State) : State :=
  mkState (isCrawling s) (processedMessageIds s) (scrollInterval s)
          (scrollCheckInterval s) (lastMessageCount s) n (context s) (page s)
          (timers s) (next_timer_id s) (sent s).
Definition set_context (c : Context) (s : State) : State :=
  mkState (isCrawling s) (processedMessageIds s) (scrollInterval s)
          (scrollCheckInterval s) (lastMessageCount s) (noNewMessagesCount s)
          c (page s) (timers s) (next_timer_id s) (sent s).
Definition set_page (p : Page) (s : State) : State :=
  mkState (isCrawling s) (processedMessageIds s) (scrollInterval s)
          (scrollCheckInterval s) (lastMessageCount s) (noNewMessagesCount s)
          (context s) p (timers s) (next_timer_id s) (sent s).
Definition set_timers (t : list Timer) (n : nat) (s : State) : State :=
  mkState (isCrawling s) (processedMessageIds s) (scrollInterval s)
          (scrollCheckInterval s) (lastMessageCount s) (noNewMessagesCount s)
          (context s) (page s) t n (sent s).

(** [chrome.runtime.sendMessage(m)]; a failed delivery is only logged. *)
Definition sendMessage (m : Request) (s : State) : State :=
  mkState (isCrawling s) (processedMessageIds s) (scrollInterval s)
          (scrollCheckInterval s) (lastMessageCount s) (noNewMessagesCount s)
          (context s) (page s) (timers s) (next_timer_id s) (sent s ++ [m]).

(** [setTimeout(cb, delay)]: the new state and the timer's id. *)
Definition setTimeout (cb : Callback) (delay : nat) (s : State) : State * nat :=
  let id := next_timer_id s in
  (set_timers (timers s ++ [mkTimer id delay cb]) (S id) s, id).

(** [clearTimeout(id)] *)
Definition clearTimeout (id : nat) (s : State) : State :=
  set_timers (filter (fun t => timer_id t ≠ id) (timers s)) (next_timer_id s) s.

(** [this.processedMessageIds.size] *)
Definition processed_size (s : State) : nat := size (processedMessageIds s).

(** *** Context *)

Definition extractIdsFromUrl (p : Page) : option string * option string :=
  match Regex.search Regex.channel_url (href p) with
  | Some [sid; cid] => (Some sid, Some cid)
  | _ => (None, None)
  end.

(** [e.textContent?.trim() || null] *)
Definition trimmed_text (e : Element) : option string :=
  let t := trim (textContent e) in
  if String.eqb t "" then None else Some t.

Definition extractServerName (p : Page) : option string :=
  match document_querySelector (html p)
          [tag_attr "NAV" "aria-label" AttrContains "server"; tag "H2"] with
  | Some navServer => trimmed_text navServer
  | None =>
      match document_querySelector (html p) [tag "HEADER"; tag "H2"] with
      | Some headerH2 => trimmed_text headerH2
      | None =>
          match document_querySelector (html p) [tag "HEADER"] with
          | Some header =>
              match querySelector header [tag "H2"] with
              | Some h2 => trimmed_text h2
              | None => None
              end
          | None => None
          end
      end
  end.

Definition extractChannelName (p : Page) : option string :=
  match document_querySelector (html p)
          [tag_attr "SECTION" "aria-label" AttrEq "Channel header"; tag "H1"] with
  | Some channelHeader => trimmed_text channelHeader
  | None =>
      match document_querySelector (html p) [attr "class" AttrContains "titleWrapper"] with
      | Some titleWrapper => trimmed_text titleWrapper
      | None =>
          match document_querySelector (html p) [tag "HEADER"] with
          | Some header =>
              match querySelector header [tag "H1"] with
              | Some h1 => trimmed_text h1
              | None => None
              end
          | None => None
          end
      end
  end.

Definition status_update (s : State) : Request :=
  UpdateCrawlStatus None (ctx_channel_id (context s)) (ctx_channel_name (context s))
    (ctx_server_name (context s)) (Some (Z.of_nat (processed_size s))).

Definition updateContext (s : State) : State :=
  let ids := extractIdsFromUrl (page s) in
  let s1 := set_context (mkContext (fst ids) (extractServerName (page s))
                                   (snd ids) (extractChannelName (page s))) s in
  if isCrawling s1 then sendMessage (status_update s1) s1 else s1.

(** *** Extraction from one message element *)

(** [img.src]: the [src] attribute (taken to hold an absolute URL),
    the empty string when the attribute is missing. *)
Definition src (img : Element) : string := default "" (getAttribute img "src").

Definition extractUserIdFromAvatar (imgElement : option Element) : option string :=
  match imgElement with
  | None => None
  | Some img =>
      if String.eqb (src img) "" then None
      else
        match Regex.search Regex.guild_avatar (src img) with
        | Some (uid :: _) => Some uid
        | _ =>
            match Regex.search Regex.user_avatar (src img) with
            | Some (uid :: _) => Some uid
            | _ => None
            end
        end
  end.

(** The loop over fallback selectors of [extractUsername]. *)
Fixpoint first_nonempty_text (element : Element) (selectors : list Selector)
  : option string :=
  match selectors with
  | [] => None
  | sel :: rest =>
      match querySelector element sel with
      | Some elem =>
          match trimmed_text elem with
          | Some t => Some t
          | None => first_nonempty_text element rest
          end
      | None => first_nonempty_text element rest
      end
  end.

Definition extractUsername (element : Element) : option string :=
  match querySelector element [tag_attr "SPAN" "id" AttrPrefix "username"] with
  | Some usernameSpan => trimmed_text usernameSpan
  | None =>
      first_nonempty_text element
        [[attr "class" AttrContains "username"];
         [attr "class" AttrContains "author"];
         [attr "id" AttrContains "user"]]
  end.

(** [a || b] on element lookups *)
Definition or_else {A} (a b : option A) : option A :=
  match a with Some _ => a | None => b end.

Definition extractAvatarUrl (element : Element) : option string :=
  let avatarImg :=
    or_else (querySelector element [tag_attr "IMG" "src" AttrContains "cdn.discordapp.com/avatars/"])
      (or_else (querySelector element [tag_attr "IMG" "src" AttrContains "discordapp.com/avatars/"])
               (querySelector element [tag_attr "IMG" "src" AttrContains "avatars/"])) in
  match avatarImg with
  | Some img => if String.eqb (src img) "" then None else Some (src img)
  | None => None
  end.

Definition extractMessageId (element : Element) : option string :=
  match getAttribute element "id" with
  | None => None
  | Some id =>
      if String.eqb id "" then None
      else
        match Regex.match_here Regex.chat_message_id id with
        | Some (m :: _) => Some m
        | _ => Some id
        end
  end.

(** A non-empty [datetime] attribute. *)
Definition datetime_of (e : Element) : option string :=
  match getAttribute e "datetime" with
  | Some d => if String.eqb d "" then None else Some d
  | None => None
  end.

Fixpoint first_datetime (element : Element) (selectors : list Selector)
  : option string :=
  match selectors with
  | [] => None
  | sel :: rest =>
      match querySelector element sel with
      | Some elem =>
          match datetime_of elem with
          | Some d => Some d
          | None => first_datetime element rest
          end
      | None => first_datetime element rest
      end
  end.

(** [now] is what [new Date().toISOString()] gives at the call. *)
Definition extractTimestamp (now : string) (element : Element) : string :=
  match querySelector element [tag "TIME"] ≫= datetime_of with
  | Some d => d
  | None =>
      default now
        (first_datetime element [[attr "class" AttrContains "timestamp"]; [tag "TIME"]])
  end.

(** [e.textContent?.trim() || e.innerHTML?.trim() || ''] *)
Definition text_or_markup (e : Element) : string :=
  let t := trim (textContent e) in
  if String.eqb t "" then trim (Html.innerHTML e) else t.

Fixpoint first_found (element : Element) (selectors : list Selector)
  : option Element :=
  match selectors with
  | [] => None
  | sel :: rest =>
      match querySelector element sel with
      | Some elem => Some elem
      | None => first_found element rest
      end
  end.

Definition extractContent (element : Element) : string :=
  match querySelector element [tag_attr "DIV" "id" AttrPrefix "message-content-"] with
  | Some contentDiv => text_or_markup contentDiv
  | None =>
      match first_found element
              [[attr "class" AttrContains "messageContent"];
               [attr "class" AttrContains "markup"];
               [attr "class" AttrContains "text"]] with
      | Some elem => text_or_markup elem
      | None => ""
      end
  end.
Definition reactions_container (element : Element) : option Element :=
  or_else (querySelector element
             [mkCompound None [] [("role", AttrEq, "group");
                                  ("class", AttrContains, "reactions")] []])
    (or_else (querySelector element [attr "id" AttrPrefix "message-reactions-"])
             (querySelector element [attr "class" AttrContains "reactions"])).

(** The walk up the parents of an emoji image, short of the reactions
    container, looking for a class token that names a single reaction. *)
Fixpoint reaction_parent (reactionsContainer : Element) (up : list (Node * nat))
  : option Element :=
  match up with
  | [] => None
  | (p, _) :: up' =>
      let parent := mkElement p up' in
      if same_node parent reactionsContainer then None
      else if existsb (fun c => includes c "reaction" && negb (includes c "reactions"))
                      (classList parent)
      then Some parent
      else reaction_parent reactionsContainer up'
  end.

Definition reaction_element (reactionsContainer emojiImg : Element) : option Element :=
  or_else (closest emojiImg
             [mkCompound None [] [("class", AttrContains, "reaction")]
                                 [("class", AttrContains, "reactions")]])
          (reaction_parent reactionsContainer (ancestors emojiImg)).

(** [countEl ? parseInt(countEl.textContent.trim()) || 0 : 0] within the
    reaction element, [0] without one. *)
Definition reaction_count (reactionEl : option Element) : Z :=
  match reactionEl with
  | None => 0
  | Some el =>
      match querySelector el [attr "class" AttrContains "reactionCount"] with
      | Some countEl => default 0 (parseInt (trim (textContent countEl)))
      | None => 0
      end
  end.

(** The body of the [forEach] over emoji images: what one image adds. *)
Definition reaction_of (reactionsContainer emojiImg : Element) : option Reaction :=
  match getAttribute emojiImg "data-name" with
  | None => None
  | Some emojiName =>
      if String.eqb emojiName "" then None
      else
        let n := reaction_count (reaction_element reactionsContainer emojiImg) in
        if n =? 0 then None else Some (mkReaction emojiName n)
  end.

Definition emoji_images (reactionsContainer : Element) : list Element :=
  querySelectorAll reactionsContainer
    [mkCompound (Some "IMG") ["emoji"] [("data-type", AttrEq, "emoji")] []].

Definition extractReactions (element : Element) : list Reaction :=
  match reactions_container element with
  | None => []
  | Some reactionsContainer =>
      omap (reaction_of reactionsContainer) (emoji_images reactionsContainer)
  end.

Definition hasAttachments (element : Element) : bool :=
  match first_found element
          [[attr "class" AttrContains "attachment"];
           [attr "class" AttrContains "embed"];
           [attr "class" AttrContains "imageWrapper"]] with
  | Some _ => true
  | None => false
  end.

Definition hasMessageHeader (element : Element) : bool :=
  match querySelector element [tag_attr "IMG" "src" AttrContains "avatars/"] with
  | Some _ => true
  | None =>
      match querySelector element [tag_attr "SPAN" "id" AttrPrefix "message-username-"] with
      | Some _ => true
      | None =>
          match querySelector element [attr "class" AttrContains "header"] with
          | Some header =>
              match querySelector header [tag_attr "SPAN" "class" AttrContains "username"] with
              | Some _ => true
              | None => false
              end
          | None => false
          end
      end
  end.

(** [v || null] and truthiness for a string or [null]. *)
Definition nonempty (o : option string) : option string :=
  match o with
  | Some s => if String.eqb s "" then None else Some s
  | None => None
  end.

(** [parseMessage(element, lastSeenAuthorId)]; [None] is [null].  The
    element argument is an element (never [null]): the callers pass the
    members of a [querySelectorAll] result. *)
Definition parseMessage (now : string) (element : Element)
    (lastSeenAuthorId : option string) (s : State) : option Parsed * State :=
  if negb (String.eqb (tagName element) "LI") then (None, s)
  else
    match extractMessageId element with
    | None => (None, s)
    | Some message_id =>
        if bool_decide (message_id ∈ processedMessageIds s) then (None, s)
        else
          let hasHeader := hasMessageHeader element in
          let user_id :=
            if hasHeader
            then extractUserIdFromAvatar
                   (querySelector element [tag_attr "IMG" "src" AttrContains "avatars/"])
            else lastSeenAuthorId in
          let username := extractUsername element in
          let avatar_url := extractAvatarUrl element in
          let message :=
            mkMessage message_id (ctx_channel_id (context s)) user_id
                      (extractTimestamp now element) (extractContent element)
                      (hasAttachments element) (extractReactions element) in
          let user :=
            match nonempty user_id with
            | Some uid => Some (mkUser uid (default "Unknown" (nonempty username))
                                       (nonempty avatar_url))
            | None => None
            end in
          let s1 := set_processedMessageIds ({[message_id]} ∪ processedMessageIds s) s in
          let s2 :=
            if isCrawling s1 && (processed_size s1 mod 10 =? 0)%nat
            then sendMessage
                   (UpdateCrawlStatus None None None None
                      (Some (Z.of_nat (processed_size s1))))
                   s1
            else s1 in
          (Some (mkParsed message user), s2)
    end.

(** *** Extraction of everything rendered *)

(** What the [forEach] of [extractExistingMessages] carries from one
    element to the next. *)
Record Pass := mkPass {
  messages : list Message;
  users : list User;                  (* the Map's values, in insertion order *)
  lastSeenAuthorId : option string;
  state : State
}.

Definition add_user (u : User) (l : list User) : list User :=
  if existsb (String.eqb (u_user_id u)) (map u_user_id l) then l else l ++ [u].

Definition pass_step (now : string) (acc : Pass) (element : Element) : Pass :=
  match parseMessage now element (lastSeenAuthorId acc) (state acc) with
  | (Some parsed, s') =>
      mkPass (messages acc ++ [message parsed])
             (match user parsed with
              | Some u => add_user u (users acc)
              | None => users acc
              end)
             (match nonempty (user_id (message parsed)) with
              | Some uid => Some uid
              | None => lastSeenAuthorId acc
              end)
             s'
  | (None, s') => mkPass (messages acc) (users acc) (lastSeenAuthorId acc) s'
  end.

Definition message_elements (p : Page) : option (list Element) :=
  match document_querySelector (html p)
          [tag_attr "OL" "data-list-id" AttrEq "chat-messages"] with
  | None => None
  | Some chatList =>
      Some (querySelectorAll chatList [tag_attr "LI" "id" AttrPrefix "chat-messages-"])
  end.

Definition extractExistingMessages (now : string) (s : State)
  : list Message * list User * State :=
  match message_elements (page s) with
  | None => ([], [], s)
  | Some messageElements =>
      let r := fold_left (pass_step now) messageElements (mkPass [] [] None s) in
      (messages r, users r, state r)
  end.
(** *** Scrolling *)

Definition findScrollContainer (p : Page) : option ScrollBox :=
  match document_querySelector (html p)
          [mkCompound (Some "DIV") []
             [("class", AttrContains, "scroller_");
              ("class", AttrContains, "managedReactiveScroller_")] []] with
  | Some _ => Some (scrollBox p)
  | None => None
  end.

(** [container.scrollTop = v]: the browser keeps the position within
    the scrollable range. *)
Definition assign_scrollTop (v : Q) (s : State) : State :=
  let b := scrollBox (page s) in
  set_page (mkPage (href (page s)) (html (page s))
              (mkScrollBox (Qmax 0 (Qmin v (scrollHeight b - clientHeight b)))
                           (clientHeight b) (scrollHeight b))) s.

Definition scrollToBottom (s : State) : bool * State :=
  match findScrollContainer (page s) with
  | Some container => (true, assign_scrollTop (scrollHeight container) s)
  | None => (false, s)
  end.

Definition scrollUp (s : State) : bool * State :=
  match findScrollContainer (page s) with
  | None => (false, s)
  | Some container =>
      let currentScroll := scrollTop container in
      let scrollAmount := (clientHeight container * (8 # 10))%Q in
      let newScroll := Qmax 0 (currentScroll - scrollAmount) in
      (true, assign_scrollTop newScroll s)
  end.

Definition stopAutoScrolling (s : State) : State :=
  let s1 :=
    match scrollInterval s with
    | Some id => set_scrollInterval None (clearTimeout id s)
    | None => s
    end in
  match scrollCheckInterval s1 with
  | Some id => set_scrollCheckInterval None (clearTimeout id s1)
  | None => s1
  end.

Definition stopCrawling (s : State) : State :=
  if negb (isCrawling s) then s
  else
    sendMessage (UpdateCrawlStatus (Some false) None None None None)
      (stopAutoScrolling (set_isCrawling false s)).

(** [container && container.scrollTop <= 10] *)
Definition isAtTop (p : Page) : bool :=
  match findScrollContainer p with
  | Some container => Qle_bool (scrollTop container) 10
  | None => false
  end.

Definition checkIfReachedTop (s : State) : bool * State :=
  let currentMessageCount := processed_size s in
  if (currentMessageCount =? lastMessageCount s)%nat then
    let s1 := set_noNewMessagesCount (S (noNewMessagesCount s)) s in
    if (NO_NEW_MESSAGES_THRESHOLD <=? noNewMessagesCount s1)%nat && isAtTop (page s1)
    then (true, stopCrawling s1)
    else (false, s1)
  else
    (false, set_lastMessageCount currentMessageCount (set_noNewMessagesCount 0 s)).

(** [if (this.isCrawling) this.scrollInterval = setTimeout(performScrollCycle, ...)] *)
Definition schedule_next_cycle (s : State) : State :=
  if isCrawling s then
    let '(s1, id) := setTimeout PerformScrollCycle SCROLL_DELAY s in
    set_scrollInterval (Some id) s1
  else s.

(** The first half of a scroll cycle, up to the settle delay. *)
Definition performScrollCycle (s : State) : State :=
  if negb (isCrawling s) then stopAutoScrolling s
  else
    let beforeCount := processed_size s in
    let '(scrolled, s1) := scrollUp s in
    let s2 := if scrolled then s1
              else set_noNewMessagesCount (S (noNewMessagesCount s1)) s1 in
    if negb scrolled && (NO_NEW_MESSAGES_THRESHOLD <=? noNewMessagesCount s2)%nat
    then stopCrawling s2
    else fst (setTimeout (SettleCheck beforeCount) SCROLL_DELAY s2).

(** The second half: the check after the settle delay. *)
Definition settleCheck (beforeCount : nat) (s : State) : State :=
  let afterCount := processed_size s in
  if (afterCount =? beforeCount)%nat then
    let s1 := set_noNewMessagesCount (S (noNewMessagesCount s)) s in
    if (NO_NEW_MESSAGES_THRESHOLD <=? noNewMessagesCount s1)%nat && isAtTop (page s1)
    then stopCrawling s1
    else schedule_next_cycle s1
  else
    schedule_next_cycle
      (set_lastMessageCount afterCount (set_noNewMessagesCount 0 s)).

(** The callback that [startAutoScrolling] schedules after one second. *)
Definition beginScrolling (s : State) : State :=
  let s1 := set_noNewMessagesCount 0 (set_lastMessageCount (processed_size s) s) in
  let '(s2, id) := setTimeout PerformScrollCycle SCROLL_DELAY s1 in
  set_scrollInterval (Some id) s2.

Definition startAutoScrolling (s : State) : State :=
  match scrollInterval s with
  | Some _ => s
  | None => fst (setTimeout BeginScrolling 1000 (snd (scrollToBottom s)))
  end.

Definition run_callback (cb : Callback) (s : State) : State :=
  match cb with
  | BeginScrolling => beginScrolling s
  | PerformScrollCycle => performScrollCycle s
  | SettleCheck beforeCount => settleCheck beforeCount s
  end.

(** The event loop runs a timer that is due: it leaves the pending list
    and its callback runs. *)
Definition fire (id : nat) (s : State) : State :=
  match List.find (fun t => bool_decide (timer_id t = id)) (timers s) with
  | Some t => run_callback (callback t) (clearTimeout id s)
  | None => s
  end.

(** *** Start and stop *)

Definition serverData (c : Context) : Val :=
  VObj {[ "server_id" := Js.of_option_string (ctx_server_id c);
          "server_name" := Js.of_option_string (ctx_server_name c) ]}.

Definition channelData (c : Context) : Val :=
  VObj {[ "channel_id" := Js.of_option_string (ctx_channel_id c);
          "server_id" := Js.of_option_string (ctx_server_id c);
          "channel_name" := Js.of_option_string (ctx_channel_name c) ]}.

Definition save_request (s : State) (users : list User) (messages : list Message)
  : Request :=
  SaveToIndexedDB true (serverData (context s)) (channelData (context s))
    (map Encode.user users) (map Encode.message messages).

Definition startCrawling (now : string) (s : State) : State :=
  if isCrawling s then s
  else
    let s1 := updateContext
                (set_processedMessageIds ∅ (set_isCrawling true s)) in
    let '(messages, users, s2) := extractExistingMessages now s1 in
    let s3 := match messages with
              | [] => s2
              | _ :: _ => sendMessage (save_request s2 users messages) s2
              end in
    startAutoScrolling s3.

(** The content script's listener of [chrome.runtime.onMessage], for the
    two requests that drive the crawl (each is answered [{success: true}]),
    and its [beforeunload] handler. *)
Definition onMessage (now : string) (request : Request) (s : State) : State :=
  match request with
  | StartCrawl => startCrawling now s
  | StopCrawl => stopCrawling s
  | _ => s
  end.

Definition onBeforeUnload (s : State) : State := stopCrawling s.

End ScraperService.

(** ** The background worker: IndexedDBManager

    The keyed store is a reliable map: a request on a valid key succeeds
    (the [onerror] callbacks of the manager never run), and a request on a
    value that is not a valid key raises [DataError], which rejects the
    promise the manager returns.  Array keys, which this program never
    builds, count as invalid. *)

Module IndexedDB.

Inductive Key :=
  | KNum (n : Z)
  | KStr (s : string).

#[global] Instance Key_eq_dec : EqDecision Key.
Proof. solve_decision. Defined.

#[global] Instance Key_countable : Countable Key.
Proof.
  refine (inj_countable'
            (fun k => match k with
                      | KNum n => inl n
                      | KStr s => inr s
                      end)
            (fun x => match x with
                      | inl n => KNum n
                      | inr s => KStr s
                      end) _).
  by intros [].
Defined.

Definition valid_key (v : Val) : option Key :=
  match v with
  | VNum n => Some (KNum n)
  | VStr s => Some (KStr s)
  | _ => None
  end.

Inductive Outcome :=
  | Resolved
  | Rejected (reason : string).

Record Database := mkDatabase {
  servers : gmap Key Val;        (* keyPath server_id  *)
  channels : gmap Key Val;       (* keyPath channel_id *)
  users : gmap Key Val;          (* keyPath user_id    *)
  messages : gmap Key Val        (* keyPath message_id *)
}.

Definition empty : Database := mkDatabase ∅ ∅ ∅ ∅.

Definition set_servers (m : gmap Key Val) (db : Database) : Database :=
  mkDatabase m (channels db) (users db) (messages db).
Definition set_channels (m : gmap Key Val) (db : Database) : Database :=
  mkDatabase (servers db) m (users db) (messages db).
Definition set_users (m : gmap Key Val) (db : Database) : Database :=
  mkDatabase (servers db) (channels db) m (messages db).
Definition set_messages (m : gmap Key Val) (db : Database) : Database :=
  mkDatabase (servers db) (channels db) (users db) m.

(** [store.put(data)] on a store with the given key path. *)
Definition put (keyPath : string) (data : Val) (store : gmap Key Val)
  : gmap Key Val * Outcome :=
  match valid_key (Js.get data keyPath) with
  | Some k => (<[k := data]> store, Resolved)
  | None => (store, Rejected "DataError")
  end.

(** [_storeData(storeName, data, keyPath)], on the store itself. *)
Definition _storeData (keyPath : string) (data : Val) (store : gmap Key Val)
  : gmap Key Val * Outcome :=
  if negb (Js.truthy data) || negb (Js.truthy (Js.get data keyPath))
  then (store, Resolved)
  else put keyPath data store.

Definition storeServer (server : Val) (db : Database) : Database * Outcome :=
  let '(m, r) := _storeData "server_id" server (servers db) in
  (set_servers m db, r).

(** The record [storeChannel] writes, from what the store holds under
    the key ([undefined] when nothing) and the incoming record. *)
Definition channelData (existing channel : Val) : Val :=
  VObj (<["last_crawled_at" :=
            if Js.defined (Js.get channel "last_crawled_at")
            then Js.get channel "last_crawled_at"
            else Js.or (Js.get existing "last_crawled_at") VNull]>
          (Js.spread channel ∪ Js.spread existing)).

Definition storeChannel (channel : Val) (db : Database) : Database * Outcome :=
  if negb (Js.truthy channel) || negb (Js.truthy (Js.get channel "channel_id"))
  then (db, Resolved)
  else
    match valid_key (Js.get channel "channel_id") with
    | None => (db, Rejected "DataError")
    | Some k =>
        let existing := default VUndefined (channels db !! k) in
        let '(m, r) := put "channel_id" (channelData existing channel) (channels db) in
        (set_channels m db, r)
    end.

(** [_getData(storeName, key)]: the record or [null]. *)
Definition _getData (key : Val) (store : gmap Key Val) : Val * Outcome :=
  if negb (Js.truthy key) then (VNull, Resolved)
  else
    match valid_key key with
    | None => (VNull, Rejected "DataError")
    | Some k => (Js.or (default VUndefined (store !! k)) VNull, Resolved)
    end.

Definition getChannel (channelId : Val) (db : Database) : Val * Outcome :=
  _getData channelId (channels db).

(** The [forEach] of [storeUsers] and [storeMessages]: records without
    a key are passed over; an invalid key stops the loop with what was
    written so far. *)
Fixpoint put_each (keyPath : string) (items : list Val) (store : gmap Key Val)
  : gmap Key Val * Outcome :=
  match items with
  | [] => (store, Resolved)
  | item :: rest =>
      if negb (Js.truthy item) || negb (Js.truthy (Js.get item keyPath))
      then put_each keyPath rest store
      else
        match put keyPath item store with
        | (store', Resolved) => put_each keyPath rest store'
        | (store', Rejected e) => (store', Rejected e)
        end
  end.

Definition storeUsers (l : list Val) (db : Database) : Database * Outcome :=
  let '(m, r) := put_each "user_id" l (users db) in
  (set_users m db, r).

Definition storeMessages (l : list Val) (db : Database) : Database * Outcome :=
  let '(m, r) := put_each "message_id" l (messages db) in
  (set_messages m db, r).

Definition clearAll (db : Database) : Database := empty.

(** Is the record in the index on [keyPath] under the key [k]?  An index
    holds the records whose indexed property is a valid key. *)
Definition indexed_under (keyPath : string) (k : Key) (record : Val) : bool :=
  bool_decide (valid_key (Js.get record keyPath) = Some k).

(** [getMessageCount(channelId)]: every message when [channelId] is
    falsy, else the messages the [channel_id] index holds under it. *)
Definition getMessageCount (channelId : Val) (db : Database) : nat * Outcome :=
  if Js.truthy channelId then
    match valid_key channelId with
    | Some k =>
        (size (filter (fun kv => indexed_under "channel_id" k (snd kv) = true)
                      (messages db)),
         Resolved)
    | None => (0%nat, Rejected "DataError")
    end
  else (size (messages db), Resolved).

(** [getChannelCount()] *)
Definition getChannelCount (db : Database) : nat := size (channels db).

End IndexedDB.

(** ** The background worker: crawl state and message handlers

    A handler runs from the message to its response as one step; what the
    environment answers on the way (the clock, the active tab, whether a
    tab accepted a message) is an argument. *)

Module Background.
Import IndexedDB.

Record CrawlState := mkCrawlState {
  isCrawling : bool;
  currentTabId : option Z;
  currentChannel : Val;
  currentChannelName : Val;
  currentServerName : Val;
  messageCount : Z
}.

Definition initialCrawlState : CrawlState :=
  mkCrawlState false None VNull VNull VNull 0.

Definition resetCrawlState (c : CrawlState) : CrawlState :=
  mkCrawlState false None VNull VNull VNull 0.

Record World := mkWorld {
  db : Database;
  crawlState : CrawlState
}.

(** [{ success, ...data, error }] *)
Record Response := mkResponse {
  success : bool;
  data : gmap string Val;
  error : option string
}.

Definition sendResponseHelper (success : bool) (data : gmap string Val)
    (error : option string) : Response :=
  mkResponse success data error.

(** What a handler sends besides its response. *)
Inductive Sent :=
  | ToTab (tabId : Z) (request : Request)      (* chrome.tabs.sendMessage *)
  | CrawlStatusChanged (isCrawling : bool).    (* chrome.runtime.sendMessage *)

Record Tab := mkTab {
  tab_id : Z;
  tab_url : option string
}.

(** [request.action === 'startCrawl'].  [activeTab] is the answer of
    [chrome.tabs.query]; [delivery] is [None] when the tab accepts the
    start message and the error's message when it does not. *)
Definition startCrawl (activeTab : option Tab) (delivery : option string)
    (w : World) : World * Response * list Sent :=
  if isCrawling (crawlState w)
  then (w, sendResponseHelper false ∅ (Some "Crawler is already running"), [])
  else
    match activeTab with
    | Some (mkTab id (Some url)) =>
        if negb (String.eqb url "") && JsString.includes url "discord.com" then
          let c := crawlState w in
          let c1 := mkCrawlState true (Some id) (currentChannel c)
                      (currentChannelName c) (currentServerName c) 0 in
          match delivery with
          | None =>
              (mkWorld (db w) c1, sendResponseHelper true ∅ None,
               [ToTab id StartCrawl])
          | Some message =>
              (mkWorld (db w) (resetCrawlState c1),
               sendResponseHelper false ∅
                 (Some ("Failed to start crawler: " ++ message)),
               [])
          end
        else (w, sendResponseHelper false ∅
                   (Some "Please navigate to a Discord channel first"), [])
    | _ => (w, sendResponseHelper false ∅
                 (Some "Please navigate to a Discord channel first"), [])
    end.

(** The stamp of [stopCrawl]: read the current channel, set
    [last_crawled_at], store it back; a failure is only logged. *)
Definition stamp_current_channel (now : string) (w : World) : Database :=
  if Js.truthy (currentChannel (crawlState w)) then
    match getChannel (currentChannel (crawlState w)) (db w) with
    | (VObj channel, Resolved) =>
        fst (storeChannel (VObj (<["last_crawled_at" := VStr now]> channel)) (db w))
    | _ => db w
    end
  else db w.

(** [request.action === 'stopCrawl'] *)
Definition stopCrawl (now : string) (w : World) : World * Response * list Sent :=
  if negb (isCrawling (crawlState w))
  then (w, sendResponseHelper false ∅ (Some "No crawler is running"), [])
  else
    let db1 := stamp_current_channel now w in
    let out :=
      match currentTabId (crawlState w) with
      | Some id => if id =? 0 then [] else [ToTab id StopCrawl]
      | None => []
      end in
    (mkWorld db1 (resetCrawlState (crawlState w)), sendResponseHelper true ∅ None, out).

(** [request.action === 'getCrawlStatus'] *)
Definition getCrawlStatus (w : World) : Response :=
  let c := crawlState w in
  mkResponse true
    {[ "isCrawling" := VBool (isCrawling c);
       "currentChannel" := currentChannel c;
       "currentChannelName" := currentChannelName c;
       "currentServerName" := currentServerName c;
       "messageCount" := VNum (messageCount c) ]}
    None.

(** [if (request.f) crawlState.g = request.f] for a string field. *)
Definition update_if_given (given : option string) (old : Val) : Val :=
  match given with
  | Some s => if String.eqb s "" then old else VStr s
  | None => old
  end.

(** [request.action === 'updateCrawlStatus'] *)
Definition updateCrawlStatus (r_isCrawling : option bool)
    (channelId channelName serverName : option string)
    (r_messageCount : option Z) (w : World) : World * Response * list Sent :=
  let c := crawlState w in
  let wasCrawling := isCrawling c in
  let c1 := mkCrawlState (default (isCrawling c) r_isCrawling)
              (currentTabId c)
              (update_if_given channelId (currentChannel c))
              (update_if_given channelName (currentChannelName c))
              (update_if_given serverName (currentServerName c))
              (default (messageCount c) r_messageCount) in
  (mkWorld (db w) c1, sendResponseHelper true ∅ None,
   if wasCrawling && negb (isCrawling c1) then [CrawlStatusChanged false] else []).

(** [request.channel.last_crawled_at = v] *)
Definition set_field (f : string) (x : Val) (v : Val) : Val :=
  match v with
  | VObj o => VObj (<[f := x]> o)
  | _ => v
  end.

Definition failed (w : World) (reason : string) : World * Response :=
  (w, sendResponseHelper false ∅ (Some reason)).

(** [request.action === 'saveToIndexedDB'].  A rejected store request
    ends the handler with a failure response; what was written before
    stays written. *)
Definition saveToIndexedDB (now : string) (updateLastCrawled : bool)
    (server channel : Val) (users messages : list Val) (w : World)
  : World * Response :=
  let c := crawlState w in
  let '(db1, r1) :=
    if Js.truthy server && Js.truthy (Js.get server "server_id")
    then storeServer server (db w) else (db w, Resolved) in
  match r1 with
  | Rejected e => failed (mkWorld db1 c) e
  | Resolved =>
      let '(db2, r2) :=
        if Js.truthy channel && Js.truthy (Js.get channel "channel_id")
        then storeChannel
               (if updateLastCrawled
                then set_field "last_crawled_at" (VStr now) channel
                else channel) db1
        else (db1, Resolved) in
      match r2 with
      | Rejected e => failed (mkWorld db2 c) e
      | Resolved =>
          let '(db3, r3) :=
            match users with
            | [] => (db2, Resolved)
            | _ :: _ => storeUsers users db2
            end in
          match r3 with
          | Rejected e => failed (mkWorld db3 c) e
          | Resolved =>
              let '(db4, r4) :=
                match messages with
                | [] => (db3, Resolved)
                | _ :: _ => storeMessages messages db3
                end in
              match r4 with
              | Rejected e => failed (mkWorld db4 c) e
              | Resolved =>
                  let count :=
                    messageCount c + Z.of_nat (length messages) in
                  let c1 :=
                    if Js.truthy channel
                    then mkCrawlState (isCrawling c) (currentTabId c)
                           (Js.get channel "channel_id")
                           (Js.get channel "channel_name")
                           (currentServerName c) count
                    else mkCrawlState (isCrawling c) (currentTabId c)
                           (currentChannel c) (currentChannelName c)
                           (currentServerName c) count in
                  let c2 :=
                    if Js.truthy server
                    then mkCrawlState (isCrawling c1) (currentTabId c1)
                           (currentChannel c1) (currentChannelName c1)
                           (Js.get server "server_name") (messageCount c1)
                    else c1 in
                  (mkWorld db4 c2, sendResponseHelper true ∅ None)
              end
          end
      end
  end.

(** The listener of [chrome.runtime.onMessage], for the requests above.
    [activeTab] and [delivery] are read by [startCrawl] only. *)
Definition onMessage (now : string) (activeTab : option Tab)
    (delivery : option string) (request : Request) (w : World)
  : World * Response * list Sent :=
  match request with
  | StartCrawl => startCrawl activeTab delivery w
  | StopCrawl => stopCrawl now w
  | GetCrawlStatus => (w, getCrawlStatus w, [])
  | UpdateCrawlStatus i cid cn sn mc => updateCrawlStatus i cid cn sn mc w
  | SaveToIndexedDB u server channel users messages =>
      let '(w', r) := saveToIndexedDB now u server channel users messages w in
      (w', r, [])
  end.

(** [chrome.tabs.onRemoved] *)
Definition onTabRemoved (tabId : Z) (w : World) : World :=
  if isCrawling (crawlState w) && bool_decide (currentTabId (crawlState w) = Some tabId)
  then mkWorld (db w) (resetCrawlState (crawlState w))
  else w.

(** [chrome.tabs.onUpdated]; [url] is [changeInfo.url]. *)
Definition onTabUpdated (tabId : Z) (url : option string) (w : World) : World :=
  if isCrawling (crawlState w) && bool_decide (currentTabId (crawlState w) = Some tabId)
  then
    match url with
    | Some u =>
        if negb (String.eqb u "") && negb (JsString.includes u "discord.com")
        then mkWorld (db w) (resetCrawlState (crawlState w))
        else w
    | None => w
    end
  else w.

(** [request.action === 'getChannelStats'] *)
Definition getChannelStats (channel_id : Val) (w : World) : Response :=
  match getChannel channel_id (db w) with
  | (_, Rejected e) => sendResponseHelper false ∅ (Some e)
  | (channel, Resolved) =>
      if negb (Js.truthy channel)
      then sendResponseHelper true
             {[ "messageCount" := VNum 0; "lastCrawled" := VNull ]} None
      else
        match getMessageCount channel_id (db w) with
        | (_, Rejected e) => sendResponseHelper false ∅ (Some e)
        | (messageCount, Resolved) =>
            sendResponseHelper true
              {[ "messageCount" := VNum (Z.of_nat messageCount);
                 "lastCrawled" := Js.or (Js.get channel "last_crawled_at") VNull ]}
              None
        end
  end.

(** [request.action === 'getIndexedDBStats']; the counts are taken
    without a channel and cannot fail. *)
Definition getIndexedDBStats (w : World) : Response :=
  let c := crawlState w in
  mkResponse true
    {[ "messageCount" := VNum (Z.of_nat (fst (getMessageCount VNull (db w))));
       "channelCount" := VNum (Z.of_nat (getChannelCount (db w)));
       "crawlState" :=
         VObj {[ "isCrawling" := VBool (isCrawling c);
                 "currentChannel" := currentChannel c;
                 "currentChannelName" := currentChannelName c;
                 "currentServerName" := currentServerName c;
                 "messageCount" := VNum (messageCount c) ]} ]}
    None.

(** [request.action === 'clearIndexedDB'] *)
Definition clearIndexedDB (w : World) : World * Response :=
  (mkWorld (clearAll (db w)) (crawlState w), sendResponseHelper true ∅ None).

End Background.

(** ** The export database

    The SQLite database the exporter fills, by the schema it creates:
    [channels(id AUTOINCREMENT, name NOT NULL, url NOT NULL UNIQUE)],
    [users(user_id TEXT PRIMARY KEY, username)] and
    [messages(id AUTOINCREMENT, channel_id, message_id NOT NULL, user_id,
    content, timestamp, attachments, reactions, UNIQUE(channel_id,
    message_id))].  An insert that breaks a constraint, or that is given a
    value the engine cannot bind, fails and leaves the table as it was.
    Whether the engine enforces the two foreign keys is a setting of the
    engine ([foreign_keys]). *)

Module Sqlite.

Inductive SqlVal :=
  | SNull
  | SInt (n : Z)
  | SText (s : string).

#[global] Instance SqlVal_eq_dec : EqDecision SqlVal.
Proof. solve_decision. Defined.

(** Binding a parameter: strings, numbers, booleans (as 0 and 1) and
    [null] are bound; [undefined] and objects make the statement fail.
    (The engine binds an array as a blob; no record of this program has an
    array where a column value is read, and the model lets it fail too.) *)
Definition bind (v : Val) : option SqlVal :=
  match v with
  | VStr s => Some (SText s)
  | VNum n => Some (SInt n)
  | VBool b => Some (SInt (if b then 1 else 0))
  | VNull => Some SNull
  | VUndefined | VArr _ | VObj _ => None
  end.

(** What a TEXT column stores for a bound value. *)
Definition text_affinity (v : SqlVal) : SqlVal :=
  match v with
  | SInt n => SText (pretty n)
  | _ => v
  end.

Record ChannelRow := mkChannelRow {
  ch_id : Z;
  ch_name : string;
  ch_url : string
}.

Record UserRow := mkUserRow {
  usr_user_id : string;
  usr_username : SqlVal
}.

Record MessageRow := mkMessageRow {
  msg_id : Z;
  msg_channel_id : Z;
  msg_message_id : SqlVal;
  msg_user_id : SqlVal;
  msg_content : string;
  msg_timestamp : SqlVal;
  msg_attachments : string;
  msg_reactions : option (list Val)   (* the array whose JSON text is stored *)
}.

Record Database := mkDatabase {
  foreign_keys : bool;
  channels : list ChannelRow;
  users : list UserRow;
  messages : list MessageRow
}.

(** [new SQL.Database()] with the tables created. *)
Definition create (foreign_keys : bool) : Database :=
  mkDatabase foreign_keys [] [] [].

(** [INSERT INTO users (user_id, username) VALUES (?, ?)] *)
Definition insert_user (user_id : string) (username : Val) (d : Database)
  : option Database :=
  match bind username with
  | None => None
  | Some name =>
      if existsb (fun r => String.eqb (usr_user_id r) user_id) (users d) then None
      else Some (mkDatabase (foreign_keys d) (channels d)
                   (users d ++ [mkUserRow user_id (text_affinity name)])
                   (messages d))
  end.

(** [INSERT INTO channels (name, url) VALUES (?, ?)] *)
Definition insert_channel (name url : string) (d : Database) : option Database :=
  if existsb (fun r => String.eqb (ch_url r) url) (channels d) then None
  else Some (mkDatabase (foreign_keys d)
               (channels d ++ [mkChannelRow (Z.of_nat (length (channels d)) + 1) name url])
               (users d) (messages d)).

(** [SELECT id FROM channels WHERE url = ?] *)
Definition select_channel_id (url : string) (d : Database) : option Z :=
  ch_id <$> List.find (fun r => String.eqb (ch_url r) url) (channels d).

Definition user_exists (v : SqlVal) (d : Database) : bool :=
  match v with
  | SNull => true
  | SText s => existsb (fun r => String.eqb (usr_user_id r) s) (users d)
  | SInt _ => false
  end.

Definition channel_exists (id : Z) (d : Database) : bool :=
  existsb (fun r => ch_id r =? id) (channels d).

(** [INSERT INTO messages (channel_id, message_id, user_id, content,
    timestamp, attachments, reactions) VALUES (?, ?, ?, ?, ?, ?, ?)] *)
Definition insert_message (channel_id : Z) (message_id user_id : Val)
    (content : string) (timestamp : Val) (attachments : string)
    (reactions : option (list Val)) (d : Database) : option Database :=
  match bind message_id, bind user_id, bind timestamp with
  | Some mid, Some uid, Some ts =>
      let mid := text_affinity mid in
      let uid := text_affinity uid in
      if bool_decide (mid = SNull) then None
      else if existsb (fun r => (msg_channel_id r =? channel_id)
                                && bool_decide (msg_message_id r = mid))
                      (messages d) then None
      else if foreign_keys d
              && negb (channel_exists channel_id d && user_exists uid d) then None
      else Some (mkDatabase (foreign_keys d) (channels d) (users d)
                   (messages d ++
                      [mkMessageRow (Z.of_nat (length (messages d)) + 1)
                         channel_id mid uid content ts attachments reactions]))
  | _, _, _ => None
  end.

End Sqlite.

(** ** The exporter: exportDatabaseFromIndexedDB *)

Module Exporter.
Import Sqlite.

(** The argument of the exporter: the dump of the keyed store that the
    background worker answers [getIndexedDBData] with.  Each property is
    an array, or absent ([None]). *)
Record Snapshot := mkSnapshot {
  snap_servers : option (list Val);
  snap_channels : option (list Val);
  snap_users : option (list Val);
  snap_messages : option (list Val)
}.

(** The body of the loop over users. *)
Definition export_user (d : Database) (user : Val) : Database :=
  if negb (Js.truthy user) then d
  else
    match Js.get user "user_id" with
    | VStr user_id =>
        match insert_user user_id (Js.or (Js.get user "username") VNull) d with
        | Some d' => d'
        | None => d
        end
    | _ => d
    end.

(** [channelIdMap]: a [Map] from source channel ids to surrogate ids,
    in insertion order. *)
Definition map_get (k : Val) (m : list (Val * Z)) : option Z :=
  snd <$> List.find (fun e => Js.same_value (fst e) k) m.

Fixpoint map_set (k : Val) (v : Z) (m : list (Val * Z)) : list (Val * Z) :=
  match m with
  | [] => [(k, v)]
  | (k', v') :: m' =>
      if Js.same_value k' k then (k', v) :: m' else (k', v') :: map_set k v m'
  end.

Definition channel_url (channel : Val) : string :=
  "https://discord.com/channels/" ++ Js.to_string (Js.get channel "server_id")
    ++ "/" ++ Js.to_string (Js.get channel "channel_id").

Definition channel_name (channel : Val) : string :=
  match Js.get channel "channel_name" with
  | VStr n => if String.eqb (JsString.trim n) "" then "Unknown" else JsString.trim n
  | _ => "Unknown"
  end.

(** The body of the loop over channels. *)
Definition export_channel (acc : Database * list (Val * Z)) (channel : Val)
  : Database * list (Val * Z) :=
  let '(d, channelIdMap) := acc in
  if negb (Js.truthy channel) || negb (Js.truthy (Js.get channel "server_id"))
     || negb (Js.truthy (Js.get channel "channel_id"))
  then acc
  else
    let url := channel_url channel in
    match insert_channel (channel_name channel) url d with
    | None => acc
    | Some d' =>
        match select_channel_id url d' with
        | Some id => (d', map_set (Js.get channel "channel_id") id channelIdMap)
        | None => (d', channelIdMap)
        end
    end.

(** The body of the loop over messages; the count is [exportedCount]. *)
Definition export_message (channelIdMap : list (Val * Z)) (acc : Database * nat)
    (msg : Val) : Database * nat :=
  let '(d, exportedCount) := acc in
  if negb (Js.truthy msg) || negb (Js.truthy (Js.get msg "message_id"))
     || negb (Js.truthy (Js.get msg "channel_id"))
  then acc
  else
    match map_get (Js.get msg "channel_id") channelIdMap with
    | None => acc
    | Some channelId =>
        if channelId =? 0 then acc
        else
          let reactionsJson :=
            match Js.get msg "reactions" with
            | VArr (r :: l) => Some (r :: l)
            | _ => None
            end in
          let content :=
            match Js.get msg "content" with VStr c => c | _ => "" end in
          let timestamp :=
            match Js.get msg "timestamp" with VStr t => VStr t | _ => VNull end in
          let attachments :=
            if Js.truthy (Js.get msg "has_attachments") then "Yes" else "" in
          match insert_message channelId (Js.get msg "message_id")
                  (Js.or (Js.get msg "user_id") VNull) content timestamp
                  attachments reactionsJson d with
          | Some d' => (d', S exportedCount)
          | None => acc
          end
    end.

(** The exporter returns the database file or throws an [Error]. *)
Inductive Result :=
  | Exported (sqliteData : Database)
  | Thrown (message : string).

(** The three loops. *)
Definition export_users (users : list Val) (d : Database) : Database :=
  fold_left export_user users d.

Definition export_channels (channels : list Val) (d : Database)
  : Database * list (Val * Z) :=
  fold_left export_channel channels (d, []).

Definition export_messages (channelIdMap : list (Val * Z)) (messages : list Val)
    (d : Database) : Database * nat :=
  fold_left (export_message channelIdMap) messages (d, 0%nat).

(** The tables after the three loops, with [exportedCount]. *)
Definition fill (foreign_keys : bool) (data : Snapshot) (messages : list Val)
  : Database * nat :=
  let exportDb := create foreign_keys in
  let d1 := export_users (default [] (snap_users data)) exportDb in
  let '(d2, channelIdMap) := export_channels (default [] (snap_channels data)) d1 in
  export_messages channelIdMap messages d2.

Definition exportDatabaseFromIndexedDB (foreign_keys : bool)
    (indexedDBData : option Snapshot) : Result :=
  match indexedDBData with
  | None => Thrown "No data to export"
  | Some data =>
      match snap_messages data with
      | None | Some [] => Thrown "No data to export"
      | Some messages =>
          let '(d3, exportedCount) := fill foreign_keys data messages in
          if (exportedCount =? 0)%nat
          then Thrown "No valid messages could be exported"
          else Exported d3
      end
  end.

End Exporter.

(** * Vocabulary of the properties *)

(** The ids that [/^chat-messages-\d+-(\d+)$/] matches, capturing [m]. *)
Definition chat_message_pattern (id m : string) : Prop :=
  exists c : string,
    c <> "" /\ JsString.all_digits c = true /\
    m <> "" /\ JsString.all_digits m = true /\
    id = ("chat-messages-" ++ c ++ "-" ++ m)%string.

(** [last_crawled_at] as the data model has it: absent, [null] or a
    timestamp (a non-empty string). *)
Definition nullable_timestamp (v : Val) : Prop :=
  v = VUndefined \/ v = VNull \/ exists t, v = VStr t /\ t <> "".

(** The channel record the store holds under a key; [undefined] when none. *)
Definition channel_at (db : IndexedDB.Database) (k : IndexedDB.Key) : Val :=
  default VUndefined (IndexedDB.channels db !! k).

(** The store holds records: every value of a map is an object. *)
Definition holds_records (m : gmap IndexedDB.Key Val) : Prop :=
  forall k v, m !! k = Some v -> exists o, v = VObj o.

Module Extractor.
Import Dom ScraperService.

(** The author [parseMessage] gives a message: read from the element's
    own header when it has one, the last seen author otherwise. *)
Definition author_of (element : Element) (lastSeenAuthorId : option string)
  : option string :=
  if hasMessageHeader element
  then extractUserIdFromAvatar
         (querySelector element [tag_attr "IMG" "src" AttrContains "avatars/"])
  else lastSeenAuthorId.

(** Feeding the Extractor a run of elements, each at its own time and
    with the last seen author the caller has for it. *)
Definition feed (s : State) (l : list (string * Element * option string))
  : State :=
  fold_left (fun st '(now, e, a) => snd (parseMessage now e a st)) l s.

(** An element is message-shaped when it is a list item with a
    non-empty id. *)
Definition message_shaped (element : Element) : Prop :=
  tagName element = "LI" /\
  exists id, getAttribute element "id" = Some id /\ id <> "".

End Extractor.

Module ExportSpec.
Import Sqlite Exporter.

(** The messages of a snapshot: none when the snapshot or the property
    is missing. *)
Definition snapshot_messages (indexedDBData : option Snapshot) : list Val :=
  default [] (indexedDBData ≫= snap_messages).

(** The export database after the three loops. *)
Definition filled (foreign_keys : bool) (indexedDBData : option Snapshot) : Database :=
  match indexedDBData with
  | Some data => fst (fill foreign_keys data (snapshot_messages indexedDBData))
  | None => create foreign_keys
  end.

(** A user record the users table takes: a string id and a name that
    can be bound. *)
Definition well_formed_user (u : Val) (id : string) : Prop :=
  Js.get u "user_id" = VStr id /\
  bind (Js.or (Js.get u "username") VNull) <> None.

Definition well_formed_channel (c : Val) : Prop :=
  Js.truthy (Js.get c "server_id") = true /\
  Js.truthy (Js.get c "channel_id") = true.

(** A message of channel [c] that the messages table takes, stored under
    the message id [key]; with foreign keys enforced its author is
    [null] or one of the exported users. *)
Definition well_formed_message (foreign_keys : bool) (user_ids : list string)
    (c m : Val) (key : SqlVal) : Prop :=
  Js.truthy (Js.get m "message_id") = true /\
  Js.same_value (Js.get c "channel_id") (Js.get m "channel_id") = true /\
  text_affinity <$> bind (Js.get m "message_id") = Some key /\
  exists uid,
    text_affinity <$> bind (Js.or (Js.get m "user_id") VNull) = Some uid /\
    (foreign_keys = true ->
     uid = SNull \/ exists id, id ∈ user_ids /\ uid = SText id).

(** A message whose channel id is not the id of channel [c]. *)
Definition orphan_of (c m : Val) : Prop :=
  Js.same_value (Js.get c "channel_id") (Js.get m "channel_id") = false.

End ExportSpec.

(** A rendered page to run the definitions on: a server with one channel,
    a message with its author header and three reaction markers, a grouped
    message without header, a list item whose id is not a message id, and a
    header without an avatar. *)

Module Fixture.
Import Dom ScraperService.

Definition reaction_marker (name count : string) : Node :=
  Elem "DIV" [("class", "reaction_f8896c")]
    [Elem "DIV" [("class", "reactionInner_f8896c")]
       [Elem "IMG" [("class", "emoji"); ("data-type", "emoji"); ("data-name", name)] [];
        Elem "DIV" [("class", "reactionCount_f8896c")] [Text count]]].

Definition first_message : Node :=
  Elem "LI" [("id", "chat-messages-1-100")]
    [Elem "DIV" [("class", "message_d5deea")]
       [Elem "IMG" [("src", "https://cdn.discordapp.com/avatars/42/abc.webp");
                    ("class", "avatar_c19a55")] [];
        Elem "H3" [("class", "header_c19a55")]
          [Elem "SPAN" [("id", "message-username-100"); ("class", "username_c19a55")]
             [Text " alice "];
           Elem "TIME" [("datetime", "2025-01-01T00:00:00.000Z")] [Text "today"]];
        Elem "DIV" [("id", "message-content-100"); ("class", "markup_f8f345")]
          [Text "hello"];
        Elem "DIV" [("class", "reactions_ec6b19"); ("role", "group");
                    ("id", "message-reactions-100")]
          [reaction_marker "thumbsup" "1";
           reaction_marker "eyes" "0";
           reaction_marker "tada" "-2"]]].

Definition grouped_message : Node :=
  Elem "LI" [("id", "chat-messages-1-101")]
    [Elem "DIV" [("id", "message-content-101")] [Text "again"]].

Definition divider : Node :=
  Elem "LI" [("id", "chat-messages-divider")]
    [Elem "DIV" [("class", "divider_c2654d")] [Elem "BR" [] []]].

Definition anonymous_message : Node :=
  Elem "LI" [("id", "chat-messages-1-102")]
    [Elem "H3" [("class", "header_c19a55")]
       [Elem "SPAN" [("id", "message-username-102"); ("class", "username_c19a55")]
          [Text "webhook"]];
     Elem "DIV" [("id", "message-content-102")] [Text "ping"]].

Definition chat_list : Node :=
  Elem "OL" [("data-list-id", "chat-messages")]
    [first_message; grouped_message; divider; anonymous_message].

Definition document : Node :=
  Elem "HTML" []
    [Elem "BODY" []
       [Elem "NAV" [("aria-label", "Servers sidebar")] [Elem "H2" [] [Text "Guild"]];
        Elem "SECTION" [("aria-label", "Channel header")]
          [Elem "H1" [] [Text "general"]];
        Elem "DIV" [("class", "scroller_e2e187 managedReactiveScroller_e2e187")]
          [chat_list]]].

(** The same document after the scroll container went away. *)
Definition document_without_scroller : Node :=
  Elem "HTML" [] [Elem "BODY" [] [chat_list]].

Definition channel_page : Page :=
  mkPage "https://discord.com/channels/7/1" document (mkScrollBox 0 500 3000).

Definition service : State := updateContext (new channel_page).

(** The list items, as [extractExistingMessages] finds them. *)
Definition items : list Element := default [] (message_elements channel_page).

Definition item (i : nat) : Element :=
  default (document_root document) (items !! i).

(** The reactions container of the first message and its emoji markers. *)
Definition reactions_box : Element :=
  default (item 0) (reactions_container (item 0)).

Definition marker (i : nat) : Element :=
  default (item 0) (emoji_images reactions_box !! i).

(** The start of an extraction pass over the page. *)
Definition pass0 : Pass := mkPass [] [] None service.

(** What [parseMessage] gives for an element at a point of a pass. *)
Definition parse_at (acc : Pass) (e : Element) : option Parsed * State :=
  parseMessage "2025-06-01T12:00:00.000Z" e (lastSeenAuthorId acc) (state acc).

Definition parsed_at (acc : Pass) (e : Element) : Parsed :=
  default (mkParsed (mkMessage "" None None "" "" false []) None)
          (fst (parse_at acc e)).

(** A pass after the first message and the grouped message that follows. *)
Definition grouped_run (acc : Pass) : Pass :=
  fold_left (pass_step "2025-06-01T12:00:00.000Z") [item 1]
            (pass_step "2025-06-01T12:00:00.000Z" acc (item 0)).

(** A crawl that has seen nothing new for two checks, at the top of the
    scroll container. *)
Definition stalled : State :=
  set_noNewMessagesCount 2 (set_isCrawling true service).

(** The same crawl, 2500 pixels from the top, after the scroll container
    has left the document. *)
Definition detached : State :=
  set_page (mkPage (href channel_page) document_without_scroller (mkScrollBox 2500 500 3000))
           stalled.

(** A page whose whole history fits the viewport: the position stays 0. *)
Definition short_page : Page :=
  mkPage (href channel_page) document (mkScrollBox 0 500 500).

(** The timers of a crawl fire in the order they were set. *)
Definition fire_all (ids : list nat) (s : State) : State :=
  fold_left (fun st id => fire id st) ids s.

(** The background worker while tab 5 crawls: the store already holds
    channel "1", last crawled on the first of January. *)
Definition stored_channel : Val :=
  VObj {[ "channel_id" := VStr "1"; "server_id" := VStr "7";
          "channel_name" := VStr "general";
          "last_crawled_at" := VStr "2025-01-01T00:00:00.000Z" ]}.

Definition store : IndexedDB.Database :=
  IndexedDB.set_channels {[ IndexedDB.KStr "1" := stored_channel ]} IndexedDB.empty.

Definition crawling_world : Background.World :=
  Background.mkWorld store
    (Background.mkCrawlState true (Some 5) (VStr "1") (VStr "general") VNull 0).

Definition discord_tab : Background.Tab :=
  Background.mkTab 5 (Some "https://discord.com/channels/7/1").

(** The content script right after the crawl of the page was started on
    the first of June, and the save request it sent on the way. *)
Definition started : State := startCrawling "2025-06-01T12:00:00.000Z" service.

Definition initial_save : Request := default StartCrawl (last (sent started)).

(** A dump of the store: two users, the channel, two of its messages
    and, between them, a message of a channel the dump does not have. *)
Definition alice : Val :=
  VObj {[ "user_id" := VStr "42"; "username" := VStr "alice" ]}.

Definition bob : Val :=
  VObj {[ "user_id" := VStr "43"; "username" := VStr "bob"; "avatar_url" := VNull ]}.

Definition hello : Val :=
  Encode.message (mkMessage "100" (Some "1") (Some "42") "2025-01-01T00:00:00.000Z"
                    "hello" false [mkReaction "thumbsup" 1]).

Definition again : Val :=
  Encode.message (mkMessage "101" (Some "1") (Some "42") "2025-01-01T00:00:05.000Z"
                    "again" true []).

Definition stray : Val :=
  Encode.message (mkMessage "555" (Some "999") (Some "43") "2025-01-02T00:00:00.000Z"
                    "elsewhere" false []).

Definition dump : Exporter.Snapshot :=
  Exporter.mkSnapshot (Some []) (Some [stored_channel]) (Some [alice; bob])
    (Some [hello; stray; again]).

(** Two partial channel records for channel "1". *)
Definition renamed_channel : Val :=
  VObj {[ "channel_id" := VStr "1"; "channel_name" := VStr "lounge";
          "last_crawled_at" := VStr "2025-06-01T12:00:00.000Z" ]}.

Definition bare_channel : Val :=
  VObj {[ "channel_id" := VStr "1"; "server_id" := VStr "7" ]}.

End Fixture.

(** ** Vocabulary of the further properties *)

(** What an extraction pass builds and leaves. *)

Module PassSpec.
Import JsString Dom ScraperService Extractor.

(** The user record [parseMessage] builds for an author. *)
Definition user_record (element : Element) (author : option string) : option User :=
  match nonempty author with
  | Some uid => Some (mkUser uid (default "Unknown" (nonempty (extractUsername element)))
                             (nonempty (extractAvatarUrl element)))
  | None => None
  end.

(** The state [parseMessage] leaves when it accepts the id. *)
Definition marked (id : string) (s : State) : State :=
  let s1 := set_processedMessageIds ({[id]} ∪ processedMessageIds s) s in
  if isCrawling s1 && (processed_size s1 mod 10 =? 0)%nat
  then sendMessage (UpdateCrawlStatus None None None None
                      (Some (Z.of_nat (processed_size s1)))) s1
  else s1.

(** What a pass has gathered, against the ids [P0] processed before it. *)
Definition pass_invariant (P0 : gset string) (p0 : Page) (acc : Pass) : Prop :=
  NoDup (map message_id (messages acc)) /\
  (forall m, m ∈ messages acc -> message_id m ∉ P0) /\
  processedMessageIds (state acc)
    = P0 ∪ list_to_set (map message_id (messages acc)) /\
  NoDup (map u_user_id (users acc)) /\
  (forall m uid, m ∈ messages acc -> nonempty (user_id m) = Some uid ->
                 uid ∈ map u_user_id (users acc)) /\
  (forall u, u ∈ users acc ->
             u_user_id u <> "" /\
             exists m, m ∈ messages acc /\ user_id m = Some (u_user_id u)) /\
  page (state acc) = p0.

(** An element [parseMessage] turns down in a state with these ids. *)
Definition turned_down (P : gset string) (e : Element) : Prop :=
  tagName e <> "LI" \/ extractMessageId e = None \/
  exists id, extractMessageId e = Some id /\ id ∈ P.

(** What an extraction pass leaves alone. *)
Definition same_engine (s s' : State) : Prop :=
  isCrawling s' = isCrawling s /\ scrollInterval s' = scrollInterval s /\
  scrollCheckInterval s' = scrollCheckInterval s /\
  context s' = context s /\ page s' = page s /\
  timers s' = timers s /\ next_timer_id s' = next_timer_id s.

End PassSpec.

(** The scroll loop. *)

Module Scrolling.
Import Dom ScraperService.

(** The report [stopCrawling] sends. *)
Definition end_report : Request := UpdateCrawlStatus (Some false) None None None None.

(** What running timers may change between two states of the service:
    never the processed ids, the context or the document; the messages
    sent grow by at most the end report, which ends the crawl. *)
Definition scroll_frame (s s' : State) : Prop :=
  processedMessageIds s' = processedMessageIds s /\
  context s' = context s /\
  href (page s') = href (page s) /\
  html (page s') = html (page s) /\
  ((sent s' = sent s /\ (isCrawling s = false -> isCrawling s' = false)) \/
   (isCrawling s = true /\ isCrawling s' = false /\
    sent s' = (sent s ++ [end_report])%list)).

End Scrolling.

(** The keyed store. *)

Module StoreSpec.
Import IndexedDB.

(** Every record of the map is an object stored under the key that its
    key path gives. *)
Definition keyed (keyPath : string) (m : gmap Key Val) : Prop :=
  forall k v, m !! k = Some v ->
              (exists o, v = VObj o) /\ valid_key (Js.get v keyPath) = Some k.

Definition well_keyed (db : Database) : Prop :=
  keyed "server_id" (servers db) /\ keyed "channel_id" (channels db) /\
  keyed "user_id" (users db) /\ keyed "message_id" (messages db).

(** A record the batch loops try to write: it and its key are truthy. *)
Definition storable (keyPath : string) (item : Val) : bool :=
  Js.truthy item && Js.truthy (Js.get item keyPath).

(** The last record of a batch that is written under the key [k]. *)
Fixpoint last_with_key (keyPath : string) (k : Key) (items : list Val) : option Val :=
  match items with
  | [] => None
  | item :: rest =>
      match last_with_key keyPath k rest with
      | Some v => Some v
      | None =>
          if storable keyPath item
             && bool_decide (valid_key (Js.get item keyPath) = Some k)
          then Some item else None
      end
  end.

End StoreSpec.

(** The export database. *)

Module ExportIntegrity.
Import Sqlite Exporter.





End ExportIntegrity.

(** Further scenarios. *)

Module Scenario.
Import Dom ScraperService Fixture.

(** A crawl that has processed nine messages of another page. *)
Definition nine_seen : State :=
  set_processedMessageIds
    (list_to_set ["1"; "2"; "3"; "4"; "5"; "6"; "7"; "8"; "9"])
    (set_isCrawling true service).

(** A pass over the page, and the pass [startCrawling] makes. *)
Definition first_pass : list Message * list User * State :=
  extractExistingMessages "2025-06-01T12:00:00.000Z" service.

Definition opening_pass : list Message * list User * State :=
  extractExistingMessages "2025-06-01T12:00:00.000Z"
    (updateContext (set_processedMessageIds ∅ (set_isCrawling true service))).

(** The avatar of the first message. *)
Definition avatar : option Element :=
  querySelector (item 0) [tag_attr "IMG" "src" AttrContains "avatars/"].

(** Records for the users store: the second record for user 42 has a
    new name, the flagged record has a key no store takes. *)
Definition alice_renamed : Val :=
  VObj {[ "user_id" := VStr "42"; "username" := VStr "alice b" ]}.

Definition flagged : Val := VObj {[ "user_id" := VBool true ]}.

(** The fields of the stored channel record. *)
Definition stored_fields : gmap string Val :=
  {[ "channel_id" := VStr "1"; "server_id" := VStr "7";
     "channel_name" := VStr "general";
     "last_crawled_at" := VStr "2025-01-01T00:00:00.000Z" ]}.

(** The worker crawling channel "1" with nothing stored yet, and the
    worker at rest. *)
Definition unsaved_world : Background.World :=
  Background.mkWorld IndexedDB.empty (Background.crawlState crawling_world).

Definition idle_world : Background.World :=
  Background.mkWorld store Background.initialCrawlState.

(** Two messages of one author, as the content script builds them. *)
Definition batch_messages : list Message :=
  [mkMessage "100" (Some "1") (Some "42") "2025-01-01T00:00:00.000Z" "hello" false [];
   mkMessage "101" (Some "1") (Some "42") "2025-01-01T00:00:05.000Z" "again" true []].

Definition batch_users : list User := [mkUser "42" "alice" None].

End Scenario.

(** * Properties *)

(** ** Strings and patterns *)

Section StringFacts.
Import JsString.

Lemma append_nil_l (s : string) : ("" ++ s)%string = s.
Proof. reflexivity. Qed.

Lemma append_cons (c : ascii) (s t : string) :
  (String c s ++ t)%string = String c (s ++ t).
Proof. reflexivity. Qed.

Lemma append_nil_r (s : string) : (s ++ "")%string = s.
Proof.
  induction s as [|c s IH]; [reflexivity|].
  now rewrite append_cons, IH.
Qed.

Lemma strip_prefix_Some (p s r : string) :
  strip_prefix p s = Some r <-> s = (p ++ r)%string.
Proof.
  revert s. induction p as [|c p IH]; intros s; simpl.
  - rewrite append_nil_l. split; congruence.
  - rewrite append_cons. destruct s as [|d s]; [split; discriminate|].
    destruct (Ascii.eqb_spec c d) as [->|Hne].
    + rewrite IH. split; congruence.
    + split; [discriminate | congruence].
Qed.

Lemma span_digits_app (s d r : string) :
  span_digits s = (d, r) -> s = (d ++ r)%string /\ all_digits d = true.
Proof.
  revert d r. induction s as [|c s IH]; intros d r; simpl.
  - intros [= <- <-]. auto.
  - destruct (is_digit c) eqn:Hc.
    + destruct (span_digits s) as [d' r'] eqn:Hs.
      intros [= <- <-]. destruct (IH _ _ eq_refl) as [-> Hd].
      rewrite append_cons. simpl. rewrite Hc, Hd. auto.
    + intros [= <- <-]. auto.
Qed.

(** A digit string followed by a non-digit is split right after it. *)
Lemma span_digits_stop (d r : string) :
  all_digits d = true ->
  match r with String c _ => is_digit c = false | EmptyString => True end ->
  span_digits (d ++ r) = (d, r).
Proof.
  intros Hd Hr. induction d as [|c d IH].
  - rewrite append_nil_l. destruct r as [|c r]; [reflexivity|].
    simpl. now rewrite Hr.
  - rewrite append_cons. simpl in *.
    apply andb_prop in Hd as [Hc Hd]. rewrite Hc, (IH Hd). reflexivity.
Qed.

Lemma eqb_empty_false (s : string) : s <> "" -> String.eqb s "" = false.
Proof. intros H. now apply String.eqb_neq. Qed.

End StringFacts.


Lemma chat_message_id_match (id : string) (caps : list string) :
  Regex.match_here Regex.chat_message_id id = Some caps <->
  exists m, caps = [m] /\ chat_message_pattern id m.
Proof.
  unfold Regex.chat_message_id, chat_message_pattern. cbn [Regex.match_here].
  split.
  - destruct (JsString.strip_prefix "chat-messages-" id) as [r1|] eqn:H1; [|discriminate].
    apply strip_prefix_Some in H1.
    destruct (JsString.span_digits r1) as [c r2] eqn:H2.
    apply span_digits_app in H2 as [-> Hc].
    destruct (String.eqb_spec c "") as [|Hcne]; [discriminate|].
    destruct (JsString.strip_prefix "-" r2) as [r3|] eqn:H3; [|discriminate].
    apply strip_prefix_Some in H3. subst r2.
    destruct (JsString.span_digits r3) as [m r4] eqn:H4.
    apply span_digits_app in H4 as [-> Hm].
    destruct (String.eqb_spec m "") as [|Hmne]; [discriminate|].
    destruct (String.eqb_spec r4 "") as [->|]; [|discriminate].
    simpl. intros [= <-]. exists m. split; [reflexivity|].
    exists c. repeat split; try assumption.
    subst id. now rewrite append_nil_r.
  - intros (m & -> & c & Hcne & Hc & Hmne & Hm & ->).
    assert (H1 : JsString.strip_prefix "chat-messages-"
                   ("chat-messages-" ++ c ++ "-" ++ m) = Some (c ++ "-" ++ m)%string)
      by (now apply strip_prefix_Some).
    rewrite H1.
    rewrite (span_digits_stop c ("-" ++ m) Hc) by reflexivity.
    rewrite (eqb_empty_false c Hcne).
    assert (H3 : JsString.strip_prefix "-" ("-" ++ m) = Some m)
      by (now apply strip_prefix_Some).
    rewrite H3.
    rewrite <- (append_nil_r m) at 1.
    rewrite (span_digits_stop m "" Hm I).
    rewrite (eqb_empty_false m Hmne). reflexivity.
Qed.

(** ** The Extractor *)

Section ExtractorFacts.
Import Dom ScraperService Extractor.


(** [parseMessage] on a list item with a fresh id: the record it builds
    and the id it marks as processed. *)
Lemma parseMessage_fresh now element lastSeen s id :
  tagName element = "LI" ->
  extractMessageId element = Some id ->
  id ∉ processedMessageIds s ->
  exists parsed s',
    parseMessage now element lastSeen s = (Some parsed, s') /\
    message_id (message parsed) = id /\
    channel_id (message parsed) = ctx_channel_id (context s) /\
    user_id (message parsed) = author_of element lastSeen /\
    reactions (message parsed) = extractReactions element /\
    (user parsed = None <-> nonempty (author_of element lastSeen) = None) /\
    processedMessageIds s' = {[id]} ∪ processedMessageIds s /\
    isCrawling s' = isCrawling s.
Proof.
  intros Htag Hid Hfresh. unfold parseMessage.
  rewrite Htag, Hid. simpl negb. cbv iota.
  rewrite bool_decide_eq_false_2 by assumption.
  eexists _, _. split; [reflexivity|]. simpl.
  repeat split; try reflexivity.
  - unfold author_of. destruct (nonempty _); [discriminate | reflexivity].
  - unfold author_of. intros ->. reflexivity.
  - match goal with |- context [if ?b then _ else _] => destruct b end; reflexivity.
  - match goal with |- context [if ?b then _ else _] => destruct b end; reflexivity.
Qed.

(** [parseMessage] returns [null] and changes nothing for an element
    that is not a list item, has no id, or has an id already processed. *)
Lemma parseMessage_rejects now element lastSeen s :
  tagName element <> "LI" \/
  extractMessageId element = None \/
  (exists id, extractMessageId element = Some id /\ id ∈ processedMessageIds s) ->
  parseMessage now element lastSeen s = (None, s).
Proof.
  unfold parseMessage. intros [Htag | [Hid | (id & Hid & Hin)]].
  - apply String.eqb_neq in Htag. now rewrite Htag.
  - destruct (negb _); [reflexivity|]. now rewrite Hid.
  - destruct (negb _); [reflexivity|]. rewrite Hid.
    now rewrite bool_decide_eq_true_2.
Qed.

(** The set of processed ids only grows. *)
Lemma parseMessage_keeps_processed now element lastSeen s id :
  id ∈ processedMessageIds s ->
  id ∈ processedMessageIds (snd (parseMessage now element lastSeen s)).
Proof.
  intros Hin. unfold parseMessage.
  destruct (negb _); [assumption|].
  destruct (extractMessageId element) as [mid|]; [|assumption].
  case_bool_decide; [assumption|].
  simpl. match goal with |- context [if ?b then _ else _] => destruct b end;
    simpl; set_solver.
Qed.


Lemma feed_keeps_processed l s id :
  id ∈ processedMessageIds s -> id ∈ processedMessageIds (feed s l).
Proof.
  revert s. induction l as [|[[now e] a] l IH]; intros s Hin; [assumption|].
  simpl. apply IH. now apply parseMessage_keeps_processed.
Qed.

Lemma extractMessageId_nonempty element id :
  extractMessageId element = Some id -> id <> "".
Proof.
  unfold extractMessageId.
  destruct (getAttribute element "id") as [raw|]; [|discriminate].
  destruct (String.eqb_spec raw "") as [|Hne]; [discriminate|].
  destruct (Regex.match_here Regex.chat_message_id raw) as [caps|] eqn:Hm.
  - apply chat_message_id_match in Hm as (m & -> & c & _ & _ & Hmne & _).
    now intros [= <-].
  - now intros [= <-].
Qed.

Lemma match_here_captures_nonempty re s caps :
  Regex.match_here re s = Some caps -> Forall (fun c => c <> "") caps.
Proof.
  revert s caps. induction re as [|a re IH]; intros s caps; simpl.
  - intros [= <-]. constructor.
  - destruct a.
    + destruct (JsString.strip_prefix s0 s); [apply IH | discriminate].
    + destruct (JsString.span_digits s) as [d r].
      destruct (String.eqb d ""); [discriminate | apply IH].
    + destruct (JsString.span_digits s) as [d r].
      destruct (String.eqb_spec d "") as [|Hne]; [discriminate|].
      destruct (Regex.match_here re r) as [caps'|] eqn:Hr; [|discriminate].
      intros [= <-]. constructor; [assumption | now apply (IH r)].
    + destruct (String.eqb s ""); [apply IH | discriminate].
Qed.

Lemma search_captures_nonempty re s caps :
  Regex.search re s = Some caps -> Forall (fun c => c <> "") caps.
Proof.
  induction s as [|c s IH]; simpl.
  - destruct (Regex.match_here re "") eqn:H; [|discriminate].
    intros [= <-]. now apply match_here_captures_nonempty in H.
  - destruct (Regex.match_here re (String c s)) eqn:H; [|exact IH].
    intros [= <-]. now apply match_here_captures_nonempty in H.
Qed.

(** A user id read from an avatar URL is a non-empty run of digits. *)
Lemma extractUserIdFromAvatar_nonempty img uid :
  extractUserIdFromAvatar img = Some uid -> uid <> "".
Proof.
  unfold extractUserIdFromAvatar. destruct img as [img|]; [|discriminate].
  destruct (String.eqb (src img) ""); [discriminate|].
  destruct (Regex.search Regex.guild_avatar (src img)) as [[|u caps]|] eqn:Hg.
  - destruct (Regex.search Regex.user_avatar (src img)) as [[|u caps]|] eqn:Ha;
      try discriminate.
    intros [= <-]. apply search_captures_nonempty in Ha. now inversion Ha.
  - intros [= <-]. apply search_captures_nonempty in Hg. now inversion Hg.
  - destruct (Regex.search Regex.user_avatar (src img)) as [[|u caps]|] eqn:Ha;
      try discriminate.
    intros [= <-]. apply search_captures_nonempty in Ha. now inversion Ha.
Qed.

Lemma nonempty_Some uid : uid <> "" -> nonempty (Some uid) = Some uid.
Proof. intros H. unfold nonempty. now rewrite eqb_empty_false. Qed.

End ExtractorFacts.


Section ExtractorClaims.
Import Dom ScraperService Extractor.

(** A header-less element that is parsed gets the last seen author. *)
Lemma parseMessage_headerless now e a s p s' :
  hasMessageHeader e = false ->
  parseMessage now e a s = (Some p, s') ->
  user_id (message p) = a.
Proof.
  intros Hh Hp. unfold parseMessage in Hp.
  destruct (negb _); [discriminate|].
  destruct (extractMessageId e); [|discriminate].
  destruct (bool_decide _); [discriminate|].
  rewrite Hh in Hp. now injection Hp as <- _.
Qed.

(** Header-less elements leave the last seen author in place. *)
Lemma pass_step_headerless now acc e uid :
  uid <> "" ->
  hasMessageHeader e = false ->
  lastSeenAuthorId acc = Some uid ->
  lastSeenAuthorId (pass_step now acc e) = Some uid.
Proof.
  intros Hne Hh Hacc. unfold pass_step.
  destruct (parseMessage now e (lastSeenAuthorId acc) (state acc)) as [[p|] s'] eqn:Hp;
    [|exact Hacc].
  simpl. rewrite (parseMessage_headerless _ _ _ _ _ _ Hh Hp), Hacc.
  now rewrite nonempty_Some.
Qed.

Lemma pass_headerless_run now between acc uid :
  uid <> "" ->
  Forall (fun e => hasMessageHeader e = false) between ->
  lastSeenAuthorId acc = Some uid ->
  lastSeenAuthorId (fold_left (pass_step now) between acc) = Some uid.
Proof.
  intros Hne Hall. revert acc.
  induction Hall as [|e between Hh _ IH]; intros acc Hacc; [exact Hacc|].
  cbn [fold_left]. apply IH. now apply pass_step_headerless.
Qed.

(** C7 (grouped-message inheritance).  In one extraction pass, when an
    element with an author header is parsed to a message with user id
    [uid] (for instance "42"), a header-less element parsed after it,
    right away or after other header-less elements, gets the user id
    [uid], inherited through [lastSeenAuthorId].  An element with a header
    from which no user id can be read is parsed to a message with user id
    [null] and no user record, and leaves [lastSeenAuthorId] as it was. *)
Theorem grouped_message_inherits_last_author
    now (acc : Pass) (e1 e2 e3 : Element) (between : list Element)
    (p1 p2 p3 : Parsed) (s1 s2 s3 : State) (uid : string) :
  (hasMessageHeader e1 = true ->
   parseMessage now e1 (lastSeenAuthorId acc) (state acc) = (Some p1, s1) ->
   user_id (message p1) = Some uid ->
   Forall (fun e => hasMessageHeader e = false) between ->
   hasMessageHeader e2 = false ->
   parseMessage now e2
     (lastSeenAuthorId (fold_left (pass_step now) between (pass_step now acc e1)))
     (state (fold_left (pass_step now) between (pass_step now acc e1)))
     = (Some p2, s2) ->
   lastSeenAuthorId (pass_step now acc e1) = Some uid /\
   user_id (message p2) = Some uid /\
   message p2
     ∈ messages (pass_step now
                   (fold_left (pass_step now) between (pass_step now acc e1)) e2))
  /\
  (hasMessageHeader e3 = true ->
   extractUserIdFromAvatar
     (querySelector e3 [tag_attr "IMG" "src" AttrContains "avatars/"]) = None ->
   parseMessage now e3 (lastSeenAuthorId acc) (state acc) = (Some p3, s3) ->
   user_id (message p3) = None /\
   user p3 = None /\
   lastSeenAuthorId (pass_step now acc e3) = lastSeenAuthorId acc).
Proof.
  split.
  - intros Hh1 Hp1 Hu1 Hrun Hh2 Hp2.
    assert (Hne : uid <> "").
    { unfold parseMessage in Hp1.
      destruct (negb _); [discriminate|].
      destruct (extractMessageId e1); [|discriminate].
      destruct (bool_decide _); [discriminate|].
      rewrite Hh1 in Hp1. injection Hp1 as <- _. simpl in Hu1.
      now apply extractUserIdFromAvatar_nonempty in Hu1. }
    assert (Hacc : lastSeenAuthorId (pass_step now acc e1) = Some uid).
    { unfold pass_step. rewrite Hp1. simpl. rewrite Hu1.
      now rewrite nonempty_Some. }
    split; [exact Hacc|]. split.
    + rewrite (parseMessage_headerless _ _ _ _ _ _ Hh2 Hp2).
      now apply pass_headerless_run.
    + unfold pass_step at 1. rewrite Hp2. simpl.
      apply elem_of_app. right. apply list_elem_of_here.
  - intros Hh3 Hnone Hp3.
    unfold parseMessage in Hp3.
    destruct (negb _) eqn:Htag; [discriminate|].
    destruct (extractMessageId e3) eqn:Hid; [|discriminate].
    destruct (bool_decide _) eqn:Hin; [discriminate|].
    rewrite Hh3, Hnone in Hp3. injection Hp3 as <- <-.
    repeat split.
    unfold pass_step, parseMessage. rewrite Htag, Hid, Hin, Hh3, Hnone.
    reflexivity.
Qed.

(** C8 (dedup).  Within one crawl session (the processed set is not
    reset), once a list item has been fed to the Extractor, feeding any
    element with the same message id, right away or after any other
    elements, returns [null] and changes nothing; an element that is not
    message-shaped is rejected with [null] as well. *)
Theorem repeated_message_id_is_rejected
    now1 now2 (e1 e2 : Element) (a1 a2 : option string)
    (between : list (string * Element * option string)) (s : State) :
  tagName e1 = "LI" ->
  extractMessageId e1 = extractMessageId e2 ->
  parseMessage now2 e2 a2 (feed (snd (parseMessage now1 e1 a1 s)) between)
    = (None, feed (snd (parseMessage now1 e1 a1 s)) between)
  /\
  (forall now (e : Element) (a : option string) (s' : State),
      ~ message_shaped e -> parseMessage now e a s' = (None, s')).
Proof.
  intros Htag Hsame. split.
  - apply parseMessage_rejects.
    destruct (extractMessageId e2) as [id|] eqn:Hid2; [|tauto].
    right. right. exists id. split; [reflexivity|].
    apply feed_keeps_processed.
    destruct (decide (id ∈ processedMessageIds s)) as [Hin|Hfresh].
    + now apply parseMessage_keeps_processed.
    + destruct (parseMessage_fresh now1 e1 a1 s id Htag Hsame Hfresh)
        as (p & s' & -> & _ & _ & _ & _ & _ & Hids & _).
      simpl. rewrite Hids. apply elem_of_union. left. now apply elem_of_singleton.
  - intros now e a s' Hshape. apply parseMessage_rejects.
    destruct (String.eqb_spec (tagName e) "LI") as [Htag'|]; [|tauto].
    right. left. unfold extractMessageId.
    destruct (getAttribute e "id") as [raw|] eqn:Hraw; [|reflexivity].
    destruct (String.eqb_spec raw "") as [|Hne]; [reflexivity|].
    exfalso. apply Hshape. split; [assumption|]. now exists raw.
Qed.

(** C10 (raw DOM id as message id).  When the [id] attribute of an
    element is non-empty and does not have the form
    [chat-messages-{channel_id}-{message_id}], [extractMessageId] returns
    the whole attribute; a list item with such an id, not yet processed,
    is parsed to a message whose [message_id] is that raw string, and the
    store keeps the message under that key. *)
Theorem unmatched_dom_id_becomes_message_id
    now (element : Element) (lastSeen : option string) (s : State)
    (raw : string) (db : IndexedDB.Database) :
  getAttribute element "id" = Some raw ->
  raw <> "" ->
  (forall m, ~ chat_message_pattern raw m) ->
  extractMessageId element = Some raw /\
  (tagName element = "LI" ->
   raw ∉ processedMessageIds s ->
   exists parsed s',
     parseMessage now element lastSeen s = (Some parsed, s') /\
     message_id (message parsed) = raw /\
     IndexedDB.messages
       (fst (IndexedDB.storeMessages [Encode.message (message parsed)] db))
       !! IndexedDB.KStr raw = Some (Encode.message (message parsed))).
Proof.
  intros Hattr Hne Hpat.
  assert (Hid : extractMessageId element = Some raw).
  { unfold extractMessageId. rewrite Hattr, (eqb_empty_false raw Hne).
    destruct (Regex.match_here Regex.chat_message_id raw) as [caps|] eqn:Hm;
      [|reflexivity].
    apply chat_message_id_match in Hm as (m & _ & Hm). now destruct (Hpat m). }
  split; [exact Hid|]. intros Htag Hfresh.
  destruct (parseMessage_fresh now element lastSeen s raw Htag Hid Hfresh)
    as (p & s' & Hp & Hmid & _).
  exists p, s'. split; [exact Hp|]. split; [exact Hmid|].
  unfold IndexedDB.storeMessages, IndexedDB.put_each, IndexedDB.put.
  assert (Hget : Js.get (Encode.message (message p)) "message_id" = VStr raw).
  { unfold Encode.message, Js.get. rewrite lookup_insert_eq. simpl. now rewrite Hmid. }
  rewrite Hget. simpl. rewrite (eqb_empty_false raw Hne). simpl.
  apply lookup_insert_eq.
Qed.

End ExtractorClaims.

Section ExtractorWitnesses.
Import Dom ScraperService Extractor Fixture.

Lemma grouped_message_inherits_last_author_witness :
  user_id (message (parsed_at pass0 (item 0))) = Some "42" /\
  hasMessageHeader (item 1) = false /\
  hasMessageHeader (item 2) = false /\
  user_id (message (parsed_at (grouped_run pass0) (item 2))) = Some "42" /\
  hasMessageHeader (item 3) = true /\
  user_id (message (parsed_at pass0 (item 3))) = None.
Proof.
  destruct (grouped_message_inherits_last_author
              "2025-06-01T12:00:00.000Z" pass0 (item 0) (item 2) (item 3) [item 1]
              (parsed_at pass0 (item 0))
              (parsed_at (grouped_run pass0) (item 2))
              (parsed_at pass0 (item 3))
              (snd (parse_at pass0 (item 0)))
              (snd (parse_at (grouped_run pass0) (item 2)))
              (snd (parse_at pass0 (item 3)))
              "42") as [Hgrouped Hanonymous].
  destruct Hgrouped as (_ & H2 & _);
    [vm_compute; reflexivity
    | vm_compute; reflexivity
    | vm_compute; reflexivity
    | repeat constructor
    | vm_compute; reflexivity
    | vm_compute; reflexivity |].
  destruct Hanonymous as (H3 & _ & _); [vm_compute; reflexivity ..|].
  split; [vm_compute; reflexivity|].
  split; [vm_compute; reflexivity|].
  split; [vm_compute; reflexivity|].
  split; [exact H2|].
  split; [vm_compute; reflexivity | exact H3].
Defined.

Lemma repeated_message_id_is_rejected_witness :
  tagName (item 0) = "LI" /\
  fst (parseMessage "t2" (item 0) None
         (feed (snd (parseMessage "t0" (item 0) None service))
               [("t1", item 1, Some "42")])) = None /\
  fst (parseMessage "t3" (document_root document) None service) = None.
Proof.
  destruct (repeated_message_id_is_rejected "t0" "t2" (item 0) (item 0) None None
              [("t1", item 1, Some "42")] service) as [Hagain Hshape];
    [vm_compute; reflexivity ..|].
  split; [vm_compute; reflexivity|]. split.
  - now rewrite Hagain.
  - rewrite Hshape; [reflexivity|]. intros [Htag _]. vm_compute in Htag. discriminate.
Defined.

Lemma unmatched_dom_id_becomes_message_id_witness :
  tagName (item 2) = "LI" /\
  getAttribute (item 2) "id" = Some "chat-messages-divider" /\
  extractMessageId (item 2) = Some "chat-messages-divider" /\
  exists parsed s',
    parseMessage "t0" (item 2) None service = (Some parsed, s') /\
    message_id (message parsed) = "chat-messages-divider" /\
    IndexedDB.messages
      (fst (IndexedDB.storeMessages [Encode.message (message parsed)] IndexedDB.empty))
      !! IndexedDB.KStr "chat-messages-divider" = Some (Encode.message (message parsed)).
Proof.
  destruct (unmatched_dom_id_becomes_message_id "t0" (item 2) None service
              "chat-messages-divider" IndexedDB.empty) as [Hid Hparse].
  - vm_compute; reflexivity.
  - discriminate.
  - intros m Hm.
    assert (H : Regex.match_here Regex.chat_message_id "chat-messages-divider" = Some [m])
      by (apply chat_message_id_match; eauto).
    vm_compute in H. discriminate.
  - split; [vm_compute; reflexivity|]. split; [vm_compute; reflexivity|].
    split; [exact Hid|]. apply Hparse; [vm_compute; reflexivity|].
    assert (Hnone : processedMessageIds service = ∅) by (vm_compute; reflexivity).
    rewrite Hnone. apply not_elem_of_empty.
Defined.

End ExtractorWitnesses.

Section ReactionClaims.
Import Dom ScraperService Fixture.

(** What one emoji image contributes, by its name and the count read
    for it. *)
Lemma reaction_of_Some container img r :
  reaction_of container img = Some r <->
  getAttribute img "data-name" = Some (emoji r) /\ emoji r <> "" /\
  count r = reaction_count (reaction_element container img) /\ count r <> 0.
Proof.
  unfold reaction_of. destruct r as [name n]. simpl.
  destruct (getAttribute img "data-name") as [name'|].
  - destruct (String.eqb_spec name' "") as [->|Hne].
    + split; [discriminate|]. intros ([= <-] & Hne & _). now destruct Hne.
    + destruct (Z.eqb_spec (reaction_count (reaction_element container img)) 0)
        as [Hz|Hnz].
      * split; [discriminate|]. intros (_ & _ & -> & Hn). now destruct Hn.
      * split.
        -- intros [= <- <-]. auto.
        -- intros ([= <-] & _ & -> & _). reflexivity.
  - split; [discriminate|]. intros (H & _). discriminate.
Qed.

(** C9 as the code has it (reaction filtering).  The reactions
    extracted from an element are, in document order, the emoji markers
    of its reactions container whose count is not zero: a marker is
    included, as [{emoji, count}], if and only if the count read for it
    differs from 0.  A marker with count 0 is excluded and a marker with
    count 1 is included as [{emoji, count: 1}]. *)
Theorem reactions_keep_markers_with_nonzero_count
    (element container img : Element) (name : string) :
  reactions_container element = Some container ->
  img ∈ emoji_images container ->
  getAttribute img "data-name" = Some name ->
  name <> "" ->
  extractReactions element
    = omap (reaction_of container) (emoji_images container) /\
  (forall r, r ∈ extractReactions element <->
             exists i, i ∈ emoji_images container /\
                       reaction_of container i = Some r) /\
  (reaction_of container img
     = Some (mkReaction name (reaction_count (reaction_element container img)))
   <-> reaction_count (reaction_element container img) <> 0) /\
  (reaction_count (reaction_element container img) = 0 ->
   reaction_of container img = None) /\
  (reaction_count (reaction_element container img) = 1 ->
   mkReaction name 1 ∈ extractReactions element).
Proof.
  intros Hc Himg Hname Hne.
  assert (Hx : extractReactions element
               = omap (reaction_of container) (emoji_images container))
    by (unfold extractReactions; now rewrite Hc).
  split; [exact Hx|]. split; [|split; [|split]].
  - intros r. rewrite Hx. apply list_elem_of_omap.
  - rewrite reaction_of_Some. simpl. tauto.
  - intros Hz. unfold reaction_of. rewrite Hname, (eqb_empty_false name Hne), Hz.
    reflexivity.
  - intros H1. rewrite Hx. apply list_elem_of_omap. exists img.
    split; [assumption|]. apply reaction_of_Some. simpl. rewrite H1.
    repeat split; auto; discriminate.
Qed.

End ReactionClaims.

Section ReactionWitnesses.
Import Dom ScraperService Fixture.

Lemma marker_in_box (i : nat) (img : Element) :
  emoji_images reactions_box !! i = Some img -> img ∈ emoji_images reactions_box.
Proof. intros H. apply list_elem_of_lookup. now exists i. Qed.

Lemma reactions_keep_markers_with_nonzero_count_witness :
  reaction_count (reaction_element reactions_box (marker 0)) = 1 /\
  mkReaction "thumbsup" 1 ∈ extractReactions (item 0) /\
  reaction_count (reaction_element reactions_box (marker 1)) = 0 /\
  reaction_of reactions_box (marker 1) = None.
Proof.
  destruct (reactions_keep_markers_with_nonzero_count
              (item 0) reactions_box (marker 0) "thumbsup")
    as (_ & _ & _ & _ & Hone);
    [vm_compute; reflexivity
    | apply (marker_in_box 0); vm_compute; reflexivity
    | vm_compute; reflexivity
    | discriminate |].
  destruct (reactions_keep_markers_with_nonzero_count
              (item 0) reactions_box (marker 1) "eyes")
    as (_ & _ & _ & Hzero & _);
    [vm_compute; reflexivity
    | apply (marker_in_box 1); vm_compute; reflexivity
    | vm_compute; reflexivity
    | discriminate |].
  split; [vm_compute; reflexivity|].
  split; [apply Hone; vm_compute; reflexivity|].
  split; [vm_compute; reflexivity|].
  apply Hzero. vm_compute; reflexivity.
Defined.

(** C9 as stated fails: the marker "tada" of the first message shows the
    count -2, which is not greater than 0, and it is among the extracted
    reactions. *)
Lemma marker_with_negative_count_is_included :
  ~ (forall (element container img : Element) (name : string),
        reactions_container element = Some container ->
        img ∈ emoji_images container ->
        getAttribute img "data-name" = Some name ->
        (mkReaction name (reaction_count (reaction_element container img))
           ∈ extractReactions element
         <-> 0 < reaction_count (reaction_element container img))).
Proof.
  intros H.
  specialize (H (item 0) reactions_box (marker 2) "tada").
  assert (Hcount : reaction_count (reaction_element reactions_box (marker 2)) = -2)
    by (vm_compute; reflexivity).
  rewrite Hcount in H.
  assert (Hall : extractReactions (item 0)
                 = [mkReaction "thumbsup" 1; mkReaction "tada" (-2)])
    by (vm_compute; reflexivity).
  rewrite Hall in H.
  destruct H as [H _];
    [vm_compute; reflexivity
    | apply (marker_in_box 2); vm_compute; reflexivity
    | vm_compute; reflexivity |].
  assert (Hlt : 0 < -2) by (apply H; apply list_elem_of_In; simpl; auto).
  discriminate Hlt.
Qed.

End ReactionWitnesses.

Section CoordinatorClaims.
Import Background.

(** C3 (busy rejection).  A start request that arrives while a crawl is
    active ([isCrawling] is true) is answered with a failure whose reason
    is "Crawler is already running"; the store and the whole crawl state,
    the current channel among it, stay as they were, and nothing is sent
    to any tab. *)
Theorem start_while_crawling_is_rejected
    now (activeTab : option Tab) (delivery : option string) (w : World) :
  isCrawling (crawlState w) = true ->
  onMessage now activeTab delivery StartCrawl w
    = (w, mkResponse false ∅ (Some "Crawler is already running"), []) /\
  currentChannel (crawlState (fst (fst (onMessage now activeTab delivery StartCrawl w))))
    = currentChannel (crawlState w).
Proof.
  intros Hbusy. unfold onMessage, startCrawl. rewrite Hbusy. split; reflexivity.
Qed.

End CoordinatorClaims.

Section CoordinatorWitnesses.
Import Background Fixture.

Lemma start_while_crawling_is_rejected_witness :
  isCrawling (crawlState crawling_world) = true /\
  onMessage "2025-06-01T12:00:00.000Z" (Some discord_tab) None StartCrawl crawling_world
    = (crawling_world, mkResponse false ∅ (Some "Crawler is already running"), []) /\
  currentChannel
    (crawlState (fst (fst (onMessage "2025-06-01T12:00:00.000Z" (Some discord_tab)
                             None StartCrawl crawling_world))))
    = VStr "1".
Proof.
  destruct (start_while_crawling_is_rejected "2025-06-01T12:00:00.000Z"
              (Some discord_tab) None crawling_world eq_refl) as [Hsame Hchannel].
  split; [reflexivity|]. split; [exact Hsame | exact Hchannel].
Defined.

End CoordinatorWitnesses.

Section PaginationClaims.
Import ScraperService.

Lemma isAtTop_spec (p : Page) :
  isAtTop p = true <->
  exists container, findScrollContainer p = Some container /\
                    (scrollTop container <= 10)%Q.
Proof.
  unfold isAtTop. destruct (findScrollContainer p) as [c|].
  - rewrite Qle_bool_iff. split; [eauto|]. now intros (c' & [= <-] & H).
  - split; [discriminate|]. now intros (c' & [=] & _).
Qed.

Lemma stopCrawling_on (s : State) :
  isCrawling s = true ->
  isCrawling (stopCrawling s) = false /\
  noNewMessagesCount (stopCrawling s) = noNewMessagesCount s.
Proof.
  destruct s as [ic ids si sci lmc nnm ctx pg tm nt snt]. simpl. intros ->.
  unfold stopCrawling, stopAutoScrolling. simpl.
  destruct si, sci; simpl; auto.
Qed.

Lemma schedule_next_cycle_on (s : State) :
  isCrawling s = true ->
  isCrawling (schedule_next_cycle s) = true /\
  noNewMessagesCount (schedule_next_cycle s) = noNewMessagesCount s /\
  timers (schedule_next_cycle s)
    = (timers s ++ [mkTimer (next_timer_id s) SCROLL_DELAY PerformScrollCycle])%list.
Proof.
  intros H. unfold schedule_next_cycle. rewrite H. simpl. auto.
Qed.

Lemma performScrollCycle_found (s : State) (c : ScrollBox) :
  isCrawling s = true -> findScrollContainer (page s) = Some c ->
  isCrawling (performScrollCycle s) = true /\
  noNewMessagesCount (performScrollCycle s) = noNewMessagesCount s /\
  timers (performScrollCycle s)
    = (timers s ++ [mkTimer (next_timer_id s) SCROLL_DELAY
                      (SettleCheck (processed_size s))])%list.
Proof.
  intros H Hf. unfold performScrollCycle, scrollUp. rewrite H, Hf. simpl. auto.
Qed.

Lemma performScrollCycle_missing (s : State) :
  isCrawling s = true -> findScrollContainer (page s) = None ->
  noNewMessagesCount (performScrollCycle s) = S (noNewMessagesCount s) /\
  (isCrawling (performScrollCycle s) = false
   <-> (NO_NEW_MESSAGES_THRESHOLD <= S (noNewMessagesCount s))%nat) /\
  (isCrawling (performScrollCycle s) = true ->
   timers (performScrollCycle s)
    = (timers s ++ [mkTimer (next_timer_id s) SCROLL_DELAY
                      (SettleCheck (processed_size s))])%list).
Proof.
  intros H Hf. unfold performScrollCycle, scrollUp. rewrite H, Hf.
  cbn [negb fst snd].
  set (s2 := set_noNewMessagesCount (S (noNewMessagesCount s)) s).
  assert (H2 : isCrawling s2 = true) by exact H.
  change (noNewMessagesCount s2) with (S (noNewMessagesCount s)).
  destruct (Nat.leb_spec NO_NEW_MESSAGES_THRESHOLD (S (noNewMessagesCount s))) as [Hle|Hlt];
    cbn [andb].
  - destruct (stopCrawling_on s2 H2) as [Hs Hn]. rewrite Hs, Hn.
    split; [reflexivity|]. split; [tauto | discriminate].
  - simpl. split; [reflexivity|]. split; [|reflexivity].
    rewrite H. split; [discriminate | lia].
Qed.

Lemma settleCheck_on (s : State) (beforeCount : nat) :
  isCrawling s = true ->
  (processed_size s = beforeCount ->
   noNewMessagesCount (settleCheck beforeCount s) = S (noNewMessagesCount s)) /\
  (processed_size s <> beforeCount ->
   noNewMessagesCount (settleCheck beforeCount s) = 0%nat) /\
  (isCrawling (settleCheck beforeCount s) = false
   <-> processed_size s = beforeCount /\
       (NO_NEW_MESSAGES_THRESHOLD <= S (noNewMessagesCount s))%nat /\
       isAtTop (page s) = true) /\
  (isCrawling (settleCheck beforeCount s) = true ->
   timers (settleCheck beforeCount s)
     = (timers s ++ [mkTimer (next_timer_id s) SCROLL_DELAY PerformScrollCycle])%list).
Proof.
  intros H. unfold settleCheck.
  set (s1 := set_noNewMessagesCount (S (noNewMessagesCount s)) s).
  set (s0 := set_lastMessageCount (processed_size s) (set_noNewMessagesCount 0 s)).
  assert (H1 : isCrawling s1 = true) by exact H.
  assert (H0 : isCrawling s0 = true) by exact H.
  change (noNewMessagesCount s1) with (S (noNewMessagesCount s)).
  change (page s1) with (page s).
  destruct (schedule_next_cycle_on s1 H1) as (Hc1 & Hn1 & Ht1).
  destruct (schedule_next_cycle_on s0 H0) as (Hc0 & Hn0 & Ht0).
  destruct (stopCrawling_on s1 H1) as [Hs1 Hsn1].
  destruct (Nat.eqb_spec (processed_size s) beforeCount) as [Heq|Hne].
  - destruct (Nat.leb_spec NO_NEW_MESSAGES_THRESHOLD (S (noNewMessagesCount s))) as [Hle|Hlt];
      cbn [andb].
    + destruct (isAtTop (page s)) eqn:Htop.
      * rewrite Hs1, Hsn1. repeat split; try tauto; try discriminate.
      * rewrite Hc1, Hn1, Ht1. repeat split; try tauto; try discriminate.
        intros (_ & _ & ?). discriminate.
    + rewrite Hc1, Hn1, Ht1. repeat split; try tauto; try discriminate.
      intros (_ & ? & _). lia.
  - rewrite Hc0, Hn0, Ht0. repeat split; try tauto; try discriminate.
Qed.

(** C2 as the code has it (termination policy).  While crawling, the
    first half of a scroll cycle leaves the no-growth counter alone when
    it finds the scroll container, and adds one when it finds none; in
    that case, and whatever the scroll position, it stops the crawl
    exactly when the counter has reached 3.  The check after the settle
    delay adds one to the counter when no message was extracted since the
    cycle began and resets it to zero otherwise; it stops the crawl
    exactly when there was no growth, the counter has reached 3 and the
    scroll container is within 10 pixels of the top.  A cycle that does
    not stop the crawl schedules what follows it. *)
Theorem scroll_cycle_counts_and_stops (s : State) (beforeCount : nat) :
  isCrawling s = true ->
  (findScrollContainer (page s) <> None ->
   noNewMessagesCount (performScrollCycle s) = noNewMessagesCount s /\
   isCrawling (performScrollCycle s) = true) /\
  (findScrollContainer (page s) = None ->
   noNewMessagesCount (performScrollCycle s) = S (noNewMessagesCount s) /\
   (isCrawling (performScrollCycle s) = false
    <-> (NO_NEW_MESSAGES_THRESHOLD <= S (noNewMessagesCount s))%nat)) /\
  (isCrawling (performScrollCycle s) = true ->
   timers (performScrollCycle s)
     = (timers s ++ [mkTimer (next_timer_id s) SCROLL_DELAY
                       (SettleCheck (processed_size s))])%list) /\
  (processed_size s = beforeCount ->
   noNewMessagesCount (settleCheck beforeCount s) = S (noNewMessagesCount s)) /\
  (processed_size s <> beforeCount ->
   noNewMessagesCount (settleCheck beforeCount s) = 0%nat) /\
  (isCrawling (settleCheck beforeCount s) = false
   <-> processed_size s = beforeCount /\
       (NO_NEW_MESSAGES_THRESHOLD <= S (noNewMessagesCount s))%nat /\
       exists container, findScrollContainer (page s) = Some container /\
                         (scrollTop container <= 10)%Q) /\
  (isCrawling (settleCheck beforeCount s) = true ->
   timers (settleCheck beforeCount s)
     = (timers s ++ [mkTimer (next_timer_id s) SCROLL_DELAY PerformScrollCycle])%list).
Proof.
  intros Hc.
  destruct (settleCheck_on s beforeCount Hc) as (Hsame & Hgrow & Hstop & Hnext).
  rewrite isAtTop_spec in Hstop.
  split; [|split; [|split]]; [| | |tauto].
  - intros Hfound. destruct (findScrollContainer (page s)) as [c|] eqn:Hf; [|congruence].
    destruct (performScrollCycle_found s c Hc Hf) as (? & ? & _). auto.
  - intros Hf. destruct (performScrollCycle_missing s Hc Hf) as (? & ? & _). auto.
  - destruct (findScrollContainer (page s)) as [c|] eqn:Hf.
    + destruct (performScrollCycle_found s c Hc Hf) as (_ & _ & ?). auto.
    + destruct (performScrollCycle_missing s Hc Hf) as (_ & _ & ?). auto.
Qed.

End PaginationClaims.

Section PaginationWitnesses.
Import ScraperService Fixture.

Lemma scroll_cycle_counts_and_stops_witness :
  isCrawling stalled = true /\
  noNewMessagesCount stalled = 2%nat /\
  noNewMessagesCount (settleCheck (processed_size stalled) stalled) = 3%nat /\
  isCrawling (settleCheck (processed_size stalled) stalled) = false.
Proof.
  destruct (scroll_cycle_counts_and_stops stalled (processed_size stalled) eq_refl)
    as (_ & _ & _ & Hsame & _ & Hstop & _).
  split; [reflexivity|]. split; [reflexivity|]. split.
  - now rewrite Hsame.
  - apply Hstop. split; [reflexivity|]. split; [vm_compute; lia|].
    exists (scrollBox channel_page). split; [vm_compute; reflexivity|].
    vm_compute. discriminate.
Defined.

(** C2 as stated fails: with the scroll container gone from the
    document, the third failed scroll stops the crawl although no
    container is within 10 pixels of the top. *)
Lemma missing_container_stops_crawl_away_from_top :
  ~ (forall s : State,
        isCrawling s = true ->
        (isCrawling (performScrollCycle s) = false
         <-> (NO_NEW_MESSAGES_THRESHOLD <= noNewMessagesCount (performScrollCycle s))%nat
             /\ isAtTop (page (performScrollCycle s)) = true)).
Proof.
  intros H. destruct (H detached eq_refl) as [Hstop _].
  destruct Hstop as [_ Htop]; [vm_compute; reflexivity|].
  vm_compute in Htop. discriminate.
Qed.

(** Termination on a surface whose position stays 0 while nothing new
    is extracted: the crawl started on it stops at the third settle
    check, with no timer left. *)
Lemma crawl_at_top_stops_after_three_checks :
  let s := fire_all [1; 2; 3; 4; 5; 6; 7]%nat
             (startCrawling "2025-06-01T12:00:00.000Z" (new short_page)) in
  isCrawling (fire_all [1; 2; 3; 4; 5; 6]%nat
                (startCrawling "2025-06-01T12:00:00.000Z" (new short_page))) = true /\
  isCrawling s = false /\ noNewMessagesCount s = 3%nat /\ timers s = [] /\
  last (sent s) = Some (UpdateCrawlStatus (Some false) None None None None).
Proof. vm_compute. repeat split; reflexivity. Qed.

End PaginationWitnesses.

Section StoreClaims.
Import IndexedDB.

Lemma truthy_field_object (v : Val) (f : string) :
  f <> "length" -> Js.truthy (Js.get v f) = true -> exists o, v = VObj o.
Proof.
  intros Hf. apply String.eqb_neq in Hf.
  destruct v; simpl; try discriminate; try (rewrite Hf; discriminate).
  eauto.
Qed.

Lemma get_channelData_other existing channel f :
  f <> "last_crawled_at" ->
  Js.get (channelData existing channel) f
  = match Js.spread channel !! f with
    | Some v => v
    | None => default VUndefined (Js.spread existing !! f)
    end.
Proof.
  intros Hf. unfold channelData, Js.get.
  rewrite lookup_insert_ne by congruence.
  rewrite lookup_union.
  destruct (Js.spread channel !! f), (Js.spread existing !! f); reflexivity.
Qed.

Lemma get_channelData_last_crawled_at existing channel :
  Js.get (channelData existing channel) "last_crawled_at"
  = if Js.defined (Js.get channel "last_crawled_at")
    then Js.get channel "last_crawled_at"
    else Js.or (Js.get existing "last_crawled_at") VNull.
Proof. unfold channelData, Js.get at 1. now rewrite lookup_insert_eq. Qed.

Lemma get_spread (o : gmap string Val) f :
  Js.get (VObj o) f = default VUndefined (Js.spread (VObj o) !! f).
Proof. reflexivity. Qed.

(** An upsert of a record with a usable channel id writes the merged
    record under that id. *)
Lemma storeChannel_writes channel db k :
  Js.truthy (Js.get channel "channel_id") = true ->
  valid_key (Js.get channel "channel_id") = Some k ->
  storeChannel channel db
  = (set_channels (<[k := channelData (channel_at db k) channel]> (channels db)) db,
     Resolved).
Proof.
  intros Ht Hk.
  destruct (truthy_field_object channel "channel_id") as [o ->]; [discriminate|assumption|].
  unfold storeChannel. rewrite Ht, Hk. simpl negb. cbv iota.
  unfold put. fold (channel_at db k).
  rewrite get_channelData_other by discriminate.
  assert (Hsome : Js.spread (VObj o) !! "channel_id" = Some (Js.get (VObj o) "channel_id")).
  { simpl in *. destruct (o !! "channel_id"); [reflexivity | discriminate]. }
  rewrite Hsome, Hk. reflexivity.
Qed.

Lemma channel_at_after_store channel db k :
  Js.truthy (Js.get channel "channel_id") = true ->
  valid_key (Js.get channel "channel_id") = Some k ->
  channel_at (fst (storeChannel channel db)) k = channelData (channel_at db k) channel.
Proof.
  intros Ht Hk. rewrite (storeChannel_writes channel db k Ht Hk).
  unfold channel_at. simpl. now rewrite lookup_insert_eq.
Qed.

Lemma or_null_idempotent v : Js.or (Js.or v VNull) VNull = Js.or v VNull.
Proof. unfold Js.or. destruct (Js.truthy v) eqn:H; [now rewrite H | reflexivity]. Qed.

Lemma storeChannel_holds_records channel db :
  holds_records (channels db) ->
  holds_records (channels (fst (storeChannel channel db))).
Proof.
  intros Hrec. unfold storeChannel.
  destruct (negb _ || negb _); [exact Hrec|].
  destruct (valid_key (Js.get channel "channel_id")) as [k|]; [|exact Hrec].
  unfold put. destruct (valid_key _) as [k'|]; [|exact Hrec]. simpl.
  intros j v. rewrite lookup_insert. case_decide.
  - intros [= <-]. unfold channelData. eauto.
  - apply Hrec.
Qed.

(** C4 (merge-on-write, idempotent last_crawled_at).  Upsert a channel
    record, then upsert a record for the same channel that carries no
    [last_crawled_at]: the stored [last_crawled_at] is what the first
    upsert left, and so is every field the second record does not have.
    The first upsert, too, keeps every field of the stored record that
    the incoming record does not have.  ([last_crawled_at], where the
    first record gives it, is a timestamp or [null].) *)
Theorem channel_upsert_merges_and_keeps_last_crawled_at
    (db : Database) (first second : Val) (k : Key) :
  holds_records (channels db) ->
  Js.truthy (Js.get first "channel_id") = true ->
  valid_key (Js.get first "channel_id") = Some k ->
  Js.get second "channel_id" = Js.get first "channel_id" ->
  Js.get second "last_crawled_at" = VUndefined ->
  nullable_timestamp (Js.get first "last_crawled_at") ->
  Js.get (channel_at (fst (storeChannel second (fst (storeChannel first db)))) k)
         "last_crawled_at"
    = Js.get (channel_at (fst (storeChannel first db)) k) "last_crawled_at" /\
  (forall f, Js.spread second !! f = None ->
     Js.get (channel_at (fst (storeChannel second (fst (storeChannel first db)))) k) f
     = Js.get (channel_at (fst (storeChannel first db)) k) f) /\
  (forall f, f <> "last_crawled_at" -> Js.spread first !! f = None ->
     Js.get (channel_at (fst (storeChannel first db)) k) f
     = Js.get (channel_at db k) f).
Proof.
  intros Hrec Ht Hk Hsame Hnone Hts.
  assert (Ht2 : Js.truthy (Js.get second "channel_id") = true) by now rewrite Hsame.
  assert (Hk2 : valid_key (Js.get second "channel_id") = Some k) by now rewrite Hsame.
  rewrite (channel_at_after_store second _ k Ht2 Hk2).
  rewrite (channel_at_after_store first db k Ht Hk).
  assert (Hlast :
    Js.get (channelData (channelData (channel_at db k) first) second) "last_crawled_at"
    = Js.get (channelData (channel_at db k) first) "last_crawled_at").
  { rewrite (get_channelData_last_crawled_at _ second), Hnone.
    change (Js.defined VUndefined) with false. cbv iota.
    rewrite get_channelData_last_crawled_at.
    destruct Hts as [-> | [-> | (t & -> & Hne)]].
    - apply or_null_idempotent.
    - reflexivity.
    - unfold Js.or. simpl. now rewrite eqb_empty_false. }
  split; [exact Hlast|]. split.
  - intros f Hf. destruct (decide (f = "last_crawled_at")) as [->|Hne]; [exact Hlast|].
    rewrite get_channelData_other by assumption. rewrite Hf.
    reflexivity.
  - intros f Hne Hf. rewrite get_channelData_other by assumption. rewrite Hf.
    unfold channel_at. destruct (channels db !! k) as [v|] eqn:Hv; [|reflexivity].
    destruct (Hrec k v Hv) as [o ->]. reflexivity.
Qed.
End StoreClaims.

Section StoreWitnesses.
Import IndexedDB Fixture.

Lemma store_holds_records : holds_records (channels store).
Proof.
  intros k v H. unfold store, set_channels in H. simpl in H.
  apply lookup_singleton_Some in H as [_ <-].
  unfold stored_channel. eauto.
Qed.

Lemma channel_upsert_merges_and_keeps_last_crawled_at_witness :
  Js.get (channel_at (fst (storeChannel bare_channel
                             (fst (storeChannel renamed_channel store)))) (KStr "1"))
         "last_crawled_at" = VStr "2025-06-01T12:00:00.000Z" /\
  Js.get (channel_at (fst (storeChannel bare_channel
                             (fst (storeChannel renamed_channel store)))) (KStr "1"))
         "channel_name" = VStr "lounge" /\
  Js.get (channel_at (fst (storeChannel bare_channel
                             (fst (storeChannel bare_channel store)))) (KStr "1"))
         "last_crawled_at" = VStr "2025-01-01T00:00:00.000Z".
Proof.
  destruct (channel_upsert_merges_and_keeps_last_crawled_at
              store renamed_channel bare_channel (KStr "1") store_holds_records)
    as (Hlast & Hkeep & _);
    [reflexivity | reflexivity | reflexivity | reflexivity
    | right; right; exists "2025-06-01T12:00:00.000Z"; split; [reflexivity | discriminate] |].
  destruct (channel_upsert_merges_and_keeps_last_crawled_at
              store bare_channel bare_channel (KStr "1") store_holds_records)
    as (Hsame & _ & _);
    [reflexivity | reflexivity | reflexivity | reflexivity | left; reflexivity |].
  split; [rewrite Hlast; vm_compute; reflexivity|].
  split; [rewrite (Hkeep "channel_name"); vm_compute; reflexivity|].
  rewrite Hsame. vm_compute; reflexivity.
Defined.

(** C1 at the start of a crawl.  The content script, started on a page
    that shows messages, sends a save request flagged [updateLastCrawled]
    whose channel record has no [last_crawled_at]; it is still crawling
    and has not scrolled yet.  The background worker, itself in a running
    session, answers the request by moving the stored [last_crawled_at]
    of the channel from the first of January to the time of the request. *)
Theorem crawl_start_stamps_last_crawled_at :
  ScraperService.isCrawling started = true /\
  ScraperService.timers started
    = [ScraperService.mkTimer 1 1000 ScraperService.BeginScrolling] /\
  match initial_save with
  | SaveToIndexedDB updateLastCrawled _ channel _ _ =>
      updateLastCrawled = true /\
      Js.get channel "channel_id" = VStr "1" /\
      Js.get channel "last_crawled_at" = VUndefined
  | _ => False
  end /\
  Js.get (channel_at (Background.db crawling_world) (KStr "1")) "last_crawled_at"
    = VStr "2025-01-01T00:00:00.000Z" /\
  Background.isCrawling
    (Background.crawlState
       (fst (fst (Background.onMessage "2025-06-01T12:00:00.000Z" None None
                    initial_save crawling_world)))) = true /\
  Js.get (channel_at
            (Background.db
               (fst (fst (Background.onMessage "2025-06-01T12:00:00.000Z" None None
                            initial_save crawling_world))))
            (KStr "1")) "last_crawled_at"
    = VStr "2025-06-01T12:00:00.000Z".
Proof. vm_compute. repeat split; reflexivity. Qed.

End StoreWitnesses.

Section ExportFacts.
Import Sqlite Exporter ExportSpec.

Lemma export_user_tables d u :
  messages (export_user d u) = messages d /\
  channels (export_user d u) = channels d /\
  foreign_keys (export_user d u) = foreign_keys d.
Proof.
  unfold export_user. destruct (negb _); [auto|].
  destruct (Js.get u "user_id"); auto.
  unfold insert_user. destruct (bind _); [|auto].
  destruct (existsb _ _); auto.
Qed.

Lemma export_users_tables us d :
  messages (export_users us d) = messages d /\
  channels (export_users us d) = channels d /\
  foreign_keys (export_users us d) = foreign_keys d.
Proof.
  unfold export_users. revert d. induction us as [|u us IH]; intros d; [auto|].
  cbn [fold_left]. destruct (IH (export_user d u)) as (-> & -> & ->).
  apply export_user_tables.
Qed.

Lemma export_channel_tables acc c :
  messages (fst (export_channel acc c)) = messages (fst acc) /\
  users (fst (export_channel acc c)) = users (fst acc) /\
  foreign_keys (fst (export_channel acc c)) = foreign_keys (fst acc).
Proof.
  destruct acc as [d m]. unfold export_channel.
  destruct (negb _ || negb _ || negb _); [auto|].
  unfold insert_channel. destruct (existsb _ _); [auto|].
  destruct (select_channel_id _ _); auto.
Qed.

Lemma export_channels_tables cs d :
  messages (fst (export_channels cs d)) = messages d /\
  users (fst (export_channels cs d)) = users d /\
  foreign_keys (fst (export_channels cs d)) = foreign_keys d.
Proof.
  unfold export_channels.
  generalize (@nil (Val * Z)). revert d.
  induction cs as [|c cs IH]; intros d m; [auto|].
  cbn [fold_left]. destruct (export_channel (d, m) c) as [d' m'] eqn:Hc.
  destruct (IH d' m') as (-> & -> & ->).
  pose proof (export_channel_tables (d, m) c) as H. rewrite Hc in H. exact H.
Qed.

Lemma insert_message_adds_row cid mid uid c ts a r d d' :
  insert_message cid mid uid c ts a r d = Some d' ->
  length (messages d') = S (length (messages d)) /\
  users d' = users d /\ channels d' = channels d.
Proof.
  unfold insert_message.
  destruct (bind mid), (bind uid), (bind ts); try discriminate.
  destruct (bool_decide _); [discriminate|].
  destruct (existsb _ _); [discriminate|].
  destruct (foreign_keys d && _); [discriminate|].
  intros [= <-]. simpl. rewrite length_app. simpl. split; [lia | auto].
Qed.

(** The count kept by the message loop is the number of rows it added. *)
Lemma export_message_count map acc m base :
  length (messages (fst acc)) = (base + snd acc)%nat ->
  length (messages (fst (export_message map acc m)))
    = (base + snd (export_message map acc m))%nat.
Proof.
  destruct acc as [d n]. simpl. intros H. unfold export_message.
  destruct (negb _ || negb _ || negb _); [exact H|].
  destruct (map_get _ _) as [cid|]; [|exact H].
  destruct (cid =? 0)%Z; [exact H|]. cbv zeta.
  match goal with
  | |- context [insert_message ?a ?b ?c ?e ?f ?g ?h d] =>
      destruct (insert_message a b c e f g h d) as [d'|] eqn:Hi
  end; [|exact H].
  apply insert_message_adds_row in Hi as (Hi & _). simpl. lia.
Qed.

Lemma export_messages_count map ms d :
  messages d = [] ->
  length (messages (fst (export_messages map ms d))) = snd (export_messages map ms d).
Proof.
  intros Hd. unfold export_messages.
  assert (H0 : length (messages (fst (d, 0%nat))) = (0 + snd (d, 0%nat))%nat)
    by (simpl; now rewrite Hd).
  revert H0. generalize (d, 0%nat). induction ms as [|m ms IH]; intros acc H0.
  - exact H0.
  - cbn [fold_left]. apply IH. now apply export_message_count.
Qed.

Lemma fill_count fk data ms :
  length (messages (fst (fill fk data ms))) = snd (fill fk data ms).
Proof.
  unfold fill.
  destruct (export_channels _ _) as [d2 m] eqn:Hc.
  apply export_messages_count.
  pose proof (export_channels_tables (default [] (snap_channels data))
                (export_users (default [] (snap_users data)) (create fk))) as (H & _).
  rewrite Hc in H. simpl in H. rewrite H.
  now destruct (export_users_tables (default [] (snap_users data)) (create fk)) as (-> & _).
Qed.

(** C6 (export failures).  The exporter throws "No data to export"
    exactly when the snapshot has no message (or is missing), throws "No
    valid messages could be exported" exactly when the snapshot has
    messages and the messages table is empty after the loops, and in
    every other case returns the filled database; so it fails if and only
    if there is no message to read or no message row was inserted. *)
Theorem export_fails_iff_nothing_to_export
    (foreign_keys : bool) (indexedDBData : option Snapshot) :
  (exportDatabaseFromIndexedDB foreign_keys indexedDBData = Thrown "No data to export"
   <-> snapshot_messages indexedDBData = []) /\
  (exportDatabaseFromIndexedDB foreign_keys indexedDBData
     = Thrown "No valid messages could be exported"
   <-> snapshot_messages indexedDBData <> [] /\
       messages (filled foreign_keys indexedDBData) = []) /\
  (forall sqliteData,
      exportDatabaseFromIndexedDB foreign_keys indexedDBData = Exported sqliteData
      <-> snapshot_messages indexedDBData <> [] /\
          messages (filled foreign_keys indexedDBData) <> [] /\
          sqliteData = filled foreign_keys indexedDBData) /\
  ((exists reason, exportDatabaseFromIndexedDB foreign_keys indexedDBData = Thrown reason)
   <-> snapshot_messages indexedDBData = [] \/
       messages (filled foreign_keys indexedDBData) = []).
Proof.
  destruct indexedDBData as [data|]; simpl.
  2: { unfold snapshot_messages. simpl.
       repeat split; try tauto; try discriminate; eauto. }
  unfold snapshot_messages, filled, snapshot_messages. simpl.
  destruct (snap_messages data) as [[|m ms]|]; simpl.
  1, 3: repeat split; try tauto; try discriminate; eauto.
  pose proof (fill_count foreign_keys data (m :: ms)) as Hn.
  destruct (fill foreign_keys data (m :: ms)) as [d3 n]. simpl in *.
  destruct n as [|n]; simpl.
  - apply nil_length_inv in Hn. rewrite Hn.
    repeat split; try tauto; try discriminate; eauto.
  - assert (Hne : messages d3 <> []) by (intros E; rewrite E in Hn; discriminate).
    repeat split; try tauto; try discriminate; try congruence.
    + intros (_ & _ & ->). reflexivity.
    + intros [reason Hr]. discriminate.
    + intros [Hnil | Hnil]; [discriminate | contradiction].
Qed.

Lemma same_value_eq a b : Js.same_value a b = true -> a = b.
Proof.
  destruct a, b; simpl; try discriminate; try reflexivity.
  - intros H. apply Bool.eqb_prop in H. congruence.
  - intros H. apply Z.eqb_eq in H. congruence.
  - intros H. apply String.eqb_eq in H. congruence.
Qed.

Lemma string_field_object (v : Val) (f s : string) :
  f <> "length" -> Js.get v f = VStr s -> Js.truthy v = true.
Proof.
  intros Hf. apply String.eqb_neq in Hf.
  destruct v; simpl; try discriminate; try (rewrite Hf; discriminate).
  reflexivity.
Qed.

(** A well-formed user with an id not in the table yet adds one row. *)
Lemma export_user_adds d u id :
  well_formed_user u id ->
  existsb (fun r => String.eqb (usr_user_id r) id) (users d) = false ->
  exists name,
    export_user d u
    = mkDatabase (foreign_keys d) (channels d) (users d ++ [mkUserRow id name])
                 (messages d).
Proof.
  intros [Hid Hname] Hfresh. unfold export_user.
  rewrite (string_field_object u "user_id" id) by (assumption || discriminate).
  rewrite Hid. simpl negb. cbv iota. unfold insert_user.
  destruct (bind _) as [name|]; [|congruence]. rewrite Hfresh. eauto.
Qed.

(** A message that is missing, has no message id or no channel id, or
    whose channel id has no surrogate, leaves the tables and the count as
    they are. *)
Lemma export_message_skips map acc msg :
  Js.truthy msg = false \/
  Js.truthy (Js.get msg "message_id") = false \/
  Js.truthy (Js.get msg "channel_id") = false \/
  map_get (Js.get msg "channel_id") map = None ->
  export_message map acc msg = acc.
Proof.
  destruct acc as [d n]. unfold export_message.
  intros [-> | [-> | [-> | Hnone]]]; simpl; try reflexivity.
  - now rewrite orb_true_r.
  - now rewrite orb_true_r.
  - destruct (negb _ || negb _ || negb _); [reflexivity|]. now rewrite Hnone.
Qed.

Lemma truthy_bind_not_null v x :
  Js.truthy v = true -> text_affinity <$> bind v = Some x -> x <> SNull.
Proof.
  destruct v; simpl; try discriminate; intros _ [= <-]; discriminate.
Qed.

(** A well-formed message with a fresh key adds one row and counts. *)
Lemma export_message_adds fk ids c m key d n :
  well_formed_message fk ids c m key ->
  Js.truthy (Js.get c "channel_id") = true ->
  foreign_keys d = fk ->
  channel_exists 1 d = true ->
  (forall id, id ∈ ids -> existsb (fun r => String.eqb (usr_user_id r) id) (users d) = true) ->
  existsb (fun r => (msg_channel_id r =? 1)%Z && bool_decide (msg_message_id r = key))
          (messages d) = false ->
  exists row,
    msg_channel_id row = 1%Z /\ msg_message_id row = key /\
    export_message [(Js.get c "channel_id", 1%Z)] (d, n) m
    = (mkDatabase (foreign_keys d) (channels d) (users d) (messages d ++ [row]), S n).
Proof.
  intros (Hmid & Hsame & Hkey & uid & Huid & Hfk) Hcid Hd Hch Hus Hfresh.
  pose proof (same_value_eq _ _ Hsame) as Heq.
  pose proof (truthy_bind_not_null _ _ Hmid Hkey) as Hnotnull.
  unfold export_message.
  assert (Hmsg : Js.truthy m = true).
  { destruct m; simpl in *; try discriminate; reflexivity. }
  rewrite <- Heq in Hsame |- *.
  rewrite Hmsg, Hmid, Hcid. simpl negb. simpl orb. cbv iota.
  unfold map_get. cbn [List.find fst]. rewrite Hsame.
  cbn [fmap option_fmap option_map snd Z.eqb]. cbv zeta.
  unfold insert_message.
  destruct (bind (Js.get m "message_id")) as [mid|]; [|discriminate].
  destruct (bind (Js.or (Js.get m "user_id") VNull)) as [u|]; [|discriminate].
  injection Hkey as Hkey. injection Huid as Huid. rewrite Hkey, Huid.
  assert (Hts : exists ts, bind match Js.get m "timestamp" with
                                | VStr t => VStr t | _ => VNull end = Some ts)
    by (destruct (Js.get m "timestamp"); simpl; eauto).
  destruct Hts as [ts ->].
  rewrite bool_decide_eq_false_2 by assumption.
  rewrite Hfresh, Hch.
  assert (Hu : foreign_keys d && negb (true && user_exists uid d) = false).
  { rewrite Hd. destruct fk; [|reflexivity]. simpl.
    destruct (Hfk eq_refl) as [-> | (id & Hin & ->)]; simpl; [reflexivity|].
    now rewrite (Hus id Hin). }
  rewrite Hu. eexists. split; [|split]; [| |reflexivity]; reflexivity.
Qed.

Lemma truthy_field (v : Val) (f : string) :
  Js.truthy (Js.get v f) = true -> Js.truthy v = true.
Proof.
  destruct v; simpl; try discriminate; try reflexivity.
  destruct (String.eqb f "length"); [|discriminate].
  destruct s; [discriminate | reflexivity].
Qed.

Lemma fold_left_skip {A B} (f : A -> B -> A) (l1 l2 : list B) (o : B) (acc : A) :
  (forall a, f a o = a) ->
  fold_left f (l1 ++ o :: l2)%list acc = fold_left f (l1 ++ l2)%list acc.
Proof.
  intros Hskip. rewrite !fold_left_app. simpl. now rewrite Hskip.
Qed.

(** The users table after the users loop over two well-formed users. *)
Lemma export_two_users fk u1 u2 id1 id2 :
  well_formed_user u1 id1 -> well_formed_user u2 id2 -> id1 <> id2 ->
  exists n1 n2,
    export_users [u1; u2] (create fk)
    = mkDatabase fk [] [mkUserRow id1 n1; mkUserRow id2 n2] [].
Proof.
  intros H1 H2 Hne. unfold export_users. cbn [fold_left].
  destruct (export_user_adds (create fk) u1 id1 H1 eq_refl) as [n1 ->].
  simpl.
  destruct (export_user_adds (mkDatabase fk [] [mkUserRow id1 n1] []) u2 id2 H2)
    as [n2 ->].
  - simpl. apply String.eqb_neq in Hne. now rewrite Hne.
  - simpl. eauto.
Qed.

(** The channels table and the id map after the channels loop over one
    well-formed channel. *)
Lemma export_one_channel c d :
  well_formed_channel c -> channels d = [] ->
  export_channels [c] d
  = (mkDatabase (foreign_keys d)
       [mkChannelRow 1 (channel_name c) (channel_url c)] (users d) (messages d),
     [(Js.get c "channel_id", 1%Z)]).
Proof.
  intros [Hs Hc] Hnil. unfold export_channels. cbn [fold_left].
  unfold export_channel.
  rewrite (truthy_field c "server_id" Hs), Hs, Hc. simpl negb. simpl orb. cbv iota.
  unfold insert_channel. rewrite Hnil. simpl.
  unfold select_channel_id. simpl. rewrite String.eqb_refl. reflexivity.
Qed.

(** A message adds one row and one to the count, or changes nothing. *)
Lemma export_message_total map d n msg :
  export_message map (d, n) msg = (d, n) \/
  exists row,
    export_message map (d, n) msg
    = (mkDatabase (foreign_keys d) (channels d) (users d) (messages d ++ [row]), S n).
Proof.
  unfold export_message.
  destruct (negb _ || negb _ || negb _); [now left|].
  destruct (map_get _ _) as [cid|]; [|now left].
  destruct (cid =? 0)%Z; [now left|]. cbv zeta.
  unfold insert_message.
  destruct (bind (Js.get msg "message_id")); [|now left].
  destruct (bind (Js.or _ _)); [|now left].
  destruct (bind match Js.get msg "timestamp" with VStr t => VStr t | _ => VNull end);
    [|now left].
  destruct (bool_decide _); [now left|].
  destruct (existsb _ _); [now left|].
  destruct (foreign_keys d && _); [now left|].
  right. eauto.
Qed.

(** C5 (export of a small snapshot).  For a snapshot with two users
    (string ids, different from one another), one channel with server
    and channel id, two messages of that channel with different message
    ids, and a third message, anywhere among them, whose channel id is
    not the channel's, the exporter returns a database with exactly 2
    message rows (the two messages of the channel), 1 channel row and 2
    user rows.  In any export, a message that is missing, lacks a message
    or channel id, or whose channel has no surrogate id leaves tables and
    count untouched, and any message either adds one row or changes
    nothing: none makes the export fail. *)
Theorem export_of_two_users_one_channel_three_messages
    (fk : bool) (servers : option (list Val)) (u1 u2 c m1 m2 o : Val)
    (id1 id2 : string) (key1 key2 : SqlVal) (i : nat) :
  well_formed_user u1 id1 ->
  well_formed_user u2 id2 ->
  id1 <> id2 ->
  well_formed_channel c ->
  well_formed_message fk [id1; id2] c m1 key1 ->
  well_formed_message fk [id1; id2] c m2 key2 ->
  key1 <> key2 ->
  orphan_of c o ->
  (exists sqliteData,
      exportDatabaseFromIndexedDB fk
        (Some (mkSnapshot servers (Some [c]) (Some [u1; u2])
                 (Some (take i [m1; m2] ++ o :: drop i [m1; m2])%list)))
      = Exported sqliteData /\
      length (messages sqliteData) = 2%nat /\
      length (channels sqliteData) = 1%nat /\
      length (users sqliteData) = 2%nat /\
      map msg_message_id (messages sqliteData) = [key1; key2] /\
      map usr_user_id (users sqliteData) = [id1; id2]) /\
  (forall channelIdMap acc msg,
      Js.truthy msg = false \/
      Js.truthy (Js.get msg "message_id") = false \/
      Js.truthy (Js.get msg "channel_id") = false \/
      map_get (Js.get msg "channel_id") channelIdMap = None ->
      export_message channelIdMap acc msg = acc) /\
  (forall channelIdMap d n msg,
      export_message channelIdMap (d, n) msg = (d, n) \/
      exists row,
        export_message channelIdMap (d, n) msg
        = (mkDatabase (foreign_keys d) (channels d) (users d)
                      (messages d ++ [row]), S n)).
Proof.
  intros Hu1 Hu2 Hne Hc Hm1 Hm2 Hkeys Ho.
  split; [|split; [intros; now apply export_message_skips
                  | intros; apply export_message_total]].
  assert (Hms : exists m ms, (take i [m1; m2] ++ o :: drop i [m1; m2])%list = m :: ms).
  { destruct i as [|[|i]]; simpl; eauto. }
  destruct Hms as (m & ms & Hms).
  unfold exportDatabaseFromIndexedDB. cbn [snap_messages].
  rewrite Hms. cbv beta iota. rewrite <- Hms. clear m ms Hms.
  unfold fill. cbn [snap_users snap_channels default from_option id].
  destruct (export_two_users fk u1 u2 id1 id2 Hu1 Hu2 Hne) as (n1 & n2 & ->).
  rewrite export_one_channel by (assumption || reflexivity).
  cbn [foreign_keys users messages].
  unfold export_messages.
  rewrite fold_left_skip.
  2: { intros a. apply export_message_skips. right. right. right.
       unfold map_get. cbn [List.find fst]. unfold orphan_of in Ho. now rewrite Ho. }
  rewrite take_drop. cbn [fold_left].
  set (d2 := mkDatabase fk _ _ _).
  destruct (export_message_adds fk [id1; id2] c m1 key1 d2 0 Hm1) as (r1 & Hc1 & Hk1 & ->).
  { apply Hc. } { reflexivity. } { reflexivity. }
  { intros id Hin. simpl. apply elem_of_cons in Hin as [-> | Hin].
    - now rewrite String.eqb_refl.
    - apply list_elem_of_singleton in Hin as ->.
      rewrite String.eqb_refl. now rewrite orb_true_r. }
  { reflexivity. }
  cbn [foreign_keys channels users messages d2 app].
  set (d3 := mkDatabase fk _ _ _).
  destruct (export_message_adds fk [id1; id2] c m2 key2 d3 1 Hm2) as (r2 & Hc2 & Hk2 & ->).
  { apply Hc. } { reflexivity. } { reflexivity. }
  { intros id Hin. simpl. apply elem_of_cons in Hin as [-> | Hin].
    - now rewrite String.eqb_refl.
    - apply list_elem_of_singleton in Hin as ->.
      rewrite String.eqb_refl. now rewrite orb_true_r. }
  { simpl. rewrite Hk1. rewrite bool_decide_eq_false_2 by assumption.
    now rewrite andb_false_r. }
  simpl. eexists. split; [reflexivity|]. simpl. rewrite Hk1, Hk2. auto.
Qed.
End ExportFacts.

Section ExportWitnesses.
Import Sqlite Exporter ExportSpec Fixture.

Lemma export_of_two_users_one_channel_three_messages_witness :
  exists sqliteData,
    exportDatabaseFromIndexedDB true (Some dump) = Exported sqliteData /\
    length (messages sqliteData) = 2%nat /\
    length (channels sqliteData) = 1%nat /\
    length (users sqliteData) = 2%nat /\
    map msg_message_id (messages sqliteData) = [SText "100"; SText "101"].
Proof.
  destruct (export_of_two_users_one_channel_three_messages
              true (Some []) alice bob stored_channel hello again stray
              "42" "43" (SText "100") (SText "101") 1)
    as [(sqliteData & Hexport & Hm & Hc & Hu & Hkeys & _) _].
  - split; [reflexivity | discriminate].
  - split; [reflexivity | discriminate].
  - discriminate.
  - split; reflexivity.
  - split; [reflexivity|]. split; [reflexivity|]. split; [reflexivity|].
    exists (SText "42"). split; [reflexivity|]. intros _. right.
    exists "42". split; [apply list_elem_of_here | reflexivity].
  - split; [reflexivity|]. split; [reflexivity|]. split; [reflexivity|].
    exists (SText "42"). split; [reflexivity|]. intros _. right.
    exists "42". split; [apply list_elem_of_here | reflexivity].
  - discriminate.
  - reflexivity.
  - exists sqliteData. auto.
Defined.

End ExportWitnesses.

(** * Further properties of the code *)

(** ** Identifiers read from the page *)

Section IdentifierFacts.
Import JsString Dom ScraperService.

Lemma match_here_captures_digits re s caps :
  Regex.match_here re s = Some caps -> Forall (fun c => all_digits c = true) caps.
Proof.
  revert s caps. induction re as [|a re IH]; intros s caps; simpl.
  - intros [= <-]. constructor.
  - destruct a.
    + destruct (strip_prefix s0 s); [apply IH | discriminate].
    + destruct (span_digits s) as [d r].
      destruct (String.eqb d ""); [discriminate | apply IH].
    + destruct (span_digits s) as [d r] eqn:Hs.
      destruct (String.eqb d ""); [discriminate|].
      destruct (Regex.match_here re r) as [caps'|] eqn:Hr; [|discriminate].
      intros [= <-]. constructor; [|now apply (IH r)].
      now apply span_digits_app in Hs as [_ Hd].
    + destruct (String.eqb s ""); [apply IH | discriminate].
Qed.

Lemma search_captures_digits re s caps :
  Regex.search re s = Some caps -> Forall (fun c => all_digits c = true) caps.
Proof.
  induction s as [|c s IH]; simpl.
  - destruct (Regex.match_here re "") eqn:H; [|discriminate].
    intros [= <-]. now apply match_here_captures_digits in H.
  - destruct (Regex.match_here re (String c s)) eqn:H; [|exact IH].
    intros [= <-]. now apply match_here_captures_digits in H.
Qed.

(** The id of a message element is the numeric message part. *)
(** X1.  (message id of a list item).  When the [id] attribute of an element
    is [chat-messages-<digits>-<digits>], [extractMessageId] returns the
    second run of digits: a non-empty string of decimal digits. *)
Theorem message_element_id_is_numeric_part (element : Element) (id m : string) :
  getAttribute element "id" = Some id ->
  chat_message_pattern id m ->
  extractMessageId element = Some m /\ m <> "" /\ all_digits m = true.
Proof.
  intros Hattr Hpat.
  assert (Hm : Regex.match_here Regex.chat_message_id id = Some [m])
    by (apply chat_message_id_match; eauto).
  destruct Hpat as (c & Hc & _ & Hmne & Hmd & ->).
  unfold extractMessageId. rewrite Hattr, Hm.
  rewrite append_cons. simpl String.eqb. cbv iota. auto.
Qed.

(** User ids read from avatar URLs are non-empty runs of digits. *)
(** X2.  (user id of an avatar).  Whenever [extractUserIdFromAvatar] returns
    an id, the id is a non-empty string of decimal digits and it was read
    from an image whose [src] is not empty; without an image, or with an
    empty [src], nothing is returned. *)
Theorem avatar_user_id_is_numeric (imgElement : option Element) (uid : string) :
  extractUserIdFromAvatar imgElement = Some uid ->
  uid <> "" /\ all_digits uid = true /\
  exists img, imgElement = Some img /\ src img <> "".
Proof.
  intros H. split; [now apply extractUserIdFromAvatar_nonempty in H|].
  unfold extractUserIdFromAvatar in H. destruct imgElement as [img|]; [|discriminate].
  destruct (String.eqb_spec (src img) "") as [|Hsrc]; [discriminate|].
  split; [|eauto].
  destruct (Regex.search Regex.guild_avatar (src img)) as [[|u caps]|] eqn:Hg.
  - destruct (Regex.search Regex.user_avatar (src img)) as [[|u caps]|] eqn:Ha;
      try discriminate.
    injection H as <-. apply search_captures_digits in Ha. now inversion Ha.
  - injection H as <-. apply search_captures_digits in Hg. now inversion Hg.
  - destruct (Regex.search Regex.user_avatar (src img)) as [[|u caps]|] eqn:Ha;
      try discriminate.
    injection H as <-. apply search_captures_digits in Ha. now inversion Ha.
Qed.

Lemma span_digits_all (d : string) : all_digits d = true -> span_digits d = (d, "").
Proof.
  intros H. rewrite <- (append_nil_r d) at 1. now apply span_digits_stop.
Qed.

(** The URL the exporter writes for a channel is read back by the content
    script as the channel's server and channel ids. *)
(** X3.  (the exported channel URL reads back).  The URL the exporter builds
    for a channel whose server id and channel id are non-empty strings of
    digits is a URL from which [extractIdsFromUrl] reads the same two
    ids. *)
Theorem exported_channel_url_reads_back
    (channel : Val) (sid cid : string) (html : Node) (box : ScrollBox) :
  Js.get channel "server_id" = VStr sid ->
  Js.get channel "channel_id" = VStr cid ->
  sid <> "" -> all_digits sid = true ->
  cid <> "" -> all_digits cid = true ->
  extractIdsFromUrl (mkPage (Exporter.channel_url channel) html box)
    = (Some sid, Some cid).
Proof.
  intros Hs Hc Hsne Hsd Hcne Hcd.
  unfold extractIdsFromUrl, Exporter.channel_url. cbn [href].
  rewrite Hs, Hc. cbn [Js.to_string].
  rewrite !append_cons, !append_nil_l.
  cbn [Regex.search Regex.match_here Regex.channel_url strip_prefix Ascii.eqb Bool.eqb].
  rewrite (span_digits_stop sid (String "/" cid) Hsd) by reflexivity.
  rewrite (eqb_empty_false sid Hsne). cbn.
  rewrite (span_digits_all cid Hcd), (eqb_empty_false cid Hcne).
  reflexivity.
Qed.
End IdentifierFacts.

(** ** Parsing and the extraction pass *)

Section ParseFacts.
Import JsString Dom ScraperService Extractor PassSpec.

Lemma parseMessage_Some_inv now element lastSeen s p s' :
  parseMessage now element lastSeen s = (Some p, s') ->
  exists id,
    tagName element = "LI" /\ extractMessageId element = Some id /\
    (id ∉ processedMessageIds s) /\
    p = mkParsed (mkMessage id (ctx_channel_id (context s)) (author_of element lastSeen)
                    (extractTimestamp now element) (extractContent element)
                    (hasAttachments element) (extractReactions element))
                 (user_record element (author_of element lastSeen)) /\
    s' = marked id s.
Proof.
  unfold parseMessage.
  destruct (String.eqb_spec (tagName element) "LI") as [Htag|]; [|discriminate].
  simpl negb. cbv iota.
  destruct (extractMessageId element) as [id|]; [|discriminate].
  case_bool_decide; [discriminate|].
  intros [= <- <-]. exists id. repeat split; auto.
Qed.

Lemma nonempty_inv o s : nonempty o = Some s -> o = Some s /\ s <> "".
Proof.
  unfold nonempty. destruct o as [t|]; [|discriminate].
  destruct (String.eqb_spec t ""); [discriminate|]. now intros [= <-].
Qed.

Lemma extractReactions_well_formed element :
  Forall (fun r => emoji r <> "" /\ count r <> 0%Z) (extractReactions element).
Proof.
  apply Forall_forall. intros r Hr. unfold extractReactions in Hr.
  destruct (reactions_container element) as [c|]; [|now apply elem_of_nil in Hr].
  apply list_elem_of_omap in Hr as (img & _ & Hr).
  apply reaction_of_Some in Hr. tauto.
Qed.

Lemma parseMessage_record now element lastSeen s p s' :
  parseMessage now element lastSeen s = (Some p, s') ->
  message_id (message p) <> "" /\
  (message_id (message p) ∉ processedMessageIds s) /\
  channel_id (message p) = ctx_channel_id (context s) /\
  Forall (fun r => emoji r <> "" /\ count r <> 0%Z) (reactions (message p)) /\
  match user p with
  | Some u =>
      user_id (message p) = Some (u_user_id u) /\
      u_user_id u <> "" /\ username u <> "" /\ avatar_url u <> Some ""
  | None => nonempty (user_id (message p)) = None
  end.
Proof.
  intros H. apply parseMessage_Some_inv in H as (id & _ & Hid & Hfresh & -> & _).
  simpl. split; [now apply extractMessageId_nonempty in Hid|].
  split; [assumption|]. split; [reflexivity|].
  split; [apply extractReactions_well_formed|].
  unfold user_record.
  destruct (nonempty (author_of element lastSeen)) as [uid|] eqn:Hu; [|reflexivity].
  apply nonempty_inv in Hu as [Hu Hne]. simpl.
  split; [assumption|]. split; [assumption|]. split.
  - destruct (nonempty (extractUsername element)) as [n|] eqn:Hn; simpl; [|discriminate].
    now apply nonempty_inv in Hn.
  - destruct (nonempty (extractAvatarUrl element)) as [n|] eqn:Hn; [|discriminate].
    apply nonempty_inv in Hn as [_ Hn]. congruence.
Qed.

Lemma marked_size id s :
  id ∉ processedMessageIds s -> processed_size (marked id s) = S (processed_size s).
Proof.
  intros Hfresh. unfold marked, processed_size.
  assert (Hsz : size ({[id]} ∪ processedMessageIds s) = S (size (processedMessageIds s))).
  { rewrite size_union by set_solver. now rewrite size_singleton. }
  destruct (_ && _); simpl; exact Hsz.
Qed.

Lemma parseMessage_frame now element lastSeen s r s' :
  parseMessage now element lastSeen s = (r, s') ->
  isCrawling s' = isCrawling s /\ page s' = page s /\ timers s' = timers s /\
  context s' = context s /\ noNewMessagesCount s' = noNewMessagesCount s /\
  (r = None -> s' = s) /\
  (r <> None ->
   processed_size s' = S (processed_size s) /\
   sent s' = (sent s ++
              if isCrawling s && (S (processed_size s) mod 10 =? 0)%nat
              then [UpdateCrawlStatus None None None None
                      (Some (Z.of_nat (S (processed_size s))))]
              else [])%list).
Proof.
  destruct r as [p|].
  - intros H. apply parseMessage_Some_inv in H as (id & _ & _ & Hfresh & _ & ->).
    pose proof (marked_size id s Hfresh) as Hsz.
    unfold marked in *.
    set (s1 := set_processedMessageIds ({[id]} ∪ processedMessageIds s) s) in *.
    assert (Hs1 : processed_size s1 = S (processed_size s)).
    { destruct (isCrawling s1 && _); exact Hsz. }
    rewrite Hs1. change (isCrawling s1) with (isCrawling s).
    destruct (isCrawling s && _); simpl;
      repeat split; try discriminate; try (intros _; split); auto.
    now rewrite app_nil_r.
  - intros H.
    assert (Hs : s' = s).
    { unfold parseMessage in H. destruct (negb _); [now injection H|].
      destruct (extractMessageId element); [|now injection H].
      destruct (bool_decide _); [now injection H | discriminate]. }
    subst s'. repeat split; auto; congruence.
Qed.

(** *** One extraction pass *)

Lemma marked_processed id s :
  processedMessageIds (marked id s) = {[id]} ∪ processedMessageIds s.
Proof. unfold marked. destruct (_ && _); reflexivity. Qed.

Lemma marked_page id s : page (marked id s) = page s.
Proof. unfold marked. destruct (_ && _); reflexivity. Qed.

Lemma add_user_spec u l :
  NoDup (map u_user_id l) ->
  NoDup (map u_user_id (add_user u l)) /\
  u_user_id u ∈ map u_user_id (add_user u l) /\
  (forall v, v ∈ l -> v ∈ add_user u l) /\
  (forall v, v ∈ add_user u l -> v ∈ l \/ v = u).
Proof.
  intros Hnd. unfold add_user.
  destruct (existsb _ _) eqn:Hex.
  - apply existsb_exists in Hex as (x & Hin & Hx). apply String.eqb_eq in Hx.
    repeat split; auto. rewrite Hx. now apply list_elem_of_In.
  - assert (Hnot : u_user_id u ∉ map u_user_id l).
    { intros Hin. apply list_elem_of_In in Hin.
      assert (existsb (String.eqb (u_user_id u)) (map u_user_id l) = true)
        by (apply existsb_exists; exists (u_user_id u); split;
            [assumption | apply String.eqb_refl]).
      congruence. }
    repeat split.
    + rewrite map_app. apply NoDup_app. repeat split; [assumption | | apply NoDup_singleton].
      intros x Hx Hx'. apply list_elem_of_singleton in Hx'. now subst.
    + rewrite map_app. apply elem_of_app. right. now apply list_elem_of_singleton.
    + intros v Hv. apply elem_of_app. now left.
    + intros v Hv. apply elem_of_app in Hv as [Hv|Hv]; [now left|].
      right. now apply list_elem_of_singleton in Hv.
Qed.

Lemma pass_step_invariant now P0 p0 acc e :
  pass_invariant P0 p0 acc -> pass_invariant P0 p0 (pass_step now acc e).
Proof.
  intros (Hnd & Hfresh & Hproc & Hund & Hcomplete & Hsound & Hpage).
  unfold pass_step.
  destruct (parseMessage now e (lastSeenAuthorId acc) (state acc)) as [[p|] s'] eqn:Hp.
  - pose proof (parseMessage_record _ _ _ _ _ _ Hp)
      as (_ & _ & _ & _ & Huser).
    apply parseMessage_Some_inv in Hp as (id & _ & _ & Hid & Hpeq & ->).
    assert (Hmid : message_id (message p) = id) by (now subst p).
    rewrite Hproc in Hid.
    assert (HP0 : id ∉ P0) by (intros H; apply Hid, elem_of_union; now left).
    assert (Hold : id ∉ map message_id (messages acc)).
    { intros Hin. apply Hid. apply elem_of_union. right.
      now apply elem_of_list_to_set. }
    unfold pass_invariant. cbn [messages users state].
    split; [|split; [|split; [|split; [|split; [|split]]]]].
    + rewrite map_app. apply NoDup_app. repeat split; [assumption| |apply NoDup_singleton].
      intros x Hx Hx'. apply list_elem_of_singleton in Hx'. simpl in Hx'.
      subst x. congruence.
    + intros m Hm. apply elem_of_app in Hm as [Hm|Hm]; [now apply Hfresh|].
      apply list_elem_of_singleton in Hm. subst m. congruence.
    + rewrite marked_processed, Hproc, map_app, list_to_set_app_L. simpl.
      rewrite Hmid. apply set_eq. intros x.
      rewrite !elem_of_union, elem_of_singleton, elem_of_empty. tauto.
    + destruct (user p) as [u|]; [|assumption]. now apply add_user_spec.
    + intros m uid Hm Huid.
      assert (Hkeep : forall x, x ∈ map u_user_id (users acc) ->
                x ∈ map u_user_id match user p with
                                  | Some u => add_user u (users acc)
                                  | None => users acc
                                  end).
      { intros x Hx. destruct (user p) as [u|]; [|assumption].
        apply list_elem_of_fmap in Hx as (v & -> & Hv).
        apply list_elem_of_fmap. exists v. split; [reflexivity|].
        now apply add_user_spec. }
      apply elem_of_app in Hm as [Hm|Hm]; [apply Hkeep; eauto|].
      apply list_elem_of_singleton in Hm. subst m.
      destruct (user p) as [u|].
      * destruct Huser as (Hu & Hne & _). rewrite Hu in Huid.
        apply nonempty_inv in Huid as [[= <-] _]. now apply add_user_spec.
      * congruence.
    + intros u Hu.
      assert (Hcase : u ∈ users acc \/ user p = Some u).
      { destruct (user p) as [v|]; [|now left].
        apply add_user_spec in Hu as [Hu | ->]; auto. }
      destruct Hcase as [Hin | Hnew].
      * destruct (Hsound u Hin) as (Hne & m & Hm & Hmu). split; [assumption|].
        exists m. split; [apply elem_of_app; now left | assumption].
      * rewrite Hnew in Huser. destruct Huser as (Hmu & Hne & _).
        split; [assumption|]. exists (message p).
        split; [apply elem_of_app; right; now apply list_elem_of_singleton | assumption].
    + now rewrite marked_page.
  - destruct (parseMessage_frame _ _ _ _ _ _ Hp) as (_ & _ & _ & _ & _ & Hs & _).
    rewrite (Hs eq_refl). unfold pass_invariant. cbn [messages users state]. auto 10.
Qed.

Lemma pass_invariant_fold now P0 p0 es acc :
  pass_invariant P0 p0 acc -> pass_invariant P0 p0 (fold_left (pass_step now) es acc).
Proof.
  revert acc. induction es as [|e es IH]; intros acc H; [exact H|].
  cbn [fold_left]. apply IH. now apply pass_step_invariant.
Qed.

Lemma pass_step_grows now acc e id :
  id ∈ processedMessageIds (state acc) ->
  id ∈ processedMessageIds (state (pass_step now acc e)).
Proof.
  intros Hin. unfold pass_step.
  pose proof (parseMessage_keeps_processed now e (lastSeenAuthorId acc) (state acc) id Hin) as H.
  destruct (parseMessage now e (lastSeenAuthorId acc) (state acc)) as [[p|] s']; exact H.
Qed.

Lemma pass_fold_grows now es acc id :
  id ∈ processedMessageIds (state acc) ->
  id ∈ processedMessageIds (state (fold_left (pass_step now) es acc)).
Proof.
  revert acc. induction es as [|e es IH]; intros acc H; [exact H|].
  cbn [fold_left]. apply IH. now apply pass_step_grows.
Qed.

Lemma pass_step_turns_down now acc e :
  turned_down (processedMessageIds (state (pass_step now acc e))) e.
Proof.
  unfold turned_down.
  destruct (String.eqb_spec (tagName e) "LI") as [Htag|]; [|now left].
  destruct (extractMessageId e) as [id|] eqn:Hid; [|now (right; left)].
  right. right. exists id. split; [reflexivity|].
  destruct (decide (id ∈ processedMessageIds (state acc))) as [Hin|Hfresh].
  - now apply pass_step_grows.
  - unfold pass_step.
    destruct (parseMessage_fresh now e (lastSeenAuthorId acc) (state acc) id Htag Hid Hfresh)
      as (p & s' & -> & _ & _ & _ & _ & _ & Hids & _).
    cbn [state]. rewrite Hids. apply elem_of_union. left. now apply elem_of_singleton.
Qed.

Lemma pass_turns_down_all now es acc :
  Forall (turned_down (processedMessageIds (state (fold_left (pass_step now) es acc)))) es.
Proof.
  revert acc. induction es as [|e es IH]; intros acc; [constructor|].
  cbn [fold_left]. constructor; [|apply IH].
  destruct (pass_step_turns_down now acc e) as [H | [H | (id & Hid & Hin)]].
  - now left.
  - right. now left.
  - right. right. exists id. split; [assumption|]. now apply pass_fold_grows.
Qed.

Lemma pass_over_turned_down now es acc :
  Forall (turned_down (processedMessageIds (state acc))) es ->
  fold_left (pass_step now) es acc = acc.
Proof.
  induction 1 as [|e es He _ IH]; [reflexivity|].
  cbn [fold_left].
  assert (Hstep : pass_step now acc e = acc).
  { unfold pass_step. rewrite parseMessage_rejects by exact He. now destruct acc. }
  now rewrite Hstep.
Qed.

Lemma extract_pass_spec now now' s msgs usrs s' :
  extractExistingMessages now s = (msgs, usrs, s') ->
  NoDup (map message_id msgs) /\
  (forall m, m ∈ msgs -> message_id m ∉ processedMessageIds s) /\
  processedMessageIds s' = processedMessageIds s ∪ list_to_set (map message_id msgs) /\
  processed_size s' = (processed_size s + length msgs)%nat /\
  NoDup (map u_user_id usrs) /\
  (forall m uid, m ∈ msgs -> nonempty (user_id m) = Some uid ->
                 uid ∈ map u_user_id usrs) /\
  (forall u, u ∈ usrs ->
             u_user_id u <> "" /\ exists m, m ∈ msgs /\ user_id m = Some (u_user_id u)) /\
  extractExistingMessages now' s' = ([], [], s').
Proof.
  unfold extractExistingMessages.
  destruct (message_elements (page s)) as [es|] eqn:Hes.
  - intros [= <- <- <-].
    set (r := fold_left (pass_step now) es (mkPass [] [] None s)).
    assert (Hinv : pass_invariant (processedMessageIds s) (page s) r).
    { apply pass_invariant_fold. unfold pass_invariant. cbn [messages users state map].
      split; [constructor|]. split; [intros m Hm; now apply elem_of_nil in Hm|].
      split; [simpl; now rewrite union_empty_r_L|]. split; [constructor|].
      split; [intros m uid Hm; now apply elem_of_nil in Hm|].
      split; [intros u Hu; now apply elem_of_nil in Hu | reflexivity]. }
    destruct Hinv as (Hnd & Hfresh & Hproc & Hund & Hcomplete & Hsound & Hpage).
    split; [assumption|]. split; [assumption|]. split; [assumption|].
    split.
    { unfold processed_size. rewrite Hproc, size_union.
      - rewrite size_list_to_set by assumption. now rewrite length_map.
      - intros x Hx Hx'. apply elem_of_list_to_set in Hx'.
        apply list_elem_of_fmap in Hx' as (m & -> & Hm). now apply (Hfresh m). }
    split; [assumption|]. split; [assumption|]. split; [assumption|].
    rewrite Hpage, Hes.
    rewrite (pass_over_turned_down now' es (mkPass [] [] None (state r))); [reflexivity|].
    apply pass_turns_down_all.
  - intros [= <- <- <-]. rewrite Hes.
    split; [constructor|]. split; [intros m Hm; now apply elem_of_nil in Hm|].
    split; [simpl; now rewrite union_empty_r_L|].
    split; [simpl; lia|]. split; [constructor|].
    split; [intros m uid Hm; now apply elem_of_nil in Hm|].
    split; [intros u Hu; now apply elem_of_nil in Hu | reflexivity].
Qed.

(** *** Starting a crawl *)

Lemma same_engine_refl s : same_engine s s.
Proof. repeat split. Qed.

Lemma same_engine_trans s1 s2 s3 :
  same_engine s1 s2 -> same_engine s2 s3 -> same_engine s1 s3.
Proof. unfold same_engine. intuition congruence. Qed.

Lemma parseMessage_same_engine now e a s :
  same_engine s (snd (parseMessage now e a s)).
Proof.
  destruct (parseMessage now e a s) as [[p|] s'] eqn:Hp; simpl.
  - apply parseMessage_Some_inv in Hp as (id & _ & _ & _ & _ & ->).
    unfold marked. destruct (_ && _); repeat split.
  - destruct (parseMessage_frame _ _ _ _ _ _ Hp) as (_ & _ & _ & _ & _ & Hs & _).
    rewrite (Hs eq_refl). apply same_engine_refl.
Qed.

Lemma pass_same_engine now es acc :
  same_engine (state acc) (state (fold_left (pass_step now) es acc)).
Proof.
  revert acc. induction es as [|e es IH]; intros acc; [apply same_engine_refl|].
  cbn [fold_left]. eapply same_engine_trans; [|apply IH].
  unfold pass_step.
  pose proof (parseMessage_same_engine now e (lastSeenAuthorId acc) (state acc)) as H.
  destruct (parseMessage now e (lastSeenAuthorId acc) (state acc)) as [[p|] s']; exact H.
Qed.

Lemma extract_same_engine now s :
  same_engine s (snd (extractExistingMessages now s)).
Proof.
  unfold extractExistingMessages.
  destruct (message_elements (page s)); [|apply same_engine_refl].
  apply (pass_same_engine now l (mkPass [] [] None s)).
Qed.

Lemma startCrawling_session now (s : State) msgs usrs s2 :
  isCrawling s = false ->
  extractExistingMessages now
    (updateContext (set_processedMessageIds ∅ (set_isCrawling true s)))
    = (msgs, usrs, s2) ->
  isCrawling (startCrawling now s) = true /\
  processedMessageIds (startCrawling now s) = list_to_set (map message_id msgs) /\
  processed_size (startCrawling now s) = length msgs /\
  (msgs <> [] ->
   last (sent (startCrawling now s))
   = Some (SaveToIndexedDB true
             (serverData (context (startCrawling now s)))
             (channelData (context (startCrawling now s)))
             (map Encode.user usrs) (map Encode.message msgs))) /\
  (msgs = [] -> sent (startCrawling now s) = sent s2) /\
  (forall ids, startCrawling now (set_processedMessageIds ids s) = startCrawling now s).
Proof.
  intros Hidle Hx.
  assert (Hreset : forall ids,
             startCrawling now (set_processedMessageIds ids s) = startCrawling now s).
  { clear Hx. intros ids. destruct s as [ic ids0 si sci lmc nnm ctx pg tm nt snt].
    simpl in Hidle. subst ic. reflexivity. }
  set (s1 := updateContext (set_processedMessageIds ∅ (set_isCrawling true s))) in *.
  assert (Hs1 : isCrawling s1 = true /\ processedMessageIds s1 = ∅).
  { unfold s1, updateContext. simpl. split; reflexivity. }
  destruct Hs1 as [Hc1 Hp1].
  pose proof (extract_same_engine now s1) as He. rewrite Hx in He. simpl in He.
  destruct He as (Hc2 & _ & _ & Hctx2 & _).
  destruct (extract_pass_spec now now s1 msgs usrs s2 Hx)
    as (_ & _ & Hproc & Hsize & _).
  rewrite Hp1, union_empty_l_L in Hproc.
  unfold processed_size in Hsize. rewrite Hp1, size_empty in Hsize. simpl in Hsize.
  assert (Hstart : forall s3, isCrawling (startAutoScrolling s3) = isCrawling s3 /\
            processedMessageIds (startAutoScrolling s3) = processedMessageIds s3 /\
            sent (startAutoScrolling s3) = sent s3 /\
            context (startAutoScrolling s3) = context s3).
  { intros s3. unfold startAutoScrolling, scrollToBottom.
    destruct (scrollInterval s3); [auto|].
    destruct (findScrollContainer (page s3)); simpl; auto. }
  assert (Heq : startCrawling now s
                = startAutoScrolling
                    match msgs with
                    | [] => s2
                    | _ :: _ => sendMessage (save_request s2 usrs msgs) s2
                    end).
  { unfold startCrawling. rewrite Hidle. fold s1. now rewrite Hx. }
  split; [|split; [|split; [|split; [|split; [|exact Hreset]]]]]; rewrite Heq.
  - destruct msgs; rewrite (proj1 (Hstart _)); simpl; congruence.
  - destruct msgs; rewrite (proj1 (proj2 (Hstart _))); exact Hproc.
  - unfold processed_size. destruct msgs; rewrite (proj1 (proj2 (Hstart _))); exact Hsize.
  - intros Hne. destruct msgs as [|m msgs]; [congruence|].
    destruct (Hstart (sendMessage (save_request s2 usrs (m :: msgs)) s2))
      as (_ & _ & -> & ->).
    simpl. rewrite last_snoc. reflexivity.
  - intros ->. now destruct (Hstart s2) as (_ & _ & -> & _).
Qed.
(** X4.  (records of [parseMessage]).  A record that [parseMessage] returns
    has a non-empty message id that was not processed before, the channel
    id of the context, and reactions with a non-empty emoji and a count
    other than 0.  When it comes with a user record, that record has the
    user id of the message, and its id and name are not empty and its
    avatar URL is not the empty string; without a user record the message
    has no usable user id. *)
Theorem parsed_records_are_well_formed now element lastSeen s p s' :
  parseMessage now element lastSeen s = (Some p, s') ->
  message_id (message p) <> "" /\
  (message_id (message p) ∉ processedMessageIds s) /\
  channel_id (message p) = ctx_channel_id (context s) /\
  Forall (fun r => emoji r <> "" /\ count r <> 0%Z) (reactions (message p)) /\
  match user p with
  | Some u =>
      user_id (message p) = Some (u_user_id u) /\
      u_user_id u <> "" /\ username u <> "" /\ avatar_url u <> Some ""
  | None => nonempty (user_id (message p)) = None
  end.
Proof. exact (parseMessage_record now element lastSeen s p s'). Qed.

(** X5.  (progress reports of [parseMessage]).  [parseMessage] never changes
    the crawl flag, the page, the timers, the context or the stall
    counter.  When it returns [null] the service is as before.  When it
    returns a record the number of processed ids grows by one, and a
    status update carrying that number is sent exactly when the service
    is crawling and the number is a multiple of 10; nothing else is
    sent. *)
Theorem parseMessage_reports_every_tenth now element lastSeen s r s' :
  parseMessage now element lastSeen s = (r, s') ->
  isCrawling s' = isCrawling s /\ page s' = page s /\ timers s' = timers s /\
  context s' = context s /\ noNewMessagesCount s' = noNewMessagesCount s /\
  (r = None -> s' = s) /\
  (r <> None ->
   processed_size s' = S (processed_size s) /\
   sent s' = (sent s ++
              if isCrawling s && (S (processed_size s) mod 10 =? 0)%nat
              then [UpdateCrawlStatus None None None None
                      (Some (Z.of_nat (S (processed_size s))))]
              else [])%list).
Proof. exact (parseMessage_frame now element lastSeen s r s'). Qed.

(** X6.  (one extraction pass).  The messages [extractExistingMessages]
    returns have pairwise distinct ids, none of them processed before;
    the processed ids afterwards are the old ones and the ids of these
    messages, so the count grows by the number of messages.  The users
    returned have pairwise distinct ids, every message with a usable
    author has its author among them, and every one of them is the author
    of a returned message.  A second pass over the same page returns
    nothing and changes nothing. *)
Theorem extraction_pass_is_deduplicated now now' s msgs usrs s' :
  extractExistingMessages now s = (msgs, usrs, s') ->
  NoDup (map message_id msgs) /\
  (forall m, m ∈ msgs -> message_id m ∉ processedMessageIds s) /\
  processedMessageIds s' = processedMessageIds s ∪ list_to_set (map message_id msgs) /\
  processed_size s' = (processed_size s + length msgs)%nat /\
  NoDup (map u_user_id usrs) /\
  (forall m uid, m ∈ msgs -> nonempty (user_id m) = Some uid ->
                 uid ∈ map u_user_id usrs) /\
  (forall u, u ∈ usrs ->
             u_user_id u <> "" /\ exists m, m ∈ msgs /\ user_id m = Some (u_user_id u)) /\
  extractExistingMessages now' s' = ([], [], s').
Proof. exact (extract_pass_spec now now' s msgs usrs s'). Qed.

(** X7.  (start of a crawl in the content script).  [startCrawling] on a
    service that is not crawling leaves it crawling, with the processed
    ids being exactly the ids of the messages found on the page, whatever
    was processed before.  When messages were found, the last message
    sent is a save request, flagged [updateLastCrawled], with the server
    and channel of the context and those users and messages; when none
    was found nothing is sent after the pass over the page. *)
Theorem start_opens_a_fresh_session now (s : State) msgs usrs s2 :
  isCrawling s = false ->
  extractExistingMessages now
    (updateContext (set_processedMessageIds ∅ (set_isCrawling true s)))
    = (msgs, usrs, s2) ->
  isCrawling (startCrawling now s) = true /\
  processedMessageIds (startCrawling now s) = list_to_set (map message_id msgs) /\
  processed_size (startCrawling now s) = length msgs /\
  (msgs <> [] ->
   last (sent (startCrawling now s))
   = Some (SaveToIndexedDB true
             (serverData (context (startCrawling now s)))
             (channelData (context (startCrawling now s)))
             (map Encode.user usrs) (map Encode.message msgs))) /\
  (msgs = [] -> sent (startCrawling now s) = sent s2) /\
  (forall ids, startCrawling now (set_processedMessageIds ids s) = startCrawling now s).
Proof. exact (startCrawling_session now s msgs usrs s2). Qed.

End ParseFacts.

(** ** Stopping the content script *)

Section SessionFacts.
Import JsString Dom ScraperService Extractor.

(** X8.  (stop in the content script).  [stopCrawling] on a crawling service
    clears the crawl flag and the scroll timer (a scroll timer that was
    set is no longer pending, and no timer is added), sends one status
    update with
    [isCrawling: false], and keeps the page and the processed ids.  A
    second [stopCrawling] does nothing. *)
Theorem stop_halts_scrolling_once (s : State) :
  isCrawling s = true ->
  isCrawling (stopCrawling s) = false /\
  scrollInterval (stopCrawling s) = None /\
  (forall id t, scrollInterval s = Some id -> t ∈ timers (stopCrawling s) ->
                t ∈ timers s /\ timer_id t <> id) /\
  sent (stopCrawling s)
    = (sent s ++ [UpdateCrawlStatus (Some false) None None None None])%list /\
  page (stopCrawling s) = page s /\
  processedMessageIds (stopCrawling s) = processedMessageIds s /\
  stopCrawling (stopCrawling s) = stopCrawling s.
Proof.
  destruct s as [ic ids si sci lmc nnm ctx pg tm nt snt]. simpl. intros ->.
  unfold stopCrawling, stopAutoScrolling, clearTimeout. simpl.
  destruct si as [i|], sci as [j|]; simpl.
  all: split; [reflexivity|]; split; [reflexivity|]; split;
    [|repeat split; reflexivity].
  all: intros id t Hid Ht; try discriminate; injection Hid as <-.
  - apply list_elem_of_filter in Ht as [_ Ht].
    apply list_elem_of_filter in Ht as [Hne Ht]. auto.
  - apply list_elem_of_filter in Ht as [Hne Ht]. auto.
Qed.

(** X9.  (a stopped service stays stopped).  On a service that is not
    crawling [stopCrawling] does nothing, and no timer callback sets the
    crawl flag, moves the page, sends a message or changes the processed
    ids; only the callback of the first second sets a timer. *)
Theorem stopped_engine_stays_idle (cb : Callback) (s : State) :
  isCrawling s = false ->
  stopCrawling s = s /\
  isCrawling (run_callback cb s) = false /\
  page (run_callback cb s) = page s /\
  sent (run_callback cb s) = sent s /\
  processedMessageIds (run_callback cb s) = processedMessageIds s /\
  (cb <> BeginScrolling ->
   forall t, t ∈ timers (run_callback cb s) -> t ∈ timers s).
Proof.
  destruct s as [ic ids si sci lmc nnm ctx pg tm nt snt]. simpl. intros ->.
  split; [reflexivity|].
  destruct cb as [| |beforeCount]; simpl.
  - split; [reflexivity|]. split; [reflexivity|]. split; [reflexivity|].
    split; [reflexivity|]. congruence.
  - unfold performScrollCycle, stopAutoScrolling, clearTimeout. simpl.
    destruct si as [i|], sci as [j|]; simpl.
    all: split; [reflexivity|]; split; [reflexivity|]; split; [reflexivity|];
      split; [reflexivity|]; intros _ t Ht.
    all: repeat (apply list_elem_of_filter in Ht as [_ Ht]); exact Ht.
  - unfold settleCheck, schedule_next_cycle, stopCrawling, processed_size. simpl.
    destruct (size ids =? beforeCount)%nat; simpl.
    + destruct (_ && _); simpl; repeat split; auto.
    + repeat split; auto.
Qed.

(** X10.  ([checkIfReachedTop]).  On a crawling service the check answers
    [true] exactly when the number of processed ids did not change since
    the last check, this is at least the third such check in a row, and
    the scroll container exists and is within 10 pixels of its top; the
    crawl is stopped exactly then.  Without a change the stall counter
    grows by one, with a change it is set to 0 and the new number is
    remembered. *)
Theorem reached_top_check (s : State) :
  isCrawling s = true ->
  (fst (checkIfReachedTop s) = true
   <-> processed_size s = lastMessageCount s /\
       (NO_NEW_MESSAGES_THRESHOLD <= S (noNewMessagesCount s))%nat /\
       isAtTop (page s) = true) /\
  isCrawling (snd (checkIfReachedTop s)) = negb (fst (checkIfReachedTop s)) /\
  (processed_size s = lastMessageCount s ->
   noNewMessagesCount (snd (checkIfReachedTop s)) = S (noNewMessagesCount s) /\
   lastMessageCount (snd (checkIfReachedTop s)) = lastMessageCount s) /\
  (processed_size s <> lastMessageCount s ->
   noNewMessagesCount (snd (checkIfReachedTop s)) = 0%nat /\
   lastMessageCount (snd (checkIfReachedTop s)) = processed_size s).
Proof.
  intros Hc. unfold checkIfReachedTop.
  set (s1 := set_noNewMessagesCount (S (noNewMessagesCount s)) s).
  assert (H1 : isCrawling s1 = true) by exact Hc.
  destruct (stopCrawling_on s1 H1) as [Hs1 Hn1].
  change (noNewMessagesCount s1) with (S (noNewMessagesCount s)).
  change (page s1) with (page s).
  destruct (Nat.eqb_spec (processed_size s) (lastMessageCount s)) as [Heq|Hne].
  - destruct (Nat.leb_spec NO_NEW_MESSAGES_THRESHOLD (S (noNewMessagesCount s)));
      cbn [andb].
    + destruct (isAtTop (page s)); cbn [fst snd negb].
      * rewrite Hs1, Hn1. repeat split; auto; try congruence.
        destruct s as [ic ids si sci lmc nnm ctx pg tm nt snt].
        unfold stopCrawling, stopAutoScrolling. simpl in *. subst ic. simpl.
        destruct si, sci; reflexivity.
      * repeat split; auto; try congruence; try discriminate. intros (_ & _ & ?). discriminate.
    + cbn [fst snd negb]. repeat split; auto; try congruence; try discriminate.
      intros (_ & ? & _). lia.
  - cbn [fst snd negb]. repeat split; auto; try congruence; try discriminate.
    intros (? & _). congruence.
Qed.
End SessionFacts.

(** ** The scroll loop *)

Section ScrollFacts.
Import Dom ScraperService Scrolling.

Lemma scroll_frame_refl s : scroll_frame s s.
Proof. unfold scroll_frame. auto 10. Qed.

Lemma scroll_frame_trans s1 s2 s3 :
  scroll_frame s1 s2 -> scroll_frame s2 s3 -> scroll_frame s1 s3.
Proof.
  intros (P1 & C1 & H1 & D1 & S1) (P2 & C2 & H2 & D2 & S2).
  unfold scroll_frame.
  split; [congruence|]. split; [congruence|]. split; [congruence|]. split; [congruence|].
  destruct S1 as [[E1 O1] | (A1 & B1 & E1)], S2 as [[E2 O2] | (A2 & B2 & E2)].
  - left. split; [congruence | auto].
  - right. split; [|split; [assumption | congruence]].
    destruct (isCrawling s1); [reflexivity|]. rewrite O1 in A2; [discriminate | reflexivity].
  - right. split; [assumption|]. split; [auto | congruence].
  - congruence.
Qed.

Lemma scroll_frame_quiet s s' :
  processedMessageIds s' = processedMessageIds s ->
  context s' = context s ->
  href (page s') = href (page s) ->
  html (page s') = html (page s) ->
  sent s' = sent s ->
  isCrawling s' = isCrawling s ->
  scroll_frame s s'.
Proof.
  intros. unfold scroll_frame. repeat (split; [assumption|]).
  left. split; [assumption | congruence].
Qed.

Lemma stopAutoScrolling_quiet s :
  processedMessageIds (stopAutoScrolling s) = processedMessageIds s /\
  context (stopAutoScrolling s) = context s /\
  page (stopAutoScrolling s) = page s /\
  sent (stopAutoScrolling s) = sent s /\
  isCrawling (stopAutoScrolling s) = isCrawling s.
Proof.
  unfold stopAutoScrolling.
  destruct s as [ic ids si sci lmc nnm ctx pg tm nt snt]; simpl.
  destruct si, sci; simpl; auto.
Qed.

Lemma stopCrawling_frame s : scroll_frame s (stopCrawling s).
Proof.
  unfold stopCrawling. destruct (isCrawling s) eqn:Hon; simpl negb; cbv iota.
  - destruct (stopAutoScrolling_quiet (set_isCrawling false s)) as (P & C & G & S & I).
    unfold scroll_frame. cbn [sendMessage processedMessageIds context page sent isCrawling].
    rewrite P, C, G, S. cbn.
    repeat (split; [reflexivity|]). right. auto.
  - apply scroll_frame_refl.
Qed.

Lemma schedule_next_cycle_frame s : scroll_frame s (schedule_next_cycle s).
Proof.
  unfold schedule_next_cycle. destruct (isCrawling s) eqn:Hon.
  - apply scroll_frame_quiet; try reflexivity.
  - apply scroll_frame_refl.
Qed.

Lemma scrollUp_frame s : scroll_frame s (snd (scrollUp s)).
Proof.
  unfold scrollUp. destruct (findScrollContainer (page s)).
  - apply scroll_frame_quiet; reflexivity.
  - apply scroll_frame_refl.
Qed.

Lemma run_callback_frame cb s : scroll_frame s (run_callback cb s).
Proof.
  destruct cb as [| |beforeCount]; cbn [run_callback].
  - unfold beginScrolling. apply scroll_frame_quiet; reflexivity.
  - unfold performScrollCycle. destruct (isCrawling s) eqn:Hon; simpl negb; cbv iota.
    + pose proof (scrollUp_frame s) as Hup.
      destruct (scrollUp s) as [scrolled s1]. cbn [snd] in Hup.
      eapply scroll_frame_trans; [exact Hup|].
      destruct scrolled; simpl negb; cbn [andb].
      * apply scroll_frame_quiet; reflexivity.
      * destruct (_ <=? _)%nat.
        -- eapply scroll_frame_trans; [|apply stopCrawling_frame].
           apply scroll_frame_quiet; reflexivity.
        -- apply scroll_frame_quiet; reflexivity.
    + destruct (stopAutoScrolling_quiet s) as (P & C & G & S & I).
      apply scroll_frame_quiet; congruence.
  - unfold settleCheck. destruct (_ =? _)%nat.
    + destruct (_ && _).
      * eapply scroll_frame_trans; [|apply stopCrawling_frame].
        apply scroll_frame_quiet; reflexivity.
      * eapply scroll_frame_trans; [|apply schedule_next_cycle_frame].
        apply scroll_frame_quiet; reflexivity.
    + eapply scroll_frame_trans; [|apply schedule_next_cycle_frame].
      apply scroll_frame_quiet; reflexivity.
Qed.

Lemma fire_frame id s : scroll_frame s (fire id s).
Proof.
  unfold fire. destruct (List.find _ _) as [t|]; [|apply scroll_frame_refl].
  eapply scroll_frame_trans; [|apply run_callback_frame].
  apply scroll_frame_quiet; reflexivity.
Qed.

Lemma fire_all_frame ids s : scroll_frame s (Fixture.fire_all ids s).
Proof.
  unfold Fixture.fire_all. revert s. induction ids as [|id ids IH]; intros s.
  - apply scroll_frame_refl.
  - cbn [fold_left]. eapply scroll_frame_trans; [apply fire_frame | apply IH].
Qed.

(** X11.  (the scroll loop reads nothing).  Whatever timers fire, in whatever
    order, the processed ids, the context and the document stay as they
    were: the scroll loop extracts no message.  The only message it may
    send is the status update of a crawl that ends, at most once, and it
    sends none when the service is not crawling; it never sends a save
    request. *)
Theorem scrolling_never_extracts_or_saves (ids : list nat) (s : State) :
  let s' := Fixture.fire_all ids s in
  processedMessageIds s' = processedMessageIds s /\
  context s' = context s /\
  href (page s') = href (page s) /\
  html (page s') = html (page s) /\
  (sent s' = sent s \/
   isCrawling s = true /\ isCrawling s' = false /\
   sent s' = (sent s ++ [end_report])%list) /\
  (isCrawling s = false -> isCrawling s' = false /\ sent s' = sent s).
Proof.
  cbv zeta. destruct (fire_all_frame ids s) as (P & C & H & D & S).
  repeat (split; [assumption|]). split.
  - destruct S as [[E _] | R]; [now left | now right].
  - intros Hoff. destruct S as [[E O] | (A & _)]; [auto | congruence].
Qed.
End ScrollFacts.

(** ** Batches of the keyed store *)

Section BatchFacts.
Import IndexedDB StoreSpec.

Lemma put_each_cons keyPath item rest store :
  put_each keyPath (item :: rest) store
  = if storable keyPath item
    then match valid_key (Js.get item keyPath) with
         | Some k => put_each keyPath rest (<[k := item]> store)
         | None => (store, Rejected "DataError")
         end
    else put_each keyPath rest store.
Proof.
  cbn [put_each]. unfold storable, put.
  destruct (Js.truthy item), (Js.truthy (Js.get item keyPath)); simpl; try reflexivity.
  destruct (valid_key (Js.get item keyPath)); reflexivity.
Qed.

Lemma put_each_resolved keyPath items :
  Forall (fun item => storable keyPath item = true ->
                      is_Some (valid_key (Js.get item keyPath))) items ->
  forall store,
    snd (put_each keyPath items store) = Resolved /\
    forall k, fst (put_each keyPath items store) !! k
              = match last_with_key keyPath k items with
                | Some v => Some v
                | None => store !! k
                end.
Proof.
  induction 1 as [|item rest Hitem _ IH]; intros store.
  - split; [reflexivity | intros k; reflexivity].
  - rewrite put_each_cons. cbn [last_with_key].
    destruct (storable keyPath item) eqn:Hst.
    + destruct (Hitem eq_refl) as [ki Hki]. rewrite Hki.
      destruct (IH (<[ki := item]> store)) as [Hres Hlook].
      split; [exact Hres|]. intros k. rewrite Hlook.
      destruct (last_with_key keyPath k rest); [reflexivity|].
      simpl. rewrite lookup_insert. case_decide as Hk.
      * subst. now rewrite bool_decide_eq_true_2.
      * rewrite bool_decide_eq_false_2 by congruence. reflexivity.
    + destruct (IH store) as [Hres Hlook].
      split; [exact Hres|]. intros k. rewrite Hlook.
      now destruct (last_with_key keyPath k rest).
Qed.

(** X12.  (batch upsert).  A batch written by [storeUsers] or [storeMessages]
    whose usable records have a string or a number as key resolves.  The
    store then holds, under every key, the last record of the batch with
    that key, and what it held before under the other keys; records that
    are falsy or have a falsy key are passed over.  Writing the same
    batch again changes nothing. *)
Theorem batch_upsert_last_write_wins
    (keyPath : string) (items : list Val) (store : gmap Key Val) :
  Forall (fun item => storable keyPath item = true ->
                      is_Some (valid_key (Js.get item keyPath))) items ->
  snd (put_each keyPath items store) = Resolved /\
  (forall k, fst (put_each keyPath items store) !! k
             = match last_with_key keyPath k items with
               | Some v => Some v
               | None => store !! k
               end) /\
  put_each keyPath items (fst (put_each keyPath items store))
    = put_each keyPath items store.
Proof.
  intros Hall.
  destruct (put_each_resolved keyPath items Hall store) as [Hres Hlook].
  split; [exact Hres|]. split; [exact Hlook|].
  destruct (put_each_resolved keyPath items Hall (fst (put_each keyPath items store)))
    as [Hres' Hlook'].
  destruct (put_each keyPath items (fst (put_each keyPath items store))) as [m2 r2] eqn:H2.
  destruct (put_each keyPath items store) as [m1 r1] eqn:H1.
  simpl in *. subst r1 r2. f_equal.
  apply map_eq. intros k. rewrite Hlook', Hlook.
  now destruct (last_with_key keyPath k items).
Qed.

Lemma put_each_app keyPath pre post store :
  snd (put_each keyPath pre store) = Resolved ->
  put_each keyPath (pre ++ post) store
  = put_each keyPath post (fst (put_each keyPath pre store)).
Proof.
  revert store. induction pre as [|item pre IH]; intros store; [reflexivity|].
  rewrite <- app_comm_cons, !put_each_cons.
  destruct (storable keyPath item); [|apply IH].
  destruct (valid_key (Js.get item keyPath)); [apply IH | discriminate].
Qed.

(** X13.  (a batch with a bad key).  When a record of a batch has [true] or an
    object as its key, the batch is rejected with a [DataError]: the
    records before it are written and stay written, the records after it
    are not written. *)
Theorem batch_stops_at_an_invalid_key
    (keyPath : string) (pre post : list Val) (bad : Val) (store : gmap Key Val) :
  snd (put_each keyPath pre store) = Resolved ->
  Js.truthy bad = true ->
  Js.get bad keyPath = VBool true \/ (exists o, Js.get bad keyPath = VObj o) ->
  put_each keyPath (pre ++ bad :: post) store
  = (fst (put_each keyPath pre store), Rejected "DataError").
Proof.
  intros Hpre Ht Hbad. rewrite put_each_app by assumption.
  rewrite put_each_cons. unfold storable. rewrite Ht.
  destruct Hbad as [-> | [o ->]]; reflexivity.
Qed.
End BatchFacts.

(** ** Records stay under their keys *)

Section KeyedFacts.
Import IndexedDB StoreSpec.

Lemma keyed_put keyPath data store :
  keyed keyPath store -> (exists o, data = VObj o) ->
  keyed keyPath (fst (put keyPath data store)).
Proof.
  intros Hk Hobj. unfold put.
  destruct (valid_key (Js.get data keyPath)) as [k|] eqn:Hkey; [|exact Hk].
  simpl. intros j v. rewrite lookup_insert. case_decide as Hj.
  - intros [= <-]. subst. split; assumption.
  - apply Hk.
Qed.

Lemma keyed_storeData keyPath data store :
  keyPath <> "length" ->
  keyed keyPath store -> keyed keyPath (fst (_storeData keyPath data store)).
Proof.
  intros Hlen Hk. unfold _storeData.
  destruct (Js.truthy data); [|exact Hk].
  destruct (Js.truthy (Js.get data keyPath)) eqn:Ht; [|exact Hk].
  simpl. apply keyed_put; [exact Hk|].
  eapply truthy_field_object; eassumption.
Qed.

Lemma keyed_put_each keyPath items store :
  keyPath <> "length" ->
  keyed keyPath store -> keyed keyPath (fst (put_each keyPath items store)).
Proof.
  intros Hlen. revert store. induction items as [|item rest IH]; intros store Hk; [exact Hk|].
  rewrite put_each_cons. destruct (storable keyPath item) eqn:Hst; [|now apply IH].
  destruct (valid_key (Js.get item keyPath)) as [k|] eqn:Hkey; [|exact Hk].
  apply IH. intros j v. rewrite lookup_insert. case_decide as Hj.
  - intros [= <-]. subst. split; [|assumption].
    unfold storable in Hst. apply andb_true_iff in Hst as [_ Ht].
    eapply truthy_field_object; eassumption.
  - apply Hk.
Qed.

Lemma keyed_storeChannel channel db :
  keyed "channel_id" (channels db) ->
  keyed "channel_id" (channels (fst (storeChannel channel db))).
Proof.
  intros Hk. unfold storeChannel.
  destruct (negb _ || negb _); [exact Hk|].
  destruct (valid_key (Js.get channel "channel_id")) as [k|]; [|exact Hk].
  pose proof (keyed_put "channel_id"
                (channelData (default VUndefined (channels db !! k)) channel)
                (channels db) Hk) as Hput.
  destruct (put "channel_id" _ (channels db)) as [m r]. simpl in *.
  apply Hput. unfold channelData. eauto.
Qed.

Lemma storeChannel_frame channel db :
  servers (fst (storeChannel channel db)) = servers db /\
  users (fst (storeChannel channel db)) = users db /\
  messages (fst (storeChannel channel db)) = messages db.
Proof.
  unfold storeChannel.
  destruct (negb _ || negb _); [auto|].
  destruct (valid_key (Js.get channel "channel_id")) as [k|]; [|auto].
  destruct (put "channel_id" _ (channels db)) as [m r]. auto.
Qed.

Lemma well_keyed_storeServer server db :
  well_keyed db -> well_keyed (fst (storeServer server db)).
Proof.
  intros (Hs & Hc & Hu & Hm). unfold storeServer.
  pose proof (keyed_storeData "server_id" server (servers db) ltac:(discriminate) Hs) as H.
  destruct (_storeData "server_id" server (servers db)) as [m r].
  cbn [fst] in H. unfold well_keyed.
  cbn [fst servers channels users messages set_servers set_users set_messages].
  refine (conj _ (conj _ (conj _ _))); assumption.
Qed.

Lemma well_keyed_storeChannel channel db :
  well_keyed db -> well_keyed (fst (storeChannel channel db)).
Proof.
  intros (Hs & Hc & Hu & Hm).
  destruct (storeChannel_frame channel db) as (Es & Eu & Em).
  unfold well_keyed. rewrite Es, Eu, Em.
  refine (conj _ (conj _ (conj _ _))); try assumption. now apply keyed_storeChannel.
Qed.

Lemma well_keyed_storeUsers l db :
  well_keyed db -> well_keyed (fst (storeUsers l db)).
Proof.
  intros (Hs & Hc & Hu & Hm). unfold storeUsers.
  pose proof (keyed_put_each "user_id" l (users db) ltac:(discriminate) Hu) as H.
  destruct (put_each "user_id" l (users db)) as [m r].
  cbn [fst] in H. unfold well_keyed.
  cbn [fst servers channels users messages set_servers set_users set_messages].
  refine (conj _ (conj _ (conj _ _))); assumption.
Qed.

Lemma well_keyed_storeMessages l db :
  well_keyed db -> well_keyed (fst (storeMessages l db)).
Proof.
  intros (Hs & Hc & Hu & Hm). unfold storeMessages.
  pose proof (keyed_put_each "message_id" l (messages db) ltac:(discriminate) Hm) as H.
  destruct (put_each "message_id" l (messages db)) as [m r].
  cbn [fst] in H. unfold well_keyed.
  cbn [fst servers channels users messages set_servers set_users set_messages].
  refine (conj _ (conj _ (conj _ _))); assumption.
Qed.

Lemma well_keyed_empty : well_keyed empty.
Proof.
  refine (conj _ (conj _ (conj _ _))); intros k v H; simpl in H;
    now rewrite lookup_empty in H.
Qed.
End KeyedFacts.

Section HandlerInvariant.
Import IndexedDB StoreSpec Background.

Lemma well_keyed_stamp now w :
  well_keyed (db w) -> well_keyed (stamp_current_channel now w).
Proof.
  intros H. unfold stamp_current_channel.
  destruct (Js.truthy _); [|exact H].
  destruct (getChannel _ _) as [[] []]; try exact H.
  now apply well_keyed_storeChannel.
Qed.

Lemma well_keyed_saveToIndexedDB now u server channel us ms w :
  well_keyed (db w) ->
  well_keyed (db (fst (saveToIndexedDB now u server channel us ms w))).
Proof.
  intros H. unfold saveToIndexedDB.
  assert (H1 : well_keyed
                 (fst (if Js.truthy server && Js.truthy (Js.get server "server_id")
                       then storeServer server (db w) else (db w, Resolved)))).
  { destruct (_ && _); [now apply well_keyed_storeServer | exact H]. }
  destruct (if Js.truthy server && _ then _ else _) as [db1 r1]. simpl in H1.
  destruct r1; [|exact H1].
  assert (H2 : well_keyed
                 (fst (if Js.truthy channel && Js.truthy (Js.get channel "channel_id")
                       then storeChannel
                              (if u then set_field "last_crawled_at" (VStr now) channel
                               else channel) db1
                       else (db1, Resolved)))).
  { destruct (_ && _); [now apply well_keyed_storeChannel | exact H1]. }
  destruct (if Js.truthy channel && _ then _ else _) as [db2 r2]. simpl in H2.
  destruct r2; [|exact H2].
  assert (H3 : well_keyed (fst (match us with
                                | [] => (db2, Resolved)
                                | _ :: _ => storeUsers us db2
                                end))).
  { destruct us; [exact H2 | now apply well_keyed_storeUsers]. }
  destruct (match us with [] => _ | _ => _ end) as [db3 r3]. simpl in H3.
  destruct r3; [|exact H3].
  assert (H4 : well_keyed (fst (match ms with
                                | [] => (db3, Resolved)
                                | _ :: _ => storeMessages ms db3
                                end))).
  { destruct ms; [exact H3 | now apply well_keyed_storeMessages]. }
  destruct (match ms with [] => _ | _ => _ end) as [db4 r4]. simpl in H4.
  destruct r4; exact H4.
Qed.

(** X14.  (records stay under their keys).  When every record of the four
    stores is an object stored under the value of its own key property,
    this still holds after any request handled by the background worker,
    after clearing the store, and after a tab is closed or updated. *)
Theorem handlers_keep_records_under_their_keys
    (now : string) (activeTab : option Tab) (delivery : option string)
    (request : Request) (tabId : Z) (url : option string) (w : World) :
  well_keyed (db w) ->
  well_keyed (db (fst (fst (onMessage now activeTab delivery request w)))) /\
  well_keyed (db (fst (clearIndexedDB w))) /\
  well_keyed (db (onTabRemoved tabId w)) /\
  well_keyed (db (onTabUpdated tabId url w)).
Proof.
  intros H. split; [|split; [|split]].
  - destruct request as [| | |i cid cn sn mc|u server channel us ms]; simpl.
    + unfold startCrawl. destruct (isCrawling _); [exact H|].
      destruct activeTab as [[id [u|]]|]; try exact H.
      destruct (_ && _); [|exact H]. destruct delivery; exact H.
    + unfold stopCrawl. destruct (negb _); [exact H|]. simpl.
      now apply well_keyed_stamp.
    + exact H.
    + exact H.
    + pose proof (well_keyed_saveToIndexedDB now u server channel us ms w H) as Hs.
      destruct (saveToIndexedDB _ _ _ _ _ _ _) as [w' r]. exact Hs.
  - apply well_keyed_empty.
  - unfold onTabRemoved. destruct (_ && _); exact H.
  - unfold onTabUpdated. destruct (_ && _); [|exact H].
    destruct url as [u|]; [|exact H]. destruct (_ && _); exact H.
Qed.
End HandlerInvariant.

(** ** Stopping and abandoning a session *)

Section SessionHandlers.
Import IndexedDB StoreSpec Background.

Lemma truthy_VStr s : s <> "" -> Js.truthy (VStr s) = true.
Proof. intros H. simpl. now rewrite eqb_empty_false. Qed.

Lemma stamp_writes now w c old :
  currentChannel (crawlState w) = VStr c -> c <> "" ->
  channels (db w) !! KStr c = Some (VObj old) ->
  Js.get (VObj old) "channel_id" = VStr c ->
  stamp_current_channel now w
  = set_channels
      (<[KStr c := channelData (VObj old) (VObj (<["last_crawled_at" := VStr now]> old))]>
         (channels (db w))) (db w).
Proof.
  intros Hc Hne Hold Hid. unfold stamp_current_channel, getChannel, _getData.
  rewrite Hc, (truthy_VStr c Hne). simpl negb. cbv iota. simpl valid_key. cbv iota.
  rewrite Hold. cbn [default from_option id]. unfold Js.or at 1. simpl Js.truthy. cbv iota.
  assert (Hget : Js.get (VObj (<["last_crawled_at" := VStr now]> old)) "channel_id" = VStr c).
  { simpl in *. now rewrite lookup_insert_ne by discriminate. }
  rewrite (storeChannel_writes _ (db w) (KStr c)).
  - unfold channel_at. rewrite Hold. reflexivity.
  - rewrite Hget. now apply truthy_VStr.
  - now rewrite Hget.
Qed.

(** X15.  (stop in the background worker).  A stop request during a crawl
    whose current channel has a record in the store succeeds, sets
    [last_crawled_at] of that record to the time of the request, keeps
    every other field of the record and every other record of the four
    stores, and puts the crawl state back to its initial value.  A second
    stop request fails with [No crawler is running] and changes
    nothing. *)
Theorem stop_stamps_the_channel_and_resets
    (now : string) (w : World) (c : string) (old : gmap string Val) :
  isCrawling (crawlState w) = true ->
  currentChannel (crawlState w) = VStr c -> c <> "" ->
  channels (db w) !! KStr c = Some (VObj old) ->
  Js.get (VObj old) "channel_id" = VStr c ->
  let w' := fst (fst (stopCrawl now w)) in
  success (snd (fst (stopCrawl now w))) = true /\
  crawlState w' = initialCrawlState /\
  Js.get (channel_at (db w') (KStr c)) "last_crawled_at" = VStr now /\
  (forall f, f <> "last_crawled_at" ->
             Js.get (channel_at (db w') (KStr c)) f = Js.get (VObj old) f) /\
  (forall k, k <> KStr c -> channels (db w') !! k = channels (db w) !! k) /\
  servers (db w') = servers (db w) /\
  users (db w') = users (db w) /\
  messages (db w') = messages (db w) /\
  (forall later, stopCrawl later w'
                 = (w', sendResponseHelper false ∅ (Some "No crawler is running"), [])).
Proof.
  intros Hon Hc Hne Hold Hid. unfold stopCrawl. rewrite Hon. simpl negb. cbv iota.
  cbn [fst snd]. rewrite (stamp_writes now w c old Hc Hne Hold Hid).
  cbn [db crawlState success sendResponseHelper servers users messages channels
       set_channels isCrawling resetCrawlState negb].
  split; [reflexivity|]. split; [reflexivity|].
  unfold channel_at, set_channels. cbn [channels]. rewrite lookup_insert_eq. cbn [default from_option id].
  split.
  { rewrite get_channelData_last_crawled_at.
    assert (Hl : Js.get (VObj (<["last_crawled_at" := VStr now]> old)) "last_crawled_at"
                 = VStr now) by (simpl; now rewrite lookup_insert_eq).
    rewrite Hl. reflexivity. }
  split.
  { intros f Hf. rewrite get_channelData_other by assumption.
    cbn [Js.spread Js.get]. rewrite lookup_insert_ne by congruence.
    now destruct (old !! f). }
  split.
  { intros k Hk. now rewrite lookup_insert_ne by congruence. }
  repeat (split; [reflexivity|]).
  intros later. reflexivity.
Qed.

(** X16.  (stop without a channel record).  A stop request during a crawl that
    has no current channel, or whose current channel has no record in the
    store, succeeds and resets the crawl state; the store is not
    changed, so no channel record is created by a stop. *)
Theorem stop_without_a_stored_channel_only_resets (now : string) (w : World) :
  isCrawling (crawlState w) = true ->
  Js.truthy (currentChannel (crawlState w)) = false \/
  (exists k, valid_key (currentChannel (crawlState w)) = Some k /\
             channels (db w) !! k = None) ->
  db (fst (fst (stopCrawl now w))) = db w /\
  crawlState (fst (fst (stopCrawl now w))) = initialCrawlState /\
  success (snd (fst (stopCrawl now w))) = true.
Proof.
  intros Hon Hcase. unfold stopCrawl. rewrite Hon. simpl negb. cbv iota. cbn [fst snd db].
  split; [|split; reflexivity].
  unfold stamp_current_channel.
  destruct Hcase as [Hf | (k & Hk & Hnone)].
  - now rewrite Hf.
  - destruct (Js.truthy _) eqn:Ht; [|reflexivity].
    unfold getChannel, _getData. rewrite Ht, Hk, Hnone. reflexivity.
Qed.

(** X17.  (closing or leaving the tab).  Closing a tab or updating it never
    changes the store.  When the crawling tab is closed, or navigates to
    a URL that does not contain [discord.com], the crawl state is reset;
    an event of another tab, an event while no crawl runs, and an update
    without a URL or with a URL that contains [discord.com] change
    nothing. *)
Theorem abandoned_crawl_is_not_stamped (tabId : Z) (url : option string) (w : World) :
  db (onTabRemoved tabId w) = db w /\
  db (onTabUpdated tabId url w) = db w /\
  (isCrawling (crawlState w) = true -> currentTabId (crawlState w) = Some tabId ->
   crawlState (onTabRemoved tabId w) = initialCrawlState /\
   forall u, url = Some u -> u <> "" -> JsString.includes u "discord.com" = false ->
             crawlState (onTabUpdated tabId url w) = initialCrawlState) /\
  (isCrawling (crawlState w) = false \/ currentTabId (crawlState w) <> Some tabId ->
   onTabRemoved tabId w = w /\ onTabUpdated tabId url w = w) /\
  (url = None \/ url = Some "" \/
   (exists u, url = Some u /\ JsString.includes u "discord.com" = true) ->
   onTabUpdated tabId url w = w).
Proof.
  unfold onTabRemoved, onTabUpdated.
  split; [|split; [|split; [|split]]].
  - now destruct (_ && _).
  - destruct (_ && _); [|reflexivity]. destruct url; [|reflexivity].
    now destruct (_ && _).
  - intros Hon Htab. rewrite Hon, Htab, bool_decide_eq_true_2 by reflexivity.
    simpl andb. cbv iota. split; [reflexivity|].
    intros u -> Hne Hinc. rewrite Hinc, (eqb_empty_false u Hne). reflexivity.
  - intros [Hoff | Hother].
    + rewrite Hoff. split; reflexivity.
    + rewrite (bool_decide_eq_false_2 _ Hother), andb_false_r. split; reflexivity.
  - intros [-> | [-> | (u & -> & Hinc)]].
    + now destruct (_ && _).
    + now destruct (_ && _).
    + rewrite Hinc, andb_false_r. now destruct (_ && _).
Qed.
End SessionHandlers.

(** ** Reports and saves of the content script *)

Section CoordinatorFacts.
Import IndexedDB StoreSpec Background Scrolling.

(** X18.  (end of a crawl reported by the content script).  [stopCrawling] on
    a crawling service sends one status update.  The background worker
    answers it with success: it clears its crawl flag and keeps the store,
    the tab id, the current channel and the message count; it notifies
    the popup exactly when it was crawling.  A stop request after that
    fails with [No crawler is running], so it stamps no channel. *)
Theorem finished_crawl_report_ends_the_session
    (now : string) (activeTab : option Tab) (delivery : option string)
    (s : ScraperService.State) (w : World) :
  ScraperService.isCrawling s = true ->
  ScraperService.sent (ScraperService.stopCrawling s)
    = (ScraperService.sent s ++ [end_report])%list /\
  let w' := fst (fst (onMessage now activeTab delivery end_report w)) in
  db w' = db w /\
  crawlState w'
    = mkCrawlState false (currentTabId (crawlState w)) (currentChannel (crawlState w))
        (currentChannelName (crawlState w)) (currentServerName (crawlState w))
        (messageCount (crawlState w)) /\
  success (snd (fst (onMessage now activeTab delivery end_report w))) = true /\
  snd (onMessage now activeTab delivery end_report w)
    = (if isCrawling (crawlState w) then [CrawlStatusChanged false] else []) /\
  (forall later, stopCrawl later w'
                 = (w', sendResponseHelper false ∅ (Some "No crawler is running"), [])).
Proof.
  intros Hon. split.
  - unfold ScraperService.stopCrawling. rewrite Hon. simpl negb. cbv iota.
    cbn [ScraperService.sendMessage ScraperService.sent].
    destruct (stopAutoScrolling_quiet (ScraperService.set_isCrawling false s))
      as (_ & _ & _ & S & _).
    rewrite S. reflexivity.
  - cbn. split; [reflexivity|]. split; [reflexivity|]. split; [reflexivity|].
    split; [now destruct (isCrawling (crawlState w))|]. intros later. reflexivity.
Qed.

(** The successive states of the store in [saveToIndexedDB]. *)
Lemma saveToIndexedDB_cases now u server channel us ms w :
  (success (snd (saveToIndexedDB now u server channel us ms w)) = false /\
   error (snd (saveToIndexedDB now u server channel us ms w)) <> None /\
   crawlState (fst (saveToIndexedDB now u server channel us ms w)) = crawlState w) \/
  (success (snd (saveToIndexedDB now u server channel us ms w)) = true /\
   error (snd (saveToIndexedDB now u server channel us ms w)) = None /\
   let c := crawlState w in
   let c' := crawlState (fst (saveToIndexedDB now u server channel us ms w)) in
   isCrawling c' = isCrawling c /\
   currentTabId c' = currentTabId c /\
   messageCount c' = (messageCount c + Z.of_nat (length ms))%Z /\
   currentChannel c'
     = (if Js.truthy channel then Js.get channel "channel_id" else currentChannel c) /\
   currentChannelName c'
     = (if Js.truthy channel then Js.get channel "channel_name"
        else currentChannelName c) /\
   currentServerName c'
     = (if Js.truthy server then Js.get server "server_name"
        else currentServerName c)).
Proof.
  unfold saveToIndexedDB.
  destruct (if Js.truthy server && _ then _ else _) as [db1 [|e1]];
    [|left; cbn; repeat split; congruence].
  destruct (if Js.truthy channel && _ then _ else _) as [db2 [|e2]];
    [|left; cbn; repeat split; congruence].
  destruct (match us with [] => _ | _ => _ end) as [db3 [|e3]];
    [|left; cbn; repeat split; congruence].
  destruct (match ms with [] => _ | _ => _ end) as [db4 [|e4]];
    [|left; cbn; repeat split; congruence].
  right. cbn [fst snd success error sendResponseHelper crawlState].
  split; [reflexivity|]. split; [reflexivity|].
  destruct (Js.truthy channel), (Js.truthy server); cbn; repeat split; reflexivity.
Qed.

Lemma storeServer_frame server db :
  servers (fst (storeServer server db)) = fst (_storeData "server_id" server (servers db)) /\
  channels (fst (storeServer server db)) = channels db /\
  users (fst (storeServer server db)) = users db /\
  messages (fst (storeServer server db)) = messages db.
Proof.
  unfold storeServer. destruct (_storeData _ _ _) as [m r]. cbn. auto.
Qed.

Lemma storeUsers_frame l db :
  servers (fst (storeUsers l db)) = servers db /\
  channels (fst (storeUsers l db)) = channels db /\
  users (fst (storeUsers l db)) = fst (put_each "user_id" l (users db)) /\
  messages (fst (storeUsers l db)) = messages db.
Proof.
  unfold storeUsers. destruct (put_each _ _ _) as [m r]. cbn. auto.
Qed.

Lemma storeMessages_frame l db :
  servers (fst (storeMessages l db)) = servers db /\
  channels (fst (storeMessages l db)) = channels db /\
  users (fst (storeMessages l db)) = users db /\
  messages (fst (storeMessages l db)) = fst (put_each "message_id" l (messages db)).
Proof.
  unfold storeMessages. destruct (put_each _ _ _) as [m r]. cbn. auto.
Qed.

Lemma storeChannel_reads_channels channel db db' :
  channels db' = channels db ->
  channels (fst (storeChannel channel db')) = channels (fst (storeChannel channel db)).
Proof.
  intros E. unfold storeChannel. rewrite E.
  destruct (negb _ || negb _); [exact E|].
  destruct (valid_key (Js.get channel "channel_id")) as [k|]; [|exact E].
  destruct (put "channel_id" _ (channels db)) as [m r]. reflexivity.
Qed.

Lemma storeChannel_skips channel db :
  Js.truthy channel && Js.truthy (Js.get channel "channel_id") = false ->
  storeChannel channel db = (db, Resolved).
Proof.
  intros H. unfold storeChannel.
  destruct (Js.truthy channel), (Js.truthy (Js.get channel "channel_id"));
    try discriminate; reflexivity.
Qed.

(** The record [saveToIndexedDB] hands to [storeChannel]. *)
Lemma saveToIndexedDB_store now u server channel us ms w :
  let w' := fst (saveToIndexedDB now u server channel us ms w) in
  let r := snd (saveToIndexedDB now u server channel us ms w) in
  servers (db w') = fst (_storeData "server_id" server (servers (db w))) /\
  (success r = true ->
   channels (db w')
     = (if Js.truthy channel && Js.truthy (Js.get channel "channel_id")
        then channels (fst (storeChannel
                              (if u then set_field "last_crawled_at" (VStr now) channel
                               else channel) (db w)))
        else channels (db w)) /\
   users (db w') = fst (put_each "user_id" us (users (db w))) /\
   messages (db w') = fst (put_each "message_id" ms (messages (db w)))).
Proof.
  cbv zeta. unfold saveToIndexedDB.
  set (stage1 := if Js.truthy server && Js.truthy (Js.get server "server_id")
                 then storeServer server (db w) else (db w, Resolved)).
  assert (F1 : servers (fst stage1) = fst (_storeData "server_id" server (servers (db w))) /\
               channels (fst stage1) = channels (db w) /\
               users (fst stage1) = users (db w) /\
               messages (fst stage1) = messages (db w)).
  { subst stage1. destruct (Js.truthy server && _) eqn:E.
    - apply storeServer_frame.
    - cbn [fst]. unfold _storeData.
      destruct (Js.truthy server), (Js.truthy (Js.get server "server_id"));
        try discriminate; cbn; auto. }
  destruct stage1 as [db1 r1]. cbn [fst] in F1. destruct F1 as (S1 & C1 & U1 & M1).
  destruct r1 as [|e1]; [|cbn; split; [exact S1 | discriminate]].
  set (ch := if u then set_field "last_crawled_at" (VStr now) channel else channel).
  set (stage2 := if Js.truthy channel && Js.truthy (Js.get channel "channel_id")
                 then storeChannel ch db1 else (db1, Resolved)).
  assert (F2 : servers (fst stage2) = servers db1 /\
               channels (fst stage2)
                 = (if Js.truthy channel && Js.truthy (Js.get channel "channel_id")
                    then channels (fst (storeChannel ch (db w))) else channels (db w)) /\
               users (fst stage2) = users db1 /\
               messages (fst stage2) = messages db1).
  { subst stage2. destruct (Js.truthy channel && _).
    - destruct (storeChannel_frame ch db1) as (A & B & C).
      rewrite (storeChannel_reads_channels ch (db w) db1 C1). auto.
    - cbn [fst]. auto. }
  destruct stage2 as [db2 r2]. cbn [fst] in F2. destruct F2 as (S2 & C2 & U2 & M2).
  destruct r2 as [|e2]; [|cbn; split; [congruence | discriminate]].
  set (stage3 := match us with [] => (db2, Resolved) | _ :: _ => storeUsers us db2 end).
  assert (F3 : servers (fst stage3) = servers db2 /\
               channels (fst stage3) = channels db2 /\
               users (fst stage3) = fst (put_each "user_id" us (users db2)) /\
               messages (fst stage3) = messages db2).
  { subst stage3. destruct us; [cbn; auto | apply storeUsers_frame]. }
  destruct stage3 as [db3 r3]. cbn [fst] in F3. destruct F3 as (S3 & C3 & U3 & M3).
  destruct r3 as [|e3]; [|cbn; split; [congruence | discriminate]].
  set (stage4 := match ms with [] => (db3, Resolved) | _ :: _ => storeMessages ms db3 end).
  assert (F4 : servers (fst stage4) = servers db3 /\
               channels (fst stage4) = channels db3 /\
               users (fst stage4) = users db3 /\
               messages (fst stage4) = fst (put_each "message_id" ms (messages db3))).
  { subst stage4. destruct ms; [cbn; auto | apply storeMessages_frame]. }
  destruct stage4 as [db4 r4]. cbn [fst] in F4. destruct F4 as (S4 & C4 & U4 & M4).
  destruct r4 as [|e4]; [|cbn; split; [congruence | discriminate]].
  cbn [fst snd db success sendResponseHelper].
  split; [congruence|]. intros _.
  split; [congruence|]. split; congruence.
Qed.

(** X19.  (the save handler).  A save request never changes the crawl flag or
    the tab id, and the servers store is always the result of the upsert
    of the server record.  When the response is a failure it carries an
    error and the crawl state is unchanged.  When it is a success the
    message count has grown by the number of messages of the request and
    the users and messages stores are the results of the two batch
    upserts. *)
Theorem save_updates_the_session_only_on_success
    (now : string) (u : bool) (server channel : Val) (us ms : list Val) (w : World) :
  let w' := fst (saveToIndexedDB now u server channel us ms w) in
  let r := snd (saveToIndexedDB now u server channel us ms w) in
  isCrawling (crawlState w') = isCrawling (crawlState w) /\
  currentTabId (crawlState w') = currentTabId (crawlState w) /\
  servers (db w') = fst (_storeData "server_id" server (servers (db w))) /\
  (success r = false -> error r <> None /\ crawlState w' = crawlState w) /\
  (success r = true ->
   error r = None /\
   messageCount (crawlState w')
     = (messageCount (crawlState w) + Z.of_nat (length ms))%Z /\
   users (db w') = fst (put_each "user_id" us (users (db w))) /\
   messages (db w') = fst (put_each "message_id" ms (messages (db w)))).
Proof.
  cbv zeta.
  destruct (saveToIndexedDB_store now u server channel us ms w) as (Hsrv & Hdb).
  destruct (saveToIndexedDB_cases now u server channel us ms w)
    as [(Hs & He & Hc) | (Hs & He & Hi & Ht & Hm & _)].
  - split; [now rewrite Hc|]. split; [now rewrite Hc|]. split; [exact Hsrv|].
    split; [auto | rewrite Hs; discriminate].
  - split; [exact Hi|]. split; [exact Ht|]. split; [exact Hsrv|].
    split; [rewrite Hs; discriminate|]. intros _.
    destruct (Hdb Hs) as (_ & Hu & Hmsg). auto.
Qed.
End CoordinatorFacts.

(** ** A batch of the content script in the store *)

Section EncodedBatches.
Import IndexedDB StoreSpec.
Context {A : Type} (enc : A -> Val) (idf : A -> string) (keyPath : string).
Hypothesis enc_key : forall a, Js.get (enc a) keyPath = VStr (idf a).
Hypothesis enc_truthy : forall a, Js.truthy (enc a) = true.

Lemma encoded_batch_valid (l : list A) :
  Forall (fun item => storable keyPath item = true ->
                      is_Some (valid_key (Js.get item keyPath))) (map enc l).
Proof.
  apply Forall_forall. intros item Hin _.
  apply list_elem_of_fmap in Hin as (a & -> & _).
  rewrite enc_key. simpl. eauto.
Qed.

Lemma last_with_key_absent (k : Key) (l : list A) :
  (forall a, a ∈ l -> KStr (idf a) <> k) ->
  last_with_key keyPath k (map enc l) = None.
Proof.
  induction l as [|a l IH]; intros Hk; [reflexivity|].
  cbn [map last_with_key]. rewrite IH.
  - rewrite enc_key. simpl valid_key.
    rewrite bool_decide_eq_false_2, andb_false_r; [reflexivity|].
    intros [= E]. apply (Hk a); [left | now rewrite E].
  - intros b Hb. apply Hk. now right.
Qed.

Lemma last_with_key_present (a : A) (l : list A) :
  NoDup (map idf l) -> a ∈ l -> idf a <> "" ->
  last_with_key keyPath (KStr (idf a)) (map enc l) = Some (enc a).
Proof.
  induction l as [|b l IH]; intros Hnd Hin Hne; [inversion Hin|].
  cbn [map] in Hnd. apply NoDup_cons in Hnd as [Hb Hnd].
  cbn [map last_with_key].
  apply elem_of_cons in Hin as [-> | Hin].
  - rewrite last_with_key_absent.
    + unfold storable. rewrite enc_truthy, enc_key.
      simpl. rewrite (eqb_empty_false _ Hne). simpl.
      now rewrite bool_decide_eq_true_2.
    + intros c Hc [= E]. apply Hb. rewrite <- E.
      apply list_elem_of_fmap. eauto.
  - now rewrite IH.
Qed.
End EncodedBatches.

Section CrawlBatch.
Import IndexedDB StoreSpec Background.

Lemma get_message_id m : Js.get (Encode.message m) "message_id" = VStr (message_id m).
Proof. reflexivity. Qed.

Lemma get_user_id u : Js.get (Encode.user u) "user_id" = VStr (u_user_id u).
Proof. reflexivity. Qed.

Lemma storeServer_resolved server db :
  (Js.truthy (Js.get server "server_id") = true ->
   is_Some (valid_key (Js.get server "server_id"))) ->
  snd (storeServer server db) = Resolved.
Proof.
  intros Hv. unfold storeServer, _storeData, put.
  destruct (Js.truthy server); [|reflexivity].
  destruct (Js.truthy (Js.get server "server_id")); [|reflexivity].
  destruct (Hv eq_refl) as [k ->]. reflexivity.
Qed.

Lemma get_set_field_other f g x v :
  f <> g -> Js.get (set_field f x v) g = Js.get v g.
Proof.
  intros Hne. destruct v; try reflexivity.
  simpl. now rewrite lookup_insert_ne.
Qed.

Lemma storeChannel_resolved channel db :
  (Js.truthy (Js.get channel "channel_id") = true ->
   is_Some (valid_key (Js.get channel "channel_id"))) ->
  snd (storeChannel channel db) = Resolved.
Proof.
  intros Hv.
  destruct (Js.truthy channel && Js.truthy (Js.get channel "channel_id")) eqn:E.
  - apply andb_true_iff in E as [_ Ht]. destruct (Hv Ht) as [k Hk].
    now rewrite (storeChannel_writes channel db k Ht Hk).
  - now rewrite storeChannel_skips.
Qed.

Lemma saveToIndexedDB_accepts now u server channel us ms w :
  (Js.truthy (Js.get server "server_id") = true ->
   is_Some (valid_key (Js.get server "server_id"))) ->
  (Js.truthy (Js.get channel "channel_id") = true ->
   is_Some (valid_key (Js.get channel "channel_id"))) ->
  Forall (fun item => storable "user_id" item = true ->
                      is_Some (valid_key (Js.get item "user_id"))) us ->
  Forall (fun item => storable "message_id" item = true ->
                      is_Some (valid_key (Js.get item "message_id"))) ms ->
  success (snd (saveToIndexedDB now u server channel us ms w)) = true.
Proof.
  intros Hs Hc Hu Hm. unfold saveToIndexedDB.
  set (stage1 := if Js.truthy server && Js.truthy (Js.get server "server_id")
                 then storeServer server (db w) else (db w, Resolved)).
  assert (R1 : snd stage1 = Resolved).
  { subst stage1. destruct (_ && _); [now apply storeServer_resolved | reflexivity]. }
  destruct stage1 as [db1 r1]. cbn [snd] in R1. subst r1.
  set (ch := if u then set_field "last_crawled_at" (VStr now) channel else channel).
  set (stage2 := if Js.truthy channel && Js.truthy (Js.get channel "channel_id")
                 then storeChannel ch db1 else (db1, Resolved)).
  assert (R2 : snd stage2 = Resolved).
  { subst stage2. destruct (_ && _); [|reflexivity].
    apply storeChannel_resolved. subst ch. destruct u; [|exact Hc].
    now rewrite get_set_field_other by discriminate. }
  destruct stage2 as [db2 r2]. cbn [snd] in R2. subst r2.
  set (stage3 := match us with [] => (db2, Resolved) | _ :: _ => storeUsers us db2 end).
  assert (R3 : snd stage3 = Resolved).
  { subst stage3. destruct us as [|x xs]; [reflexivity|].
    unfold storeUsers.
    destruct (put_each_resolved "user_id" (x :: xs) Hu (users db2)) as [R _].
    destruct (put_each "user_id" (x :: xs) (users db2)). exact R. }
  destruct stage3 as [db3 r3]. cbn [snd] in R3. subst r3.
  set (stage4 := match ms with [] => (db3, Resolved) | _ :: _ => storeMessages ms db3 end).
  assert (R4 : snd stage4 = Resolved).
  { subst stage4. destruct ms as [|x xs]; [reflexivity|].
    unfold storeMessages.
    destruct (put_each_resolved "message_id" (x :: xs) Hm (messages db3)) as [R _].
    destruct (put_each "message_id" (x :: xs) (messages db3)). exact R. }
  destruct stage4 as [db4 r4]. cbn [snd] in R4. subst r4.
  reflexivity.
Qed.

Lemma of_option_string_key o :
  Js.truthy (Js.of_option_string o) = true ->
  is_Some (valid_key (Js.of_option_string o)).
Proof. destruct o; simpl; [eauto | discriminate]. Qed.

Lemma save_request_stored
    (now : string) (activeTab : option Tab) (delivery : option string)
    (s : ScraperService.State) (us : list User) (ms : list Message) (w : World) :
  Forall (fun m => message_id m <> "") ms ->
  NoDup (map message_id ms) ->
  Forall (fun u => u_user_id u <> "") us ->
  NoDup (map u_user_id us) ->
  let result := onMessage now activeTab delivery (ScraperService.save_request s us ms) w in
  let w' := fst (fst result) in
  success (snd (fst result)) = true /\
  snd result = [] /\
  (forall m, m ∈ ms ->
     messages (db w') !! KStr (message_id m) = Some (Encode.message m)) /\
  (forall k, (forall m, m ∈ ms -> KStr (message_id m) <> k) ->
     messages (db w') !! k = messages (db w) !! k) /\
  (forall u, u ∈ us ->
     users (db w') !! KStr (u_user_id u) = Some (Encode.user u)) /\
  messageCount (crawlState w')
    = (messageCount (crawlState w) + Z.of_nat (length ms))%Z /\
  isCrawling (crawlState w') = isCrawling (crawlState w) /\
  (forall c, ScraperService.ctx_channel_id (ScraperService.context s) = Some c ->
     c <> "" ->
     Js.get (channel_at (db w') (KStr c)) "last_crawled_at" = VStr now).
Proof.
  intros Hmne Hmnd Hune Hund. cbv zeta.
  unfold ScraperService.save_request. cbn [onMessage].
  set (server := ScraperService.serverData (ScraperService.context s)).
  set (channel := ScraperService.channelData (ScraperService.context s)).
  pose proof (encoded_batch_valid Encode.user u_user_id "user_id" get_user_id us) as Vu.
  pose proof (encoded_batch_valid Encode.message message_id "message_id"
                get_message_id ms) as Vm.
  assert (Hacc : success (snd (saveToIndexedDB now true server channel
                                 (map Encode.user us) (map Encode.message ms) w)) = true).
  { apply saveToIndexedDB_accepts; [| |exact Vu|exact Vm].
    - apply of_option_string_key.
    - apply of_option_string_key. }
  destruct (saveToIndexedDB_store now true server channel
              (map Encode.user us) (map Encode.message ms) w) as (_ & Hdb).
  destruct (Hdb Hacc) as (Hch & Husers & Hmsgs).
  destruct (saveToIndexedDB_cases now true server channel
              (map Encode.user us) (map Encode.message ms) w)
    as [(Hs & _) | (_ & _ & Hi & _ & Hcount & _)]; [congruence|].
  destruct (saveToIndexedDB now true server channel
              (map Encode.user us) (map Encode.message ms) w) as [w' r].
  cbn [fst snd] in *.
  destruct (put_each_resolved "message_id" _ Vm (messages (db w))) as [_ Lm].
  destruct (put_each_resolved "user_id" _ Vu (users (db w))) as [_ Lu].
  split; [exact Hacc|]. split; [reflexivity|].
  split.
  { intros m Hin. rewrite Hmsgs, Lm.
    rewrite (last_with_key_present Encode.message message_id "message_id"
               get_message_id (fun _ => eq_refl) m ms Hmnd Hin); [reflexivity|].
    rewrite Forall_forall in Hmne. now apply Hmne. }
  split.
  { intros k Hk. rewrite Hmsgs, Lm.
    now rewrite (last_with_key_absent Encode.message message_id "message_id"
                   get_message_id k ms Hk). }
  split.
  { intros u Hin. rewrite Husers, Lu.
    rewrite (last_with_key_present Encode.user u_user_id "user_id"
               get_user_id (fun _ => eq_refl) u us Hund Hin); [reflexivity|].
    rewrite Forall_forall in Hune. now apply Hune. }
  split; [rewrite Hcount, length_map; reflexivity|].
  split; [exact Hi|].
  intros c Hc Hne. unfold channel_at. rewrite Hch.
  assert (Hid : Js.get channel "channel_id" = VStr c).
  { subst channel. unfold ScraperService.channelData. rewrite Hc. reflexivity. }
  assert (Ht : Js.truthy channel && Js.truthy (Js.get channel "channel_id") = true).
  { rewrite Hid. subst channel. simpl. now rewrite (eqb_empty_false c Hne). }
  rewrite Ht.
  assert (Hid' : Js.get (set_field "last_crawled_at" (VStr now) channel) "channel_id"
                 = VStr c).
  { now rewrite get_set_field_other by discriminate. }
  fold (channel_at (fst (storeChannel (set_field "last_crawled_at" (VStr now) channel)
                           (db w))) (KStr c)).
  rewrite (channel_at_after_store _ (db w) (KStr c)).
  - rewrite get_channelData_last_crawled_at. subst channel.
    unfold ScraperService.channelData. cbn [set_field Js.get].
    rewrite lookup_insert_eq. reflexivity.
  - rewrite Hid'. simpl. now rewrite (eqb_empty_false c Hne).
  - now rewrite Hid'.
Qed.
(** X20.  (a batch of the content script in the store).  A save request built
    by the content script from users and messages with non-empty,
    pairwise distinct ids is answered with success.  Afterwards every
    message and every user of the batch is in the store under its id, the
    other messages of the store are untouched, the message count has
    grown by the size of the batch, the crawl flag is unchanged, and the
    channel of the context, when it has an id, is stamped with the time
    of the request. *)
Theorem crawl_batch_reaches_the_store
    (now : string) (activeTab : option Tab) (delivery : option string)
    (s : ScraperService.State) (us : list User) (ms : list Message) (w : World) :
  Forall (fun m => message_id m <> "") ms ->
  NoDup (map message_id ms) ->
  Forall (fun u => u_user_id u <> "") us ->
  NoDup (map u_user_id us) ->
  let result := onMessage now activeTab delivery (ScraperService.save_request s us ms) w in
  let w' := fst (fst result) in
  success (snd (fst result)) = true /\
  snd result = [] /\
  (forall m, m ∈ ms ->
     messages (db w') !! KStr (message_id m) = Some (Encode.message m)) /\
  (forall k, (forall m, m ∈ ms -> KStr (message_id m) <> k) ->
     messages (db w') !! k = messages (db w) !! k) /\
  (forall u, u ∈ us ->
     users (db w') !! KStr (u_user_id u) = Some (Encode.user u)) /\
  messageCount (crawlState w')
    = (messageCount (crawlState w) + Z.of_nat (length ms))%Z /\
  isCrawling (crawlState w') = isCrawling (crawlState w) /\
  (forall c, ScraperService.ctx_channel_id (ScraperService.context s) = Some c ->
     c <> "" ->
     Js.get (channel_at (db w') (KStr c)) "last_crawled_at" = VStr now).
Proof. exact (save_request_stored now activeTab delivery s us ms w). Qed.
End CrawlBatch.

(** ** Start, clear and statistics *)

Section StatsFacts.
Import IndexedDB StoreSpec Background.

(** X22.  (start in the background worker).  A start request while no crawl
    runs never changes the store.  It succeeds only when the active tab
    has a URL that contains [discord.com] and the tab accepted the start
    message; the worker is then crawling that tab with a message count of
    0 and the channel it had before.  When it fails nothing is sent, the
    response carries an error, the worker is not crawling, and the crawl
    state is unchanged unless the tab refused the message, in which case
    it may be reset. *)
Theorem start_claims_the_tab_or_fails
    (activeTab : option Tab) (delivery : option string) (w : World) :
  isCrawling (crawlState w) = false ->
  let result := startCrawl activeTab delivery w in
  let w' := fst (fst result) in
  db w' = db w /\
  (success (snd (fst result)) = true ->
   exists id url,
     activeTab = Some (mkTab id (Some url)) /\
     JsString.includes url "discord.com" = true /\
     delivery = None /\
     crawlState w'
       = mkCrawlState true (Some id) (currentChannel (crawlState w))
           (currentChannelName (crawlState w)) (currentServerName (crawlState w)) 0 /\
     snd result = [ToTab id StartCrawl]) /\
  (success (snd (fst result)) = false ->
   isCrawling (crawlState w') = false /\
   snd result = [] /\
   error (snd (fst result)) <> None /\
   (delivery = None -> w' = w) /\
   (forall message, delivery = Some message ->
      w' = w \/ crawlState w' = initialCrawlState)).
Proof.
  intros Hoff. cbv zeta. unfold startCrawl. rewrite Hoff.
  destruct activeTab as [[id [url|]]|].
  2,3: cbn; (split; [reflexivity|]); (split; [discriminate|]); intros _;
       repeat split; auto; discriminate.
  destruct (negb (String.eqb url "") && JsString.includes url "discord.com") eqn:E.
  - apply andb_true_iff in E as [_ Hinc].
    destruct delivery as [message|]; cbn.
    + split; [reflexivity|]. split; [discriminate|]. intros _.
      repeat split; auto; discriminate.
    + split; [reflexivity|]. split; [|discriminate]. intros _.
      exists id, url. repeat split; auto.
  - cbn. split; [reflexivity|]. split; [discriminate|]. intros _.
    repeat split; auto; discriminate.
Qed.

(** X23.  (clearing the store).  [clearIndexedDB] succeeds, empties the four
    stores and leaves the crawl state as it is.  The statistics then
    report no message and no channel, and the statistics of a channel,
    asked for by a string, a number or a falsy id, report no message and
    no crawl date. *)
Theorem cleared_store_reports_nothing (channel_id : Val) (w : World) :
  let w' := fst (clearIndexedDB w) in
  success (snd (clearIndexedDB w)) = true /\
  crawlState w' = crawlState w /\
  db w' = empty /\
  data (getIndexedDBStats w') !! "messageCount" = Some (VNum 0) /\
  data (getIndexedDBStats w') !! "channelCount" = Some (VNum 0) /\
  (Js.truthy channel_id = false \/ is_Some (valid_key channel_id) ->
   getChannelStats channel_id w'
   = sendResponseHelper true {[ "messageCount" := VNum 0; "lastCrawled" := VNull ]} None).
Proof.
  cbv zeta. cbn [clearIndexedDB fst snd success sendResponseHelper crawlState db clearAll].
  split; [reflexivity|]. split; [reflexivity|]. split; [reflexivity|].
  split; [reflexivity|]. split; [reflexivity|].
  intros Hcase. unfold getChannelStats, getChannel, _getData. cbn [db channels empty].
  destruct (Js.truthy channel_id) eqn:Ht; [|reflexivity].
  destruct Hcase as [? | [k Hk]]; [discriminate|].
  rewrite Hk. reflexivity.
Qed.

(** X24.  (statistics after a stop).  After a stop request during a crawl of a
    stored channel, the statistics of that channel succeed and give the
    time of the stop as the date of the last crawl, and the same number
    of messages as before the stop. *)
Theorem stats_report_the_stop_time
    (now : string) (w : World) (c : string) (old : gmap string Val) :
  isCrawling (crawlState w) = true ->
  currentChannel (crawlState w) = VStr c -> c <> "" ->
  channels (db w) !! KStr c = Some (VObj old) ->
  Js.get (VObj old) "channel_id" = VStr c ->
  now <> "" ->
  let w' := fst (fst (stopCrawl now w)) in
  success (getChannelStats (VStr c) w') = true /\
  data (getChannelStats (VStr c) w') !! "lastCrawled" = Some (VStr now) /\
  data (getChannelStats (VStr c) w') !! "messageCount"
    = data (getChannelStats (VStr c) w) !! "messageCount".
Proof.
  intros Hon Hc Hne Hold Hid Hnow. cbv zeta.
  unfold stopCrawl. rewrite Hon. simpl negb. cbv iota. cbn [fst].
  rewrite (stamp_writes now w c old Hc Hne Hold Hid).
  assert (Hstat : forall (w0 : World) (v : Val),
            channels (db w0) !! KStr c = Some v -> Js.truthy v = true ->
            getChannelStats (VStr c) w0
            = sendResponseHelper true
                {[ "messageCount" := VNum (Z.of_nat (fst (getMessageCount (VStr c) (db w0))));
                   "lastCrawled" := Js.or (Js.get v "last_crawled_at") VNull ]}
                None).
  { intros w0 v Hv Htv. unfold getChannelStats, getChannel, _getData, getMessageCount.
    rewrite (truthy_VStr c Hne). simpl negb. cbv iota. simpl valid_key. cbv iota.
    rewrite Hv. cbn [default from_option id].
    assert (Hor : Js.or v VNull = v) by (unfold Js.or; now rewrite Htv).
    rewrite Hor, Htv. reflexivity. }
  rewrite (Hstat w (VObj old) Hold eq_refl).
  rewrite (Hstat _ (channelData (VObj old) (VObj (<["last_crawled_at" := VStr now]> old))))
    by (reflexivity || (cbn [db channels set_channels]; apply lookup_insert_eq)).
  cbn [success data sendResponseHelper].
  split; [reflexivity|].
  assert (Hlook : forall x y : Val,
            ({[ "messageCount" := x; "lastCrawled" := y ]} : gmap string Val)
              !! "lastCrawled" = Some y /\
            ({[ "messageCount" := x; "lastCrawled" := y ]} : gmap string Val)
              !! "messageCount" = Some x) by (intros; split; reflexivity).
  rewrite !(proj1 (Hlook _ _)), !(proj2 (Hlook _ _)).
  split; [|reflexivity]. f_equal.
  rewrite (get_channelData_last_crawled_at (VObj old)).
  assert (Hl : Js.get (VObj (<["last_crawled_at" := VStr now]> old)) "last_crawled_at"
               = VStr now) by (simpl; now rewrite lookup_insert_eq).
  rewrite Hl. cbn [Js.defined]. unfold Js.or. now rewrite (truthy_VStr now Hnow).
Qed.
End StatsFacts.

(** ** Integrity of the export database *)

Section ExportIntegrityFacts.
Import Sqlite Exporter ExportSpec ExportIntegrity.














End ExportIntegrityFacts.

(** ** From the start of a crawl to the store; scenarios *)

Section StartToStore.
Import Dom ScraperService Extractor.

Lemma pass_step_ids_nonempty now acc e :
  Forall (fun m => message_id m <> "") (messages acc) ->
  Forall (fun m => message_id m <> "") (messages (pass_step now acc e)).
Proof.
  intros H. unfold pass_step.
  destruct (parseMessage now e (lastSeenAuthorId acc) (state acc)) as [[p|] s'] eqn:Hp;
    [|exact H].
  cbn [messages]. apply Forall_app. split; [exact H|].
  constructor; [|constructor].
  now destruct (parseMessage_record _ _ _ _ _ _ Hp).
Qed.

Lemma extract_ids_nonempty now s :
  Forall (fun m => message_id m <> "")
         (fst (fst (extractExistingMessages now s))).
Proof.
  unfold extractExistingMessages.
  destruct (message_elements (page s)) as [es|]; [|constructor].
  cbn [fst].
  assert (G : forall acc, Forall (fun m => message_id m <> "") (messages acc) ->
                          Forall (fun m => message_id m <> "")
                                 (messages (fold_left (pass_step now) es acc))).
  { induction es as [|e es IH]; intros acc H; [exact H|].
    cbn [fold_left]. apply IH. now apply pass_step_ids_nonempty. }
  apply G. constructor.
Qed.

(** X21.  (from the page to the store).  When [startCrawling] finds messages
    on the page, the request it sends last is answered by the background
    worker with success, and afterwards every message found is in the
    messages store under its id, every user found is in the users store
    under its id, and the message count has grown by the number of
    messages found. *)
Theorem messages_found_at_start_reach_the_store
    (now later : string) (activeTab : option Background.Tab) (delivery : option string)
    (s : State) (msgs : list Message) (usrs : list User) (s2 : State)
    (w : Background.World) :
  isCrawling s = false ->
  extractExistingMessages now
    (updateContext (set_processedMessageIds ∅ (set_isCrawling true s)))
    = (msgs, usrs, s2) ->
  msgs <> [] ->
  exists request,
    last (sent (startCrawling now s)) = Some request /\
    let result := Background.onMessage later activeTab delivery request w in
    Background.success (snd (fst result)) = true /\
    (forall m, m ∈ msgs ->
       IndexedDB.messages (Background.db (fst (fst result)))
         !! IndexedDB.KStr (message_id m) = Some (Encode.message m)) /\
    (forall u, u ∈ usrs ->
       IndexedDB.users (Background.db (fst (fst result)))
         !! IndexedDB.KStr (u_user_id u) = Some (Encode.user u)) /\
    Background.messageCount (Background.crawlState (fst (fst result)))
      = (Background.messageCount (Background.crawlState w)
         + Z.of_nat (length msgs))%Z.
Proof.
  intros Hoff Hx Hne.
  destruct (startCrawling_session now s msgs usrs s2 Hoff Hx) as (_ & _ & _ & Hlast & _).
  destruct (extract_pass_spec now now _ msgs usrs s2 Hx)
    as (Hnd & _ & _ & _ & Hund & _ & Husers & _).
  pose proof (extract_ids_nonempty now
                (updateContext (set_processedMessageIds ∅ (set_isCrawling true s))))
    as Hids.
  rewrite Hx in Hids. cbn [fst] in Hids.
  assert (Hune : Forall (fun u => u_user_id u <> "") usrs).
  { apply Forall_forall. intros u Hu. now destruct (Husers u Hu). }
  exists (save_request (startCrawling now s) usrs msgs).
  split; [exact (Hlast Hne)|].
  destruct (save_request_stored later activeTab delivery (startCrawling now s)
              usrs msgs w Hids Hnd Hune Hund)
    as (Hs & _ & Hm & _ & Hu & Hc & _).
  cbv zeta. auto.
Qed.
End StartToStore.

Section FurtherWitnesses.
Import JsString Dom ScraperService Extractor Fixture Scenario.

Lemma message_element_id_is_numeric_part_witness :
  extractMessageId (item 0) = Some "100" /\ "100" <> "" /\ all_digits "100" = true.
Proof.
  apply (message_element_id_is_numeric_part (item 0) "chat-messages-1-100" "100").
  - vm_compute; reflexivity.
  - exists "1". repeat split; try discriminate; reflexivity.
Defined.

Lemma avatar_user_id_is_numeric_witness :
  "42" <> "" /\ all_digits "42" = true /\
  exists img, avatar = Some img /\ src img <> "".
Proof.
  apply (avatar_user_id_is_numeric avatar "42"). vm_compute; reflexivity.
Defined.

Lemma exported_channel_url_reads_back_witness :
  extractIdsFromUrl (mkPage (Exporter.channel_url stored_channel) document
                            (mkScrollBox 0 500 3000))
  = (Some "7", Some "1").
Proof.
  apply (exported_channel_url_reads_back stored_channel "7" "1");
    solve [reflexivity | discriminate].
Defined.

Lemma parsed_records_are_well_formed_witness :
  message_id (message (parsed_at pass0 (item 0))) <> "" /\
  channel_id (message (parsed_at pass0 (item 0))) = ctx_channel_id (context service) /\
  Forall (fun r => emoji r <> "" /\ count r <> 0%Z)
         (reactions (message (parsed_at pass0 (item 0)))).
Proof.
  destruct (parsed_records_are_well_formed "2025-06-01T12:00:00.000Z" (item 0) None
              service (parsed_at pass0 (item 0)) (snd (parse_at pass0 (item 0))))
    as (H1 & _ & H3 & H4 & _); [vm_compute; reflexivity|].
  exact (conj H1 (conj H3 H4)).
Defined.

Lemma parseMessage_reports_every_tenth_witness :
  sent (snd (parseMessage "t0" (item 0) None nine_seen))
  = [UpdateCrawlStatus None None None None (Some 10%Z)].
Proof.
  destruct (parseMessage_reports_every_tenth "t0" (item 0) None nine_seen
              (fst (parseMessage "t0" (item 0) None nine_seen))
              (snd (parseMessage "t0" (item 0) None nine_seen)))
    as (_ & _ & _ & _ & _ & _ & Hsome); [vm_compute; reflexivity|].
  destruct Hsome as [_ Hsent]; [vm_compute; discriminate|].
  rewrite Hsent. vm_compute. reflexivity.
Defined.

Lemma extraction_pass_is_deduplicated_witness :
  NoDup (map message_id (fst (fst first_pass))) /\
  processed_size (snd first_pass) = 4%nat /\
  extractExistingMessages "2025-06-02T00:00:00.000Z" (snd first_pass)
  = ([], [], snd first_pass).
Proof.
  destruct (extraction_pass_is_deduplicated "2025-06-01T12:00:00.000Z"
              "2025-06-02T00:00:00.000Z" service
              (fst (fst first_pass)) (snd (fst first_pass)) (snd first_pass))
    as (Hnd & _ & _ & Hsize & _ & _ & _ & Hagain); [vm_compute; reflexivity|].
  split; [exact Hnd|]. split; [|exact Hagain].
  rewrite Hsize. vm_compute. reflexivity.
Defined.

Lemma start_opens_a_fresh_session_witness :
  isCrawling started = true /\ processed_size started = 4%nat.
Proof.
  destruct (start_opens_a_fresh_session "2025-06-01T12:00:00.000Z" service
              (fst (fst opening_pass)) (snd (fst opening_pass)) (snd opening_pass))
    as (Hon & _ & Hsize & _); [reflexivity | vm_compute; reflexivity |].
  split; [exact Hon|]. unfold started. rewrite Hsize. vm_compute. reflexivity.
Defined.

Lemma stop_halts_scrolling_once_witness :
  isCrawling (stopCrawling stalled) = false /\
  stopCrawling (stopCrawling stalled) = stopCrawling stalled.
Proof.
  destruct (stop_halts_scrolling_once stalled) as (H1 & _ & _ & _ & _ & _ & H7);
    [reflexivity|].
  exact (conj H1 H7).
Defined.

Lemma stopped_engine_stays_idle_witness :
  isCrawling (run_callback PerformScrollCycle service) = false /\
  sent (run_callback PerformScrollCycle service) = sent service.
Proof.
  destruct (stopped_engine_stays_idle PerformScrollCycle service)
    as (_ & H2 & _ & H4 & _); [reflexivity|].
  exact (conj H2 H4).
Defined.

Lemma reached_top_check_witness :
  fst (checkIfReachedTop stalled) = true /\
  isCrawling (snd (checkIfReachedTop stalled)) = false.
Proof.
  destruct (reached_top_check stalled) as (Hiff & Hic & _); [reflexivity|].
  assert (Htop : fst (checkIfReachedTop stalled) = true).
  { apply Hiff. split; [vm_compute; reflexivity|].
    split; [vm_compute; lia | vm_compute; reflexivity]. }
  split; [exact Htop|]. rewrite Hic, Htop. reflexivity.
Defined.

Lemma messages_found_at_start_reach_the_store_witness :
  exists request,
    last (sent started) = Some request /\
    Background.success
      (snd (fst (Background.onMessage "2025-06-01T12:00:01.000Z" None None request
                   idle_world))) = true.
Proof.
  destruct (messages_found_at_start_reach_the_store "2025-06-01T12:00:00.000Z"
              "2025-06-01T12:00:01.000Z" None None service
              (fst (fst opening_pass)) (snd (fst opening_pass)) (snd opening_pass)
              idle_world)
    as (request & Hlast & Hok & _);
    [reflexivity | vm_compute; reflexivity | vm_compute; discriminate |].
  exists request. split; [exact Hlast | exact Hok].
Defined.
End FurtherWitnesses.

Section StoreScenarioWitnesses.
Import IndexedDB StoreSpec Background Fixture Scenario.

Lemma batch_upsert_last_write_wins_witness :
  fst (put_each "user_id" [alice; bob; alice_renamed] ∅) !! KStr "42"
  = Some alice_renamed /\
  fst (put_each "user_id" [alice; bob; alice_renamed] ∅) !! KStr "43" = Some bob.
Proof.
  destruct (batch_upsert_last_write_wins "user_id" [alice; bob; alice_renamed] ∅)
    as (_ & Hlook & _).
  - repeat constructor; intros _; eexists; vm_compute; reflexivity.
  - split; rewrite Hlook; vm_compute; reflexivity.
Defined.

Lemma batch_stops_at_an_invalid_key_witness :
  put_each "user_id" ([alice] ++ flagged :: [bob])%list ∅
  = (fst (put_each "user_id" [alice] ∅), Rejected "DataError").
Proof.
  apply (batch_stops_at_an_invalid_key "user_id" [alice] [bob] flagged ∅).
  - vm_compute; reflexivity.
  - reflexivity.
  - left. vm_compute; reflexivity.
Defined.

Lemma store_well_keyed : well_keyed store.
Proof.
  refine (conj _ (conj _ (conj _ _))); intros k v H;
    unfold store, set_channels in H; simpl in H;
    try (rewrite lookup_empty in H; discriminate).
  apply lookup_singleton_Some in H as [<- <-].
  split; [unfold stored_channel; eauto | reflexivity].
Qed.

Lemma handlers_keep_records_under_their_keys_witness :
  well_keyed (db (fst (fst (onMessage "2025-06-01T12:00:00.000Z" None None
                              initial_save crawling_world)))).
Proof.
  exact (proj1 (handlers_keep_records_under_their_keys "2025-06-01T12:00:00.000Z"
                  None None initial_save 5 None crawling_world store_well_keyed)).
Defined.

Lemma stop_stamps_the_channel_and_resets_witness :
  Js.get (channel_at (db (fst (fst (stopCrawl "2025-06-01T12:00:00.000Z"
                                      crawling_world)))) (KStr "1"))
         "last_crawled_at" = VStr "2025-06-01T12:00:00.000Z" /\
  crawlState (fst (fst (stopCrawl "2025-06-01T12:00:00.000Z" crawling_world)))
  = initialCrawlState.
Proof.
  destruct (stop_stamps_the_channel_and_resets "2025-06-01T12:00:00.000Z"
              crawling_world "1" stored_fields)
    as (_ & Hreset & Hstamp & _);
    [reflexivity | reflexivity | discriminate | vm_compute; reflexivity
    | vm_compute; reflexivity |].
  exact (conj Hstamp Hreset).
Defined.

Lemma stop_without_a_stored_channel_only_resets_witness :
  db (fst (fst (stopCrawl "2025-06-01T12:00:00.000Z" unsaved_world))) = empty.
Proof.
  destruct (stop_without_a_stored_channel_only_resets "2025-06-01T12:00:00.000Z"
              unsaved_world) as (Hdb & _).
  - reflexivity.
  - right. exists (KStr "1"). split; reflexivity.
  - exact Hdb.
Defined.

Lemma finished_crawl_report_ends_the_session_witness :
  ScraperService.sent (ScraperService.stopCrawling stalled)
  = (ScraperService.sent stalled ++ [Scrolling.end_report])%list.
Proof.
  exact (proj1 (finished_crawl_report_ends_the_session "2025-06-01T12:00:00.000Z"
                  None None stalled crawling_world eq_refl)).
Defined.

Lemma crawl_batch_reaches_the_store_witness :
  success (snd (fst (onMessage "2025-06-01T12:00:00.000Z" None None
                       (ScraperService.save_request service batch_users batch_messages)
                       crawling_world))) = true.
Proof.
  destruct (crawl_batch_reaches_the_store "2025-06-01T12:00:00.000Z" None None
              service batch_users batch_messages crawling_world) as (Hok & _).
  - repeat constructor; discriminate.
  - apply (bool_decide_unpack _). vm_compute. exact I.
  - repeat constructor; discriminate.
  - apply (bool_decide_unpack _). vm_compute. exact I.
  - exact Hok.
Defined.

Lemma start_claims_the_tab_or_fails_witness :
  db (fst (fst (startCrawl (Some discord_tab) None idle_world))) = db idle_world.
Proof.
  exact (proj1 (start_claims_the_tab_or_fails (Some discord_tab) None idle_world eq_refl)).
Defined.

Lemma stats_report_the_stop_time_witness :
  data (getChannelStats (VStr "1")
          (fst (fst (stopCrawl "2025-06-01T12:00:00.000Z" crawling_world))))
    !! "lastCrawled" = Some (VStr "2025-06-01T12:00:00.000Z").
Proof.
  destruct (stats_report_the_stop_time "2025-06-01T12:00:00.000Z"
              crawling_world "1" stored_fields)
    as (_ & Hlast & _);
    [reflexivity | reflexivity | discriminate | vm_compute; reflexivity
    | vm_compute; reflexivity | discriminate |].
  exact Hlast.
Defined.
End StoreScenarioWitnesses.

Section ExportIntegrityWitnesses.
Import Sqlite Exporter ExportSpec ExportIntegrity Fixture.

End ExportIntegrityWitnesses.

(** ** The context and the timestamp of a message *)

Section ContextFacts.
Import JsString Dom ScraperService.

Lemma trimmed_text_nonempty e : trimmed_text e <> Some "".
Proof.
  unfold trimmed_text. destruct (String.eqb_spec (trim (textContent e)) "") as [|Hne];
    [discriminate|]. intros [= H]. contradiction.
Qed.

Lemma extractServerName_nonempty p : extractServerName p <> Some "".
Proof.
  unfold extractServerName.
  repeat match goal with
         | |- context [match ?x with Some _ => _ | None => _ end] =>
             destruct x; try apply trimmed_text_nonempty; try discriminate
         end.
Qed.

Lemma extractChannelName_nonempty p : extractChannelName p <> Some "".
Proof.
  unfold extractChannelName.
  repeat match goal with
         | |- context [match ?x with Some _ => _ | None => _ end] =>
             destruct x; try apply trimmed_text_nonempty; try discriminate
         end.
Qed.

Lemma extractIdsFromUrl_pairs p :
  extractIdsFromUrl p = (None, None) \/
  exists sid cid,
    extractIdsFromUrl p = (Some sid, Some cid) /\
    sid <> "" /\ all_digits sid = true /\ cid <> "" /\ all_digits cid = true.
Proof.
  unfold extractIdsFromUrl.
  destruct (Regex.search Regex.channel_url (href p)) as [caps|] eqn:Hs; [|now left].
  pose proof (search_captures_digits _ _ _ Hs) as Hd.
  pose proof (search_captures_nonempty _ _ _ Hs) as Hn.
  destruct caps as [|sid [|cid [|x caps]]]; try (now left).
  right. exists sid, cid.
  inversion Hd as [|? ? Hd1 Hd']; subst. inversion Hd' as [|? ? Hd2 _]; subst.
  inversion Hn as [|? ? Hn1 Hn']; subst. inversion Hn' as [|? ? Hn2 _]; subst.
  auto.
Qed.

(** X26.  (the context of the page).  After [updateContext] the server id
    and channel id of the context are what [extractIdsFromUrl] reads from
    the address of the page: both absent, or both non-empty strings of
    decimal digits.  The server name and channel name are absent or not
    empty.  A second [updateContext] gives the same context.  The crawl
    flag, the processed ids, the page and the timers are unchanged, and a
    status update with the channel id, the names and the number of
    processed ids is sent exactly when the service is crawling. *)
Theorem context_ids_come_from_the_url (s : State) :
  let c := context (updateContext s) in
  (ctx_server_id c, ctx_channel_id c) = extractIdsFromUrl (page s) /\
  (ctx_server_id c = None /\ ctx_channel_id c = None \/
   exists sid cid,
     ctx_server_id c = Some sid /\ ctx_channel_id c = Some cid /\
     sid <> "" /\ all_digits sid = true /\ cid <> "" /\ all_digits cid = true) /\
  ctx_server_name c <> Some "" /\
  ctx_channel_name c <> Some "" /\
  context (updateContext (updateContext s)) = c /\
  isCrawling (updateContext s) = isCrawling s /\
  processedMessageIds (updateContext s) = processedMessageIds s /\
  page (updateContext s) = page s /\
  timers (updateContext s) = timers s /\
  sent (updateContext s)
    = (sent s ++ if isCrawling s
                 then [UpdateCrawlStatus None (ctx_channel_id c) (ctx_channel_name c)
                         (ctx_server_name c)
                         (Some (Z.of_nat (processed_size s)))]
                 else [])%list.
Proof.
  cbv zeta.
  assert (Hctx : forall s0, context (updateContext s0)
                 = mkContext (fst (extractIdsFromUrl (page s0)))
                     (extractServerName (page s0))
                     (snd (extractIdsFromUrl (page s0)))
                     (extractChannelName (page s0))).
  { intros s0. unfold updateContext. cbn [isCrawling set_context].
    destruct (isCrawling s0); reflexivity. }
  assert (Hpage : page (updateContext s) = page s).
  { unfold updateContext. cbn [isCrawling set_context].
    destruct (isCrawling s); reflexivity. }
  rewrite !Hctx, Hpage. cbn [ctx_server_id ctx_channel_id ctx_server_name ctx_channel_name].
  split; [now destruct (extractIdsFromUrl (page s))|].
  split.
  { destruct (extractIdsFromUrl_pairs (page s)) as [-> | (sid & cid & -> & H)].
    - left. split; reflexivity.
    - right. exists sid, cid. cbn [fst snd]. auto. }
  split; [apply extractServerName_nonempty|].
  split; [apply extractChannelName_nonempty|].
  split; [reflexivity|].
  unfold updateContext, processed_size.
  destruct s as [ic ids si sci lmc nnm ctx pg tm nt snt]. cbn.
  destruct ic; cbn; rewrite ?app_nil_r; repeat split; reflexivity.
Qed.
End ContextFacts.

Section TimestampFacts.
Import JsString Dom ScraperService.

Lemma datetime_of_nonempty e d : datetime_of e = Some d -> d <> "".
Proof.
  unfold datetime_of. destruct (getAttribute e "datetime") as [x|]; [|discriminate].
  destruct (String.eqb_spec x ""); [discriminate|]. now intros [= <-].
Qed.

Lemma first_datetime_nonempty e sels d : first_datetime e sels = Some d -> d <> "".
Proof.
  induction sels as [|sel rest IH]; cbn [first_datetime]; [discriminate|].
  destruct (querySelector e sel) as [elem|]; [|exact IH].
  destruct (datetime_of elem) as [x|] eqn:Hx; [|exact IH].
  intros [= <-]. eapply datetime_of_nonempty; eassumption.
Qed.

(** X27.  (timestamp of a message).  With a clock that reads a non-empty
    string, [extractTimestamp] never returns the empty string.  It
    returns the [datetime] attribute of the first [time] element when
    that attribute is not empty, and the reading of the clock when the
    element has neither a [time] element nor an element whose class
    contains [timestamp]. *)
Theorem message_timestamp_is_never_empty (now : string) (element : Element) :
  now <> "" ->
  extractTimestamp now element <> "" /\
  (forall t d, querySelector element [tag "TIME"] = Some t ->
               getAttribute t "datetime" = Some d -> d <> "" ->
               extractTimestamp now element = d) /\
  (querySelector element [tag "TIME"] = None ->
   querySelector element [attr "class" AttrContains "timestamp"] = None ->
   extractTimestamp now element = now).
Proof.
  intros Hnow. unfold extractTimestamp. split; [|split].
  - destruct (querySelector element [tag "TIME"] ≫= datetime_of) as [d|] eqn:Hd.
    + destruct (querySelector element [tag "TIME"]) as [t|]; [|discriminate].
      cbn in Hd. eapply datetime_of_nonempty; eassumption.
    + destruct (first_datetime element _) as [d|] eqn:Hf; cbn [default from_option id].
      * eapply first_datetime_nonempty; eassumption.
      * exact Hnow.
  - intros t d Ht Hd Hne. rewrite Ht. cbn. unfold datetime_of. rewrite Hd.
    now rewrite (eqb_empty_false d Hne).
  - intros Ht Hc. rewrite Ht. cbn [mbind option_bind]. cbn [first_datetime].
    rewrite Hc, Ht. reflexivity.
Qed.
End TimestampFacts.

Section TimestampWitnesses.
Import Dom ScraperService Fixture.

Lemma message_timestamp_is_never_empty_witness :
  extractTimestamp "2025-06-01T12:00:00.000Z" (item 0) = "2025-01-01T00:00:00.000Z" /\
  extractTimestamp "2025-06-01T12:00:00.000Z" (item 1) = "2025-06-01T12:00:00.000Z".
Proof.
  destruct (message_timestamp_is_never_empty "2025-06-01T12:00:00.000Z" (item 0))
    as (_ & Hfirst & _); [discriminate|].
  destruct (message_timestamp_is_never_empty "2025-06-01T12:00:00.000Z" (item 1))
    as (_ & _ & Hnow); [discriminate|].
  split.
  - apply (Hfirst (default (item 0) (querySelector (item 0) [tag "TIME"])));
      [vm_compute; reflexivity | vm_compute; reflexivity | discriminate].
  - apply Hnow; vm_compute; reflexivity.
Defined.
End TimestampWitnesses.

(** ** Export without a usable channel *)

Section ExportWithoutChannels.
Import Sqlite Exporter ExportSpec.

Lemma export_channel_skips acc channel :
  Js.truthy channel = false \/
  Js.truthy (Js.get channel "server_id") = false \/
  Js.truthy (Js.get channel "channel_id") = false ->
  export_channel acc channel = acc.
Proof.
  intros H. unfold export_channel. destruct acc as [d m].
  destruct H as [-> | [-> | ->]]; simpl; rewrite ?orb_true_r; reflexivity.
Qed.

Lemma export_messages_without_map ms acc :
  fold_left (export_message []) ms acc = acc.
Proof.
  induction ms as [|m ms IH]; [reflexivity|].
  cbn [fold_left]. rewrite export_message_skips; [apply IH|].
  right. right. right. reflexivity.
Qed.

(** X28.  (export without a usable channel).  When the snapshot has
    messages but every channel record of it is falsy or lacks a truthy
    [server_id] or [channel_id] (in particular when it has no channel
    records), the exporter throws [No valid messages could be exported],
    whatever the users and messages are. *)
Theorem export_needs_a_usable_channel
    (fk : bool) (data : Snapshot) (m : Val) (ms : list Val) :
  snap_messages data = Some (m :: ms) ->
  Forall (fun channel =>
            Js.truthy channel = false \/
            Js.truthy (Js.get channel "server_id") = false \/
            Js.truthy (Js.get channel "channel_id") = false)
         (default [] (snap_channels data)) ->
  exportDatabaseFromIndexedDB fk (Some data)
  = Thrown "No valid messages could be exported".
Proof.
  intros Hm Hch. unfold exportDatabaseFromIndexedDB. rewrite Hm.
  unfold fill, export_channels.
  assert (Hskip : forall acc,
            fold_left export_channel (default [] (snap_channels data)) acc = acc).
  { induction Hch as [|c cs Hc _ IH]; intros acc; [reflexivity|].
    cbn [fold_left]. rewrite export_channel_skips by exact Hc. apply IH. }
  rewrite Hskip. unfold export_messages. rewrite export_messages_without_map.
  reflexivity.
Qed.
End ExportWithoutChannels.

Section ExportWithoutChannelsWitness.
Import Sqlite Exporter ExportSpec Fixture.

Lemma export_needs_a_usable_channel_witness :
  exportDatabaseFromIndexedDB true
    (Some (mkSnapshot None None (Some [alice; bob]) (Some [hello; again])))
  = Thrown "No valid messages could be exported" /\
  exportDatabaseFromIndexedDB false
    (Some (mkSnapshot None
             (Some [VObj {[ "channel_id" := VStr "1"; "channel_name" := VStr "general" ]}])
             (Some [alice; bob]) (Some [hello; again])))
  = Thrown "No valid messages could be exported".
Proof.
  split.
  - apply (export_needs_a_usable_channel true _ hello [again]); [reflexivity|].
    constructor.
  - apply (export_needs_a_usable_channel false _ hello [again]); [reflexivity|].
    constructor; [|constructor]. right. left. vm_compute; reflexivity.
Defined.
End ExportWithoutChannelsWitness.
